(** * Student Performance Management System: model and properties

    A shallow embedding of [student_system.py].  The program is a console
    front end over one MySQL table, a CSV file and pandas; the embedding
    keeps the program text (the Database gateway, the StudentManager
    operations, the input helpers and the menu loop) and places what lies
    outside the program (the server, the file system, the keyboard) in an
    explicit [World] that every operation threads through.

    Conventions.
    - Python exceptions are values of [PyExc]; a computation of type [M A]
      takes a world and yields either a value or a raised exception,
      together with the world it leaves behind.
    - Everything printed, every connection attempt and every statement
      handed to the cursor is appended to the world's trace [out].
    - Printed texts are the source's, without the leading status glyph
      and without a leading blank line. *)

From Stdlib Require Import List String Ascii ZArith QArith Bool Arith Lia.
From Stdlib Require Import Permutation Sorted.
Import ListNotations.
Close Scope Q_scope.
Open Scope string_scope.
Open Scope list_scope.
Open Scope nat_scope.

(** ** Python values *)

(** A Python float: a finite value (kept as an exact rational), an
    infinity, or not-a-number. *)
Inductive pyfloat : Type :=
| Fin (q : Q)
| PosInf
| NegInf
| NaN.

(** The values the program moves between the keyboard, the cursor, the
    CSV file and the data frame. *)
Inductive pyval : Type :=
| PStr (s : string)
| PFloat (f : pyfloat)
| PInt (z : Z)
| PBool (b : bool)
| PNone.

(** A cursor row ([dictionary=True]): column name to value, in column
    order. *)
Definition Dict : Type := list (string * pyval).

Fixpoint dict_get (k : string) (d : Dict) : option pyval :=
  match d with
  | [] => None
  | (k', v) :: d' => if String.eqb k k' then Some v else dict_get k d'
  end.

Definition keys (d : Dict) : list string := map fst d.

(** ** Exceptions *)

(** Why the server turned a statement down. *)
Inductive DbFailure : Type :=
| Duplicate      (* primary key already present *)
| Refused        (* the server rejected the statement *)
| BadValue.      (* a bound value does not fit its column *)

Inductive PyExc : Type :=
| MySQLError (why : DbFailure)       (* mysql.connector.Error *)
| RuntimeError (msg : string)
| ValueError (msg : string)
| TypeError (msg : string)
| KeyError (key : string)
| ParserError (msg : string)         (* pandas.errors *)
| EmptyDataError (msg : string)      (* pandas.errors *)
| OSError (msg : string)
| EOFError.

(** [except Error] *)
Definition is_Error (e : PyExc) : bool :=
  match e with MySQLError _ => true | _ => false end.

(** [except ValueError] *)
Definition is_ValueError (e : PyExc) : bool :=
  match e with ValueError _ => true | _ => false end.

(** [except Exception]: every class above derives from it. *)
Definition is_Exception (e : PyExc) : bool := true.

(** ** DATA CLASS *)

Record Student : Type := mkStudent {
  roll_no : string;
  name : string;
  marks : pyfloat;
  grade : string
}.

(** ** The students table *)

(** One stored row.  The schema is not part of the repository; the model
    takes [roll_no] as the text primary key, [name] and [grade] as text
    and [marks] as a nullable number. *)
Record Row : Type := mkRow {
  r_roll : string;
  r_name : string;
  r_marks : option Q;
  r_grade : string
}.

Definition marks_val (m : option Q) : pyval :=
  match m with
  | Some q => PFloat (Fin q)
  | None => PNone
  end.

(** The dictionary the cursor returns for [SELECT *]. *)
Definition dict_of_row (r : Row) : Dict :=
  [("roll_no", PStr (r_roll r)); ("name", PStr (r_name r));
   ("marks", marks_val (r_marks r)); ("grade", PStr (r_grade r))].

(** The dictionary for [SELECT roll_no, name, marks]. *)
Definition stats_dict_of_row (r : Row) : Dict :=
  [("roll_no", PStr (r_roll r)); ("name", PStr (r_name r));
   ("marks", marks_val (r_marks r))].

(** The dictionary for [SELECT marks]. *)
Definition marks_dict_of_row (r : Row) : Dict :=
  [("marks", marks_val (r_marks r))].

(** ** Statements *)

Inductive Column : Type := col_name | col_marks | col_grade.

(** The seven statement shapes of the program, with their bound
    parameters. *)
Inductive Sql : Type :=
| InsertStudent (p_roll p_name p_marks p_grade : pyval)
    (* INSERT INTO students (roll_no, name, marks, grade) VALUES (%s, %s, %s, %s) *)
| SelectAll
    (* SELECT * FROM students ORDER BY roll_no *)
| SelectByRoll (p_roll : pyval)
    (* SELECT * FROM students WHERE roll_no = %s *)
| UpdateStudent (updates : list Column) (params : list pyval)
    (* UPDATE students SET <updates> WHERE roll_no = %s ; the key is the last parameter *)
| DeleteByRoll (p_roll : pyval)
    (* DELETE FROM students WHERE roll_no = %s *)
| SelectStats
    (* SELECT roll_no, name, marks FROM students *)
| SelectMarks.
    (* SELECT marks FROM students *)

(** ** Text *)

(** Text is a sequence of characters; [ascii] covers the code points
    0 to 255. *)

(** [str.isspace] on one character. *)
Definition is_space (c : ascii) : bool :=
  let n := nat_of_ascii c in
  ((9 <=? n) && (n <=? 13)) || ((28 <=? n) && (n <=? 32))
  || (n =? 133) || (n =? 160).

Fixpoint lstrip_chars (l : list ascii) : list ascii :=
  match l with
  | c :: l' => if is_space c then lstrip_chars l' else l
  | [] => []
  end.

(** [str.strip()] *)
Definition strip (s : string) : string :=
  string_of_list_ascii
    (rev (lstrip_chars (rev (lstrip_chars (list_ascii_of_string s))))).

Definition lower_char (c : ascii) : ascii :=
  let n := nat_of_ascii c in
  if ((65 <=? n) && (n <=? 90))
     || ((192 <=? n) && (n <=? 222) && negb (n =? 215))
  then ascii_of_nat (n + 32) else c.

(** [str.lower()] *)
Fixpoint lower (s : string) : string :=
  match s with
  | EmptyString => EmptyString
  | String c s' => String (lower_char c) (lower s')
  end.

(** ** Float comparisons *)

Definition is_nan (x : pyfloat) : bool :=
  match x with NaN => true | _ => false end.

(** [a < b]; false as soon as one side is not-a-number. *)
Definition flt (a b : pyfloat) : bool :=
  match a, b with
  | NaN, _ | _, NaN => false
  | Fin x, Fin y => negb (Qle_bool y x)
  | NegInf, NegInf => false
  | NegInf, _ => true
  | _, NegInf => false
  | PosInf, _ => false
  | Fin _, PosInf => true
  end.

(** [a > b] *)
Definition fgt (a b : pyfloat) : bool := flt b a.

(** [a >= b] *)
Definition fge (a b : pyfloat) : bool :=
  match a, b with
  | NaN, _ | _, NaN => false
  | Fin x, Fin y => Qle_bool y x
  | _, NegInf => true
  | NegInf, _ => false
  | PosInf, _ => true
  | Fin _, PosInf => false
  end.

(** ** Numerals *)

(** What the libraries do between text and numbers, and the arithmetic
    of the pandas reductions on doubles, is taken as given: the program
    only calls it.  The reductions are handed the numbers of a column,
    the missing values already left out. *)
Record Numerals : Type := mkNumerals {
  py_float : string -> option pyfloat;
    (* float(s); None when it raises ValueError *)
  pd_float : string -> option pyfloat;
    (* the float reading of pandas: a read_csv field, a to_numeric text *)
  py_str_float : pyfloat -> string;
    (* str(x), as csv.DictWriter renders a float *)
  sql_float_text : Q -> string;
    (* the text the server keeps when a number is bound to a text column *)
  float_mean : list pyfloat -> pyfloat;
    (* the mean of one or more numbers *)
  float_median : list pyfloat -> pyfloat;
    (* the median of one or more numbers *)
  float_std : list pyfloat -> pyfloat
    (* the sample standard deviation (ddof=1) of two or more numbers *)
}.

Definition digit_val (c : ascii) : option Z :=
  let n := nat_of_ascii c in
  if (48 <=? n) && (n <=? 57) then Some (Z.of_nat (n - 48)) else None.

(** Value of a digit string read left to right. *)
Fixpoint digits_val (acc : Z) (l : list ascii) : option Z :=
  match l with
  | [] => Some acc
  | c :: l' =>
      match digit_val c with
      | Some d => digits_val (10 * acc + d) l'
      | None => None
      end
  end.

Definition split_sign (l : list ascii) : bool * list ascii :=
  match l with
  | "-"%char :: l' => (true, l')
  | "+"%char :: l' => (false, l')
  | _ => (false, l)
  end.

(** The integer field parser of pandas.read_csv: optional blanks, an
    optional sign, one or more digits (leading zeros allowed), within
    64 bits. *)
Definition pd_int (s : string) : option Z :=
  let '(neg, ds) := split_sign (list_ascii_of_string (strip s)) in
  match ds with
  | [] => None
  | _ =>
      match digits_val 0 ds with
      | Some v =>
          let z := if neg then (- v)%Z else v in
          if ((- 2 ^ 63 <=? z) && (z <? 2 ^ 63))%Z then Some z else None
      | None => None
      end
  end.

Definition digit_char (d : Z) : ascii := ascii_of_nat (48 + Z.to_nat d).

Fixpoint nat_digits (fuel : nat) (n : Z) (acc : list ascii) : list ascii :=
  match fuel with
  | O => acc
  | S fuel' =>
      let acc' := digit_char (n mod 10) :: acc in
      if (n / 10 =? 0)%Z then acc' else nat_digits fuel' (n / 10) acc'
  end.

(** Decimal text of an integer, as [str] and the server write it. *)
Definition int_text (z : Z) : string :=
  let body := nat_digits (S (Z.to_nat (Z.log2 (Z.abs z)))) (Z.abs z) [] in
  string_of_list_ascii (if (z <? 0)%Z then "-"%char :: body else body).

(** *** A sample reading

    One instance of [Numerals], for running the program on concrete
    inputs.  Decimal texts are read exactly (a text is not rounded to
    the nearest double and never overflows), digit groups with
    underscores are not read, and every arithmetic operation rounds its
    exact result to the nearest double. *)

Fixpoint split_dot (l : list ascii) : list ascii * option (list ascii) :=
  match l with
  | [] => ([], None)
  | "."%char :: l' => ([], Some l')
  | c :: l' => let '(a, b) := split_dot l' in (c :: a, b)
  end.

(** The mantissa and, after the first [e] or [E], the exponent. *)
Fixpoint split_exp (l : list ascii) : list ascii * option (list ascii) :=
  match l with
  | [] => ([], None)
  | "e"%char :: l' => ([], Some l')
  | "E"%char :: l' => ([], Some l')
  | c :: l' => let '(a, b) := split_exp l' in (c :: a, b)
  end.

(** A signed run of one or more digits. *)
Definition signed_digits (l : list ascii) : option Z :=
  let '(neg, ds) := split_sign l in
  match ds with
  | [] => None
  | _ => option_map (fun v => if neg then (- v)%Z else v) (digits_val 0 ds)
  end.

(** [10 ^ e] for any integer [e]. *)
Definition pow10 (e : Z) : Q :=
  if (0 <=? e)%Z then inject_Z (10 ^ e) else Qmake 1 (Z.to_pos (10 ^ (- e))).

(** Digits, optionally a point and more digits, optionally an exponent;
    without a sign. *)
Definition decimal_body (body : list ascii) : option Q :=
  let '(mant, ex) := split_exp body in
  let '(ip, fp) := split_dot mant in
  let fpd := match fp with Some f => f | None => [] end in
  match ip ++ fpd with
  | [] => None
  | _ =>
      match digits_val 0 (ip ++ fpd) with
      | Some v =>
          let q := Qred (Qmake v (Pos.of_nat (10 ^ List.length fpd))) in
          match ex with
          | None => Some q
          | Some el =>
              option_map (fun e => Qred (q * pow10 e)%Q) (signed_digits el)
          end
      | None => None
      end
  end.

(** The names of the infinities, in any case. *)
Definition is_inf_name (body : list ascii) : bool :=
  let t := lower (string_of_list_ascii body) in
  String.eqb t "inf" || String.eqb t "infinity".

(** [float(s)]: blanks around, a sign, then [nan], [inf] or [infinity]
    in any case, or a decimal numeral. *)
Definition decimal_float (s : string) : option pyfloat :=
  let '(neg, body) := split_sign (list_ascii_of_string (strip s)) in
  if String.eqb (lower (string_of_list_ascii body)) "nan" then Some NaN
  else if is_inf_name body then Some (if neg then NegInf else PosInf)
  else
    option_map (fun q => Fin (if neg then Qopp q else q)) (decimal_body body).

(** The float reading of pandas: as [float(s)], except that no name of
    not-a-number is a number (the reader knows the missing values by
    their own list of texts). *)
Definition decimal_pd_float (s : string) : option pyfloat :=
  match decimal_float s with
  | Some NaN => None
  | r => r
  end.

Fixpoint frac_digits (fuel : nat) (r d : Z) : list ascii :=
  match fuel with
  | O => []
  | S fuel' =>
      if (r =? 0)%Z then []
      else digit_char (10 * r / d) :: frac_digits fuel' ((10 * r) mod d) d
  end.

(** Decimal expansion of a finite value, at most 17 fractional digits;
    [point_zero] asks for [.0] on a whole number. *)
Definition decimal_text (point_zero : bool) (q : Q) : string :=
  let q' := Qred q in
  let n := Z.abs (Qnum q') in
  let d := Zpos (Qden q') in
  let ip := int_text (n / d) in
  let fp := frac_digits 17 (n mod d) d in
  let body :=
    match fp with
    | [] => if point_zero then (ip ++ ".0")%string else ip
    | _ => (ip ++ "." ++ string_of_list_ascii fp)%string
    end in
  if (Qnum q' <? 0)%Z then ("-" ++ body)%string else body.

Definition decimal_str_float (f : pyfloat) : string :=
  match f with
  | Fin q => decimal_text true q
  | PosInf => "inf"
  | NegInf => "-inf"
  | NaN => "nan"
  end.

(** [floor (log2 (n / d))] for positive [n] and [d]. *)
Definition log2_ratio (n d : Z) : Z :=
  let e := (Z.log2 n - Z.log2 d)%Z in
  if (if (0 <=? e)%Z then (d * 2 ^ e <=? n)%Z else (d <=? n * 2 ^ (- e))%Z)
  then e else (e - 1)%Z.

(** [n / d / 2 ^ p] as a fraction. *)
Definition scaled (n d p : Z) : Z * Z :=
  if (0 <=? p)%Z then (n, (d * 2 ^ p)%Z) else ((n * 2 ^ (- p))%Z, d).

(** [2 ^ p] for any integer [p]. *)
Definition pow2 (p : Z) : Q :=
  if (0 <=? p)%Z then inject_Z (2 ^ p) else Qmake 1 (Z.to_pos (2 ^ (- p))).

(** The integer nearest to [n / d], the even one of two that are equally
    near. *)
Definition round_half_even (n d : Z) : Z :=
  let m := (n / d)%Z in
  match (2 * (n mod d) ?= d)%Z with
  | Lt => m
  | Gt => (m + 1)%Z
  | Eq => if Z.even m then m else (m + 1)%Z
  end.

(** The double nearest to a rational: 53 significant bits, exponents
    down to the subnormal range, an infinity from 2^1024 on. *)
Definition round_double (q : Q) : pyfloat :=
  let n := Z.abs (Qnum q) in
  let d := Zpos (Qden q) in
  if (n =? 0)%Z then Fin 0%Q
  else
    let p := Z.max (log2_ratio n d - 52) (- 1074) in
    let '(n', d') := scaled n d p in
    let v := Qred (inject_Z (round_half_even n' d') * pow2 p)%Q in
    if Qle_bool (inject_Z (2 ^ 1024)) v
    then (if (Qnum q <? 0)%Z then NegInf else PosInf)
    else Fin (if (Qnum q <? 0)%Z then Qred (- v)%Q else v).

(** The double nearest to the square root of a rational that is not
    negative. *)
Definition sqrt_double (q : Q) : pyfloat :=
  let n := Qnum q in
  let d := Zpos (Qden q) in
  if (n <=? 0)%Z then Fin 0%Q
  else
    let p := (log2_ratio n d / 2 - 52)%Z in
    let '(n', d') := scaled n d (2 * p) in
    let s := Z.sqrt (n' / d') in
    let m :=
      match Qcompare (Qmake n' (Z.to_pos d'))
                     (inject_Z (s * s + s) + (1 # 4))%Q with
      | Lt => s
      | Gt => (s + 1)%Z
      | Eq => if Z.even s then s else (s + 1)%Z
      end in
    round_double (inject_Z m * pow2 p)%Q.

(** [a + b] *)
Definition dadd (a b : pyfloat) : pyfloat :=
  match a, b with
  | NaN, _ | _, NaN => NaN
  | Fin x, Fin y => round_double (x + y)%Q
  | PosInf, NegInf | NegInf, PosInf => NaN
  | PosInf, _ | _, PosInf => PosInf
  | NegInf, _ | _, NegInf => NegInf
  end.

(** [- a] *)
Definition dneg (a : pyfloat) : pyfloat :=
  match a with
  | Fin x => Fin (Qred (- x)%Q)
  | PosInf => NegInf
  | NegInf => PosInf
  | NaN => NaN
  end.

(** [a - b] *)
Definition dsub (a b : pyfloat) : pyfloat := dadd a (dneg b).

(** [a ** 2] *)
Definition dsquare (a : pyfloat) : pyfloat :=
  match a with
  | Fin x => round_double (x * x)%Q
  | PosInf | NegInf => PosInf
  | NaN => NaN
  end.

(** [a / n] for a count [n] that is not zero. *)
Definition ddiv_nat (a : pyfloat) (n : nat) : pyfloat :=
  match a with
  | Fin x => round_double (x / inject_Z (Z.of_nat n))%Q
  | _ => a
  end.

(** The square root. *)
Definition dsqrt (a : pyfloat) : pyfloat :=
  match a with
  | Fin x => if (Qnum x <? 0)%Z then NaN else sqrt_double x
  | PosInf => PosInf
  | _ => NaN
  end.

(** The sum, taken from left to right. *)
Definition dsum (xs : list pyfloat) : pyfloat := fold_left dadd xs (Fin 0%Q).

Fixpoint insert_asc (x : pyfloat) (l : list pyfloat) : list pyfloat :=
  match l with
  | [] => [x]
  | y :: l' => if fge y x then x :: l else y :: insert_asc x l'
  end.

Definition sort_asc (xs : list pyfloat) : list pyfloat :=
  fold_right insert_asc [] xs.

(** The mean: the sum over the count. *)
Definition double_mean (ys : list pyfloat) : pyfloat :=
  ddiv_nat (dsum ys) (List.length ys).

(** The median: the middle value in ascending order, or the mean of the
    two middle ones. *)
Definition double_median (ys : list pyfloat) : pyfloat :=
  let s := sort_asc ys in
  let n := List.length s in
  if Nat.odd n then nth (n / 2) s NaN
  else ddiv_nat (dadd (nth (n / 2 - 1) s NaN) (nth (n / 2) s NaN)) 2.

(** The sample deviation: the root of the squared distances to the mean,
    summed and divided by one less than the count. *)
Definition double_std (ys : list pyfloat) : pyfloat :=
  let n := List.length ys in
  let avg := ddiv_nat (dsum ys) n in
  dsqrt (ddiv_nat (dsum (map (fun x => dsquare (dsub avg x)) ys)) (n - 1)).

Definition decimal_numerals : Numerals :=
  mkNumerals decimal_float decimal_pd_float decimal_str_float
             (decimal_text false) double_mean double_median double_std.

(** ** The world outside the program *)

(** A delimited text file, at the level of its fields: the header line
    and the data lines, one record per line, the header being line 1.
    Quoting is the csv module's business and is not modelled; blank
    lines, which the reader skips, are left out. *)
Record Csv : Type := mkCsv {
  csv_header : list string;
  csv_records : list (list string)
}.

Inductive FileContent : Type :=
| Table (c : Csv)
| Unreadable (e : PyExc).   (* what read_csv cannot decode or tokenize,
                               with the exception it raises *)

Inductive Event : Type :=
| Printed (text : string)                   (* print(text) *)
| PrintedExc (text : string) (e : PyExc)    (* print(text, e) *)
| PrintedNum (text : string) (x : pyfloat)  (* print(f"text {x:.2f}") *)
| PrintedFrame (rows : list Dict)           (* print(df.to_string(index=False)) *)
| Asked (prompt : string)                   (* input(prompt) *)
| Connecting (ok : bool)                    (* mysql.connector.connect(...) *)
| Sent (q : Sql)                            (* cursor.execute(query, params) *)
| Committed                                 (* conn.commit() *)
| Saved (path : string)                     (* the file was written and closed *)
| Shown (xs : list pyval).                  (* plt.hist(xs, bins=10); plt.show() *)

Record World : Type := mkWorld {
  table : list Row;        (* the students table, in the order a scan returns it *)
  live : bool;             (* self.conn and self.conn.is_connected() *)
  connects : list bool;    (* outcome of each coming connection attempt;
                              when none is listed the server is reachable *)
  faults : list bool;      (* for each coming statement, whether the server
                              rejects it; when none is listed it runs *)
  stdin : list string;     (* the lines still to be typed *)
  files : list (string * FileContent);
  read_only : bool;        (* opening a file for writing fails *)
  out : list Event         (* the trace so far, oldest first *)
}.

Definition set_table (t : list Row) (w : World) : World :=
  mkWorld t (live w) (connects w) (faults w) (stdin w) (files w)
          (read_only w) (out w).

Definition set_live (b : bool) (w : World) : World :=
  mkWorld (table w) b (connects w) (faults w) (stdin w) (files w)
          (read_only w) (out w).

Definition set_connects (l : list bool) (w : World) : World :=
  mkWorld (table w) (live w) l (faults w) (stdin w) (files w)
          (read_only w) (out w).

Definition set_faults (l : list bool) (w : World) : World :=
  mkWorld (table w) (live w) (connects w) l (stdin w) (files w)
          (read_only w) (out w).

Definition set_stdin (l : list string) (w : World) : World :=
  mkWorld (table w) (live w) (connects w) (faults w) l (files w)
          (read_only w) (out w).

Definition set_files (f : list (string * FileContent)) (w : World) : World :=
  mkWorld (table w) (live w) (connects w) (faults w) (stdin w) f
          (read_only w) (out w).

Definition emit (e : Event) (w : World) : World :=
  mkWorld (table w) (live w) (connects w) (faults w) (stdin w) (files w)
          (read_only w) (out w ++ [e]).

Fixpoint file_lookup (path : string) (fs : list (string * FileContent))
  : option FileContent :=
  match fs with
  | [] => None
  | (p, c) :: fs' => if String.eqb path p then Some c else file_lookup path fs'
  end.

Fixpoint file_store (path : string) (c : FileContent)
    (fs : list (string * FileContent)) : list (string * FileContent) :=
  match fs with
  | [] => [(path, c)]
  | (p, c') :: fs' =>
      if String.eqb path p then (p, c) :: fs'
      else (p, c') :: file_store path c fs'
  end.

(** ** Computations *)

Inductive Res (A : Type) : Type :=
| Val (a : A)
| Exn (e : PyExc).
Arguments Val {A} a.
Arguments Exn {A} e.

Definition M (A : Type) : Type := World -> Res A * World.

Definition ret {A} (a : A) : M A := fun w => (Val a, w).

Definition raise {A} (e : PyExc) : M A := fun w => (Exn e, w).

Definition bind {A B} (m : M A) (k : A -> M B) : M B :=
  fun w =>
    match m w with
    | (Val a, w') => k a w'
    | (Exn e, w') => (Exn e, w')
    end.

Notation "x <- m ;; k" := (bind m (fun x => k))
  (at level 100, m at next level, right associativity).
Notation "m ;;; k" := (bind m (fun _ => k))
  (at level 100, right associativity).

(** [try: body  except <cls> as e: handler e]; an exception outside the
    class passes through. *)
Definition try_except {A} (body : M A) (cls : PyExc -> bool)
    (handler : PyExc -> M A) : M A :=
  fun w =>
    match body w with
    | (Val a, w') => (Val a, w')
    | (Exn e, w') => if cls e then handler e w' else (Exn e, w')
    end.

Definition print (text : string) : M unit :=
  fun w => (Val tt, emit (Printed text) w).

Definition print_exc (text : string) (e : PyExc) : M unit :=
  fun w => (Val tt, emit (PrintedExc text e) w).

Definition print_num (text : string) (x : pyfloat) : M unit :=
  fun w => (Val tt, emit (PrintedNum text x) w).

Definition print_frame (rows : list Dict) : M unit :=
  fun w => (Val tt, emit (PrintedFrame rows) w).

(** [input(prompt)]: the next typed line, or EOFError at end of input. *)
Definition input (prompt : string) : M string :=
  fun w =>
    match stdin w with
    | l :: rest => (Val l, set_stdin rest (emit (Asked prompt) w))
    | [] => (Exn EOFError, emit (Asked prompt) w)
    end.

(** Python truthiness of a text. *)
Definition nonempty (s : string) : bool :=
  match s with EmptyString => false | _ => true end.

Section Program.

Variable num : Numerals.

(** ** The server *)

(** The text a bound value becomes in a text column; [None] when the
    column cannot take it (NULL, which the connector also sends for
    not-a-number, and the infinities). *)
Definition bind_text (v : pyval) : option string :=
  match v with
  | PStr s => Some s
  | PInt z => Some (int_text z)
  | PBool b => Some (if b then "1" else "0")
  | PFloat (Fin q) => Some (sql_float_text num q)
  | PFloat _ => None
  | PNone => None
  end.

(** The content a bound value becomes in the [marks] column; the outer
    [None] when the column cannot take it, the inner one for NULL, which
    is what the connector sends for None and for not-a-number. *)
Definition bind_num (v : pyval) : option (option Q) :=
  match v with
  | PFloat (Fin q) => Some (Some q)
  | PFloat NaN => Some None
  | PFloat _ => None
  | PInt z => Some (Some (inject_Z z))
  | PBool b => Some (Some (if b then 1%Q else 0%Q))
  | PStr _ => None
  | PNone => Some None
  end.

(** [WHERE roll_no = %s]; a NULL parameter matches no row. *)
Definition key_matches (p : pyval) (r : Row) : bool :=
  match bind_text p with
  | Some k => String.eqb (r_roll r) k
  | None => false
  end.

Fixpoint insert_by_roll (r : Row) (l : list Row) : list Row :=
  match l with
  | [] => [r]
  | x :: l' =>
      if String.leb (r_roll r) (r_roll x) then r :: l
      else x :: insert_by_roll r l'
  end.

(** [ORDER BY roll_no], under a binary collation. *)
Definition order_by_roll (l : list Row) : list Row :=
  fold_right insert_by_roll [] l.

(** One [col=%s] assignment on one row. *)
Definition assign (r : Row) (cv : Column * pyval) : option Row :=
  let '(c, v) := cv in
  match c with
  | col_name =>
      option_map (fun s => mkRow (r_roll r) s (r_marks r) (r_grade r))
                 (bind_text v)
  | col_marks =>
      option_map (fun m => mkRow (r_roll r) (r_name r) m (r_grade r))
                 (bind_num v)
  | col_grade =>
      option_map (fun s => mkRow (r_roll r) (r_name r) (r_marks r) s)
                 (bind_text v)
  end.

Fixpoint assign_all (r : Row) (sets : list (Column * pyval)) : option Row :=
  match sets with
  | [] => Some r
  | cv :: sets' =>
      match assign r cv with
      | Some r' => assign_all r' sets'
      | None => None
      end
  end.

(** The SET clause applied to every row the key selects. *)
Fixpoint update_rows (sets : list (Column * pyval)) (key : pyval)
    (l : list Row) : option (list Row) :=
  match l with
  | [] => Some []
  | r :: l' =>
      match (if key_matches key r then assign_all r sets else Some r),
            update_rows sets key l' with
      | Some r', Some l'' => Some (r' :: l'')
      | _, _ => None
      end
  end.

(** A value the statement text can carry: the connector writes an
    infinity as the bare word [inf], which the server does not take for
    a value. *)
Definition sendable (v : pyval) : bool :=
  match v with
  | PFloat PosInf | PFloat NegInf => false
  | _ => true
  end.

(** What a statement does to the table and what it returns. *)
Definition run_sql (q : Sql) (t : list Row)
  : DbFailure + (list Row * list Dict) :=
  match q with
  | InsertStudent pr pn pm pg =>
      match bind_text pr, bind_text pn, bind_num pm, bind_text pg with
      | Some r, Some n, Some m, Some g =>
          if existsb (fun x => String.eqb (r_roll x) r) t
          then inl Duplicate
          else inr (t ++ [mkRow r n m g], [])
      | _, _, _, _ => inl BadValue
      end
  | SelectAll => inr (t, map dict_of_row (order_by_roll t))
  | SelectByRoll pr =>
      if sendable pr
      then inr (t, map dict_of_row (filter (key_matches pr) t))
      else inl BadValue
  | UpdateStudent updates params =>
      match updates, nth_error params (List.length updates) with
      | _ :: _, Some key =>
          if List.length params =? S (List.length updates) then
            if forallb sendable params then
              match update_rows (combine updates params) key t with
              | Some t' => inr (t', [])
              | None => inl BadValue
              end
            else inl BadValue
          else inl Refused
      | _, _ => inl Refused
      end
  | DeleteByRoll pr =>
      if sendable pr
      then inr (filter (fun r => negb (key_matches pr r)) t, [])
      else inl BadValue
  | SelectStats => inr (t, map stats_dict_of_row t)
  | SelectMarks => inr (t, map marks_dict_of_row t)
  end.

(** ** DATABASE HANDLER *)

(** [Database.connect] *)
Definition connect : M bool :=
  fun w =>
    match connects w with
    | false :: rest =>
        (Val false,
         emit (PrintedExc "Database connection error:" (MySQLError Refused))
              (emit (Connecting false) (set_connects rest w)))
    | true :: rest =>
        (Val true, set_live true (emit (Connecting true) (set_connects rest w)))
    | [] => (Val true, set_live true (emit (Connecting true) w))
    end.

(** [Database.close] *)
Definition close : M unit :=
  fun w => if live w then (Val tt, set_live false w) else (Val tt, w).

(** [cursor.execute(query, params or ())] on the server. *)
Definition cursor_execute (q : Sql) : M (list Dict) :=
  fun w =>
    let w1 := emit (Sent q) w in
    match faults w with
    | true :: rest => (Exn (MySQLError Refused), set_faults rest w1)
    | _ =>
        let w2 := set_faults (tl (faults w)) w1 in
        match run_sql q (table w) with
        | inl why => (Exn (MySQLError why), w2)
        | inr (t', rows) => (Val rows, set_table t' w2)
        end
    end.

Definition conn_commit : M unit :=
  fun w => (Val tt, emit Committed w).

(** [Database.execute].  The [except Error: raise] clause re-raises and
    the [finally] clause only closes the cursor. *)
Definition execute (q : Sql) (commit fetch : bool) : M (option (list Dict)) :=
  (fun w =>
     if live w then ret tt w
     else (ok <- connect ;;
           if ok : bool then ret tt
           else raise (RuntimeError "DB connection failed")) w) ;;;
  rows <- cursor_execute q ;;
  (if commit then conn_commit else ret tt) ;;;
  if fetch then ret (Some rows) else ret None.

(** ** pandas *)

(** [pd.to_numeric(column, errors='coerce')] on one cell: what does not
    read as a number becomes not-a-number. *)
Definition to_numeric_coerce (v : pyval) : pyfloat :=
  match v with
  | PFloat f => f
  | PInt z => Fin (inject_Z z)
  | PBool b => Fin (if b then 1%Q else 0%Q)
  | PStr s => match pd_float num s with Some f => f | None => NaN end
  | PNone => NaN
  end.

(** [df[col]] of a frame built from row dictionaries; a missing cell is
    not-a-number. *)
Definition column (col : string) (df : list Dict) : list pyval :=
  map (fun d => match dict_get col d with Some v => v | None => PFloat NaN end)
      df.

Fixpoint dict_set (k : string) (v : pyval) (d : Dict) : Dict :=
  match d with
  | [] => [(k, v)]
  | (k', v') :: d' =>
      if String.eqb k k' then (k, v) :: d' else (k', v') :: dict_set k v d'
  end.

(** [df['marks'] = pd.to_numeric(df['marks'], errors='coerce')] *)
Definition coerce_marks (df : list Dict) : list Dict :=
  map (fun d =>
         dict_set "marks"
           (PFloat (to_numeric_coerce
                      (match dict_get "marks" d with
                       | Some v => v
                       | None => PFloat NaN
                       end))) d)
      df.

(** The float in the [marks] cell of a coerced frame. *)
Definition marks_of (d : Dict) : pyfloat :=
  match dict_get "marks" d with
  | Some (PFloat f) => f
  | _ => NaN
  end.

(** The values an aggregate sees: [skipna=True]. *)
Definition dropna (xs : list pyfloat) : list pyfloat :=
  filter (fun x => negb (is_nan x)) xs.

(** An aggregate with [skipna=True]: the library's reduction over the
    numbers of the column, and not-a-number when there are fewer than
    [least] of them. *)
Definition aggregate (least : nat) (f : list pyfloat -> pyfloat)
    (xs : list pyfloat) : pyfloat :=
  let ys := dropna xs in
  if List.length ys <? least then NaN else f ys.

(** [Series.mean()] *)
Definition series_mean (xs : list pyfloat) : pyfloat :=
  aggregate 1 (float_mean num) xs.

(** [Series.median()] *)
Definition series_median (xs : list pyfloat) : pyfloat :=
  aggregate 1 (float_median num) xs.

(** [Series.std()]: the sample deviation (ddof=1), not-a-number below
    two observations. *)
Definition series_std (xs : list pyfloat) : pyfloat :=
  aggregate 2 (float_std num) xs.

(** Stable descending insertion: a row goes in front of the first row
    whose marks do not exceed its own, so among equal marks the row that
    came first in the frame stays first. *)
Fixpoint insert_desc (d : Dict) (l : list Dict) : list Dict :=
  match l with
  | [] => [d]
  | y :: l' =>
      if fge (marks_of d) (marks_of y) then d :: l else y :: insert_desc d l'
  end.

Definition sort_desc (df : list Dict) : list Dict :=
  fold_right insert_desc [] df.

(** [df.nlargest(n, 'marks')] with [keep='first']: the rows with a
    number, by decreasing marks and frame order among equals; rows
    without a number come last. *)
Definition nlargest (n : nat) (df : list Dict) : list Dict :=
  firstn n
    (sort_desc (filter (fun d => negb (is_nan (marks_of d))) df)
     ++ filter (fun d => is_nan (marks_of d)) df).

(** [df[[c1, c2, ...]]] on one row. *)
Definition select_cols (cols : list string) (d : Dict) : Dict :=
  flat_map (fun c => match dict_get c d with
                     | Some v => [(c, v)]
                     | None => []
                     end) cols.

(** *** The csv writer and [pd.read_csv] *)

(** How [csv.DictWriter] renders one value. *)
Definition csv_cell (v : pyval) : string :=
  match v with
  | PStr s => s
  | PFloat f => py_str_float num f
  | PInt z => int_text z
  | PBool b => if b then "True" else "False"
  | PNone => ""
  end.

(** [writer.writerows(rows)] under [fieldnames]; a key the row lacks is
    written empty. *)
Definition csv_record (fieldnames : list string) (d : Dict) : list string :=
  map (fun k => match dict_get k d with
                | Some v => csv_cell v
                | None => ""
                end) fieldnames.

(** The texts read_csv takes for a missing value. *)
Definition na_values : list string :=
  [""; "#N/A"; "#N/A N/A"; "#NA"; "-1.#IND"; "-1.#QNAN"; "-NaN"; "-nan";
   "1.#IND"; "1.#QNAN"; "<NA>"; "N/A"; "NA"; "NULL"; "NaN"; "None"; "n/a";
   "nan"; "null"].

Definition is_na (t : string) : bool := existsb (String.eqb t) na_values.

Definition pd_bool (t : string) : option bool :=
  if existsb (String.eqb t) ["True"; "TRUE"; "true"] then Some true
  else if existsb (String.eqb t) ["False"; "FALSE"; "false"] then Some false
  else None.

Definition is_some {A} (o : option A) : bool :=
  match o with Some _ => true | None => false end.

(** The values of one column: integers when every field reads as one,
    else floats when every field is missing or reads as a number, else
    booleans, else text; a missing field is not-a-number. *)
Definition infer_column (texts : list string) : list pyval :=
  if forallb (fun t => negb (is_na t) && is_some (pd_int t)) texts then
    map (fun t => match pd_int t with Some z => PInt z | None => PNone end)
        texts
  else if forallb (fun t => is_na t || is_some (pd_float num t)) texts then
    map (fun t => if is_na t then PFloat NaN
                  else match pd_float num t with
                       | Some f => PFloat f
                       | None => PFloat NaN
                       end) texts
  else if forallb (fun t => is_na t || is_some (pd_bool t)) texts then
    map (fun t => match pd_bool t with
                  | Some b => PBool b
                  | None => PFloat NaN
                  end) texts
  else
    map (fun t => if is_na t then PFloat NaN else PStr t) texts.

(** Field [j] of a record; a short line is padded with missing fields. *)
Definition field (j : nat) (rec : list string) : string := nth j rec "".

(** The number of fields the reader expects in a line: as many as the
    header names, or as many as the first data line holds when that is
    more. *)
Definition csv_width (c : Csv) : nat :=
  Nat.max (List.length (csv_header c))
          (match csv_records c with
           | first :: _ => List.length first
           | [] => 0
           end).

(** The leading fields of every line that no header name is left for:
    the reader takes them as the index of the frame. *)
Definition leading_cols (c : Csv) : nat :=
  csv_width c - List.length (csv_header c).

(** The first data line with more than [width] fields: its line number
    and how many fields it holds. *)
Fixpoint first_long (width line : nat) (recs : list (list string))
  : option (nat * nat) :=
  match recs with
  | [] => None
  | rec :: recs' =>
      if List.length rec <=? width then first_long width (S line) recs'
      else Some (line, List.length rec)
  end.

(** The typed columns, one per header name. *)
Definition read_columns (c : Csv) : list (string * list pyval) :=
  map (fun jh => (snd jh,
                  infer_column (map (field (leading_cols c + fst jh))
                                    (csv_records c))))
      (combine (seq 0 (List.length (csv_header c))) (csv_header c)).

(** [pd.read_csv(path)] followed by [df.iterrows()]: row [i] as a
    dictionary over the header names.  A file without a header line does
    not parse; nor does one with a data line, after the first, of more
    fields than expected.  (Frames whose columns are all numeric, which
    iterrows upcasts to one numeric type, are not told apart.) *)
Definition read_csv (c : Csv) : option (list Dict) :=
  match csv_header c with
  | [] => None
  | _ =>
      match first_long (csv_width c) 2 (csv_records c) with
      | None =>
          let cols := read_columns c in
          Some (map (fun i => map (fun kc => (fst kc, nth i (snd kc) PNone)) cols)
                    (seq 0 (List.length (csv_records c))))
      | Some _ => None
      end
  end.

Definition nat_text (n : nat) : string := int_text (Z.of_nat n).

(** The exception of [pd.read_csv] on a table it does not parse. *)
Definition read_csv_error (c : Csv) : PyExc :=
  match csv_header c, first_long (csv_width c) 2 (csv_records c) with
  | _ :: _, Some (line, saw) =>
      ParserError
        ("Error tokenizing data. C error: Expected "
           ++ nat_text (csv_width c) ++ " fields in line " ++ nat_text line
           ++ ", saw " ++ nat_text saw
           ++ String (ascii_of_nat 10) EmptyString)
  | _, _ => EmptyDataError "No columns to parse from file"
  end.

(** What [pd.read_csv] makes of a file that exists: the rows, or the
    exception it raises. *)
Definition read_file (content : FileContent) : PyExc + list Dict :=
  match content with
  | Table c =>
      match read_csv c with
      | Some df => inr df
      | None => inl (read_csv_error c)
      end
  | Unreadable e => inl e
  end.

Definition hex_digit (n : nat) : ascii :=
  nth n (list_ascii_of_string "0123456789abcdef") "0"%char.

(** One character inside [repr(s)]. *)
Definition repr_char (quote c : ascii) : list ascii :=
  let n := nat_of_ascii c in
  if Ascii.eqb c quote || Ascii.eqb c "\"%char then ["\"%char; c]
  else if n =? 9 then ["\"%char; "t"%char]
  else if n =? 10 then ["\"%char; "n"%char]
  else if n =? 13 then ["\"%char; "r"%char]
  else if (n <? 32) || ((127 <=? n) && (n <=? 160)) || (n =? 173)
  then ["\"%char; "x"%char; hex_digit (n / 16); hex_digit (n mod 16)]
  else [c].

(** [repr(s)] of a text: in single quotes, or in double quotes when the
    text holds a single quote and no double quote. *)
Definition py_repr (s : string) : string :=
  let l := list_ascii_of_string s in
  let dq := ascii_of_nat 34 in
  let quote :=
    if existsb (Ascii.eqb "'"%char) l && negb (existsb (Ascii.eqb dq) l)
    then dq else "'"%char in
  string_of_list_ascii ([quote] ++ flat_map (repr_char quote) l ++ [quote]).

(** [float(x)] on a value. *)
Definition py_to_float (v : pyval) : Res pyfloat :=
  match v with
  | PFloat f => Val f
  | PInt z => Val (Fin (inject_Z z))
  | PBool b => Val (Fin (if b then 1%Q else 0%Q))
  | PStr s =>
      match py_float num s with
      | Some f => Val f
      | None =>
          Exn (ValueError ("could not convert string to float: " ++ py_repr s))
      end
  | PNone =>
      Exn (TypeError
             "float() argument must be a string or a real number, not 'NoneType'")
  end.

Definition lift {A} (r : Res A) : M A := fun w => (r, w).

(** [row[key]] *)
Definition getitem (key : string) (d : Dict) : M pyval :=
  match dict_get key d with
  | Some v => ret v
  | None => raise (KeyError key)
  end.

(** ** CONFIG *)

Definition CSV_BACKUP : string := "students_backup.csv".

(** ** STUDENT MANAGER *)

(** Python truthiness of what [execute] returns. *)
Definition rows_of (r : option (list Dict)) : list Dict :=
  match r with Some rs => rs | None => [] end.

(** Create (Add) *)
Definition add_student (student : Student) : M unit :=
  try_except
    (execute (InsertStudent (PStr (roll_no student)) (PStr (name student))
                            (PFloat (marks student)) (PStr (grade student)))
             true false ;;;
     print "Student added.")
    is_Error
    (fun e => print_exc "Error adding student:" e).

(** Read (View all) *)
Definition view_students : M (list Dict) :=
  try_except
    (rows <- execute SelectAll false true ;;
     match rows_of rows with
     | [] => print "No students found." ;;; ret []
     | rs => print_frame rs ;;; ret rs
     end)
    is_Error
    (fun e => print_exc "Error fetching students:" e ;;; ret []).

(** Read (single) *)
Definition get_student_by_roll (roll : string) : M (option Dict) :=
  try_except
    (rows <- execute (SelectByRoll (PStr roll)) false true ;;
     ret (hd_error (rows_of rows)))
    is_Error
    (fun e => print_exc "Error:" e ;;; ret None).

(** Python truthiness of [existing]. *)
Definition found (existing : option Dict) : bool :=
  match existing with
  | Some (_ :: _) => true
  | _ => false
  end.

(** Update.  [updates] and [params] grow as in the source. *)
Definition update_student (roll : string)
    (new_name : option string) (new_marks : option pyfloat)
    (new_grade : option string) : M unit :=
  existing <- get_student_by_roll roll ;;
  if negb (found existing) then print "Student not found."
  else
    let updates := [] in
    let params := [] in
    let '(updates, params) :=
      match new_name with
      | Some n => (updates ++ [col_name], params ++ [PStr n])
      | None => (updates, params)
      end in
    let '(updates, params) :=
      match new_marks with
      | Some m => (updates ++ [col_marks], params ++ [PFloat m])
      | None => (updates, params)
      end in
    let '(updates, params) :=
      match new_grade with
      | Some g => (updates ++ [col_grade], params ++ [PStr g])
      | None => (updates, params)
      end in
    match updates with
    | [] => print "Nothing to update."
    | _ =>
        let params := params ++ [PStr roll] in
        try_except
          (execute (UpdateStudent updates params) true false ;;;
           print "Student updated.")
          is_Error
          (fun e => print_exc "Error updating student:" e)
    end.

(** Delete *)
Definition delete_student (roll : string) : M unit :=
  try_except
    (execute (DeleteByRoll (PStr roll)) true false ;;;
     print "Student deleted (if existed).")
    is_Error
    (fun e => print_exc "Error deleting student:" e).

(** [open(path, 'w')], the header, the rows, and the close. *)
Definition write_csv (path : string) (fieldnames : list string)
    (rows : list Dict) : M unit :=
  fun w =>
    if read_only w then (Exn (OSError "cannot open file for writing"), w)
    else
      (Val tt,
       emit (Saved path)
         (set_files
            (file_store path
               (Table (mkCsv fieldnames (map (csv_record fieldnames) rows)))
               (files w)) w)).

(** CSV backup *)
Definition backup_to_csv (path : string) : M unit :=
  rows <- view_students ;;
  match rows with
  | [] => print "Nothing to backup."
  | first :: _ =>
      let fieldnames := keys first in
      try_except
        (write_csv path fieldnames rows ;;;
         print ("Backup saved to " ++ path))
        is_Exception
        (fun e => print_exc "Backup error:" e)
  end.

(** The body of the restore loop for one row: insert, and on Error the
    update keyed by roll_no; an Error of the update is printed. *)
Definition restore_row (row : Dict) : M unit :=
  try_except
    (r <- getitem "roll_no" row ;;
     n <- getitem "name" row ;;
     mv <- getitem "marks" row ;;
     m <- lift (py_to_float mv) ;;
     g <- getitem "grade" row ;;
     execute (InsertStudent r n (PFloat m) g) true false ;;;
     ret tt)
    is_Error
    (fun e =>
       try_except
         (n <- getitem "name" row ;;
          mv <- getitem "marks" row ;;
          m <- lift (py_to_float mv) ;;
          g <- getitem "grade" row ;;
          r <- getitem "roll_no" row ;;
          execute (UpdateStudent [col_name; col_marks; col_grade]
                                 [n; PFloat m; g; r]) true false ;;;
          ret tt)
         is_Error
         (fun e2 => print_exc "Error restoring row:" e2)).

(** [for _, row in df.iterrows(): ...] *)
Fixpoint restore_rows (rows : list Dict) : M unit :=
  match rows with
  | [] => ret tt
  | row :: rest => restore_row row ;;; restore_rows rest
  end.

(** CSV restore *)
Definition restore_from_csv (path : string) : M unit :=
  fun w =>
    match file_lookup path (files w) with
    | None => print "CSV file not found." w
    | Some content =>
        match read_file content with
        | inl e => print_exc "Could not read CSV:" e w
        | inr df => (restore_rows df ;;; print "Restore complete.") w
        end
    end.

Record Stats : Type := mkStats {
  st_mean : pyfloat;
  st_median : pyfloat;
  st_std : pyfloat;
  st_toppers : list Dict
}.

(** Statistics using pandas *)
Definition stats : M (option Stats) :=
  rows <- execute SelectStats false true ;;
  match rows_of rows with
  | [] => print "No data to compute stats." ;;; ret None
  | rs =>
      let df := coerce_marks rs in
      let mean_val := series_mean (map marks_of df) in
      let median_val := series_median (map marks_of df) in
      let std_dev := series_std (map marks_of df) in
      let toppers :=
        map (select_cols ["roll_no"; "name"; "marks"]) (nlargest 3 df) in
      print_num "Mean marks:" mean_val ;;;
      print_num "Median marks:" median_val ;;;
      (if negb (is_nan std_dev) then print_num "Std deviation:" std_dev
       else print "Std deviation: N/A") ;;;
      print "Topper(s):" ;;;
      print_frame toppers ;;;
      ret (Some (mkStats mean_val median_val std_dev toppers))
  end.

Definition is_None (v : pyval) : bool :=
  match v with PNone => true | _ => false end.

(** Plot marks distribution *)
Definition plot_marks_distribution : M unit :=
  rows <- execute SelectMarks false true ;;
  match rows_of rows with
  | [] => print "No marks to plot."
  | rs =>
      match filter (fun v => negb (is_None v)) (column "marks" rs) with
      | [] => print "No marks to plot."
      | ms => fun w => (Val tt, emit (Shown ms) w)
      end
  end.

(** ** INPUT VALIDATION HELPERS *)

Definition input_roll : M string :=
  r <- input "Enter Roll No: " ;;
  let r := strip r in
  if negb (nonempty r) then raise (ValueError "Roll no cannot be empty.")
  else ret r.

Definition input_name : M string :=
  n <- input "Enter Name: " ;;
  let n := strip n in
  if negb (nonempty n) then raise (ValueError "Name cannot be empty.")
  else ret n.

Definition input_marks : M pyfloat :=
  s <- input "Enter Marks (0-100): " ;;
  let s := strip s in
  try_except
    (m <- lift (py_to_float (PStr s)) ;;
     if flt m (Fin 0%Q) || fgt m (Fin 100%Q)
     then raise (ValueError "Marks must be between 0 and 100.")
     else ret m)
    is_ValueError
    (fun _ =>
       raise (ValueError "Invalid marks; enter a number between 0 and 100.")).

Definition input_grade : M string :=
  g <- input "Enter Grade (e.g. A, B+, C): " ;;
  let g := strip g in
  if negb (nonempty g) then raise (ValueError "Grade cannot be empty.")
  else ret g.

(** ** CLI *)

(** [s or None] *)
Definition or_None (s : string) : option string :=
  if nonempty s then Some s else None.

Definition print_menu : M unit :=
  print "--- Student Performance Management ---" ;;;
  print "1. Add Student" ;;;
  print "2. View All Students" ;;;
  print "3. View Student by Roll No" ;;;
  print "4. Update Student" ;;;
  print "5. Delete Student" ;;;
  print "6. Backup to CSV" ;;;
  print "7. Restore from CSV" ;;;
  print "8. Statistics (mean, median, toppers)" ;;;
  print "9. Plot Marks Distribution" ;;;
  print "0. Exit".

(** The branches of the menu under the [try]; the result tells whether
    the loop is left. *)
Definition dispatch (choice : string) : M bool :=
  if String.eqb choice "1" then
    roll <- input_roll ;;
    nm <- input_name ;;
    mk <- input_marks ;;
    gr <- input_grade ;;
    let student := mkStudent roll nm mk gr in
    add_student student ;;; ret false
  else if String.eqb choice "2" then
    view_students ;;; ret false
  else if String.eqb choice "3" then
    roll <- input_roll ;;
    s <- get_student_by_roll roll ;;
    (if found s then print_frame (match s with Some d => [d] | None => [] end)
     else print "Not found.") ;;;
    ret false
  else if String.eqb choice "4" then
    roll <- input_roll ;;
    print "Leave a field blank to skip updating it." ;;;
    nm <- input "New Name: " ;;
    let nm := or_None (strip nm) in
    marks_input <- input "New Marks: " ;;
    let marks_input := strip marks_input in
    mk <- (if negb (String.eqb marks_input "")
           then m <- lift (py_to_float (PStr marks_input)) ;; ret (Some m)
           else ret None) ;;
    gr <- input "New Grade: " ;;
    let gr := or_None (strip gr) in
    update_student roll nm mk gr ;;; ret false
  else if String.eqb choice "5" then
    roll <- input_roll ;;
    confirm <- input ("Type 'yes' to delete student " ++ roll ++ ": ") ;;
    let confirm := lower (strip confirm) in
    (if String.eqb confirm "yes" then delete_student roll
     else print "Delete cancelled.") ;;;
    ret false
  else if String.eqb choice "6" then
    backup_to_csv CSV_BACKUP ;;; ret false
  else if String.eqb choice "7" then
    restore_from_csv CSV_BACKUP ;;; ret false
  else if String.eqb choice "8" then
    stats ;;; ret false
  else if String.eqb choice "9" then
    plot_marks_distribution ;;; ret false
  else if String.eqb choice "0" then
    print "Exiting..." ;;; ret true
  else
    print "Invalid choice." ;;; ret false.

(** One turn of the [while True] loop. *)
Definition menu_turn : M bool :=
  print_menu ;;;
  choice <- input "Choose an option: " ;;
  let choice := strip choice in
  try_except (dispatch choice) is_Exception
    (fun e =>
       if is_ValueError e then print_exc "Input error:" e ;;; ret false
       else print_exc "Unexpected error:" e ;;; ret false).

(** The loop, for at most [fuel] turns; the result tells whether Exit
    was chosen within them. *)
Fixpoint main_menu (fuel : nat) : M bool :=
  match fuel with
  | O => ret false
  | S fuel' =>
      stop <- menu_turn ;;
      if stop : bool then ret true else main_menu fuel'
  end.

End Program.

(** ** Observations on a trace *)

Definition is_connecting (e : Event) : bool :=
  match e with Connecting _ => true | _ => false end.

(** How many connection attempts a trace holds. *)
Definition attempts (tr : list Event) : nat :=
  List.length (filter is_connecting tr).

(** The statements a trace holds, in order. *)
Fixpoint sents (tr : list Event) : list Sql :=
  match tr with
  | [] => []
  | Sent q :: tr' => q :: sents tr'
  | _ :: tr' => sents tr'
  end.

(** The next [n] statements are not rejected by the server. *)
Definition calm (n : nat) (w : World) : Prop :=
  forallb negb (firstn n (faults w)) = true.

(** An infinity. *)
Definition is_inf (x : pyfloat) : bool :=
  match x with PosInf | NegInf => true | _ => false end.

(** What the marks column holds once a float that is no infinity is
    written to it: the number, or nothing (NULL) for not-a-number. *)
Definition marks_written (x : pyfloat) : option Q :=
  match x with Fin q => Some q | _ => None end.

(** The row a marks-only update makes of a stored row. *)
Definition with_marks (roll : string) (m : option Q) (r : Row) : Row :=
  if String.eqb (r_roll r) roll
  then mkRow (r_roll r) (r_name r) m (r_grade r)
  else r.

(** The world in which the chosen branch of the menu starts: the menu
    printed and the choice read, [rest] still to be typed. *)
Definition after_choice (rest : list string) (w : World) : World :=
  set_stdin rest (emit (Asked "Choose an option: ") (snd (print_menu w))).

(** The world of the Delete branch once the roll number and the
    confirmation are read. *)
Definition delete_asked (roll : string) (rest : list string) (w : World)
  : World :=
  set_stdin rest
    (emit (Asked ("Type 'yes' to delete student " ++ roll ++ ": "))
          (emit (Asked "Enter Roll No: ") w)).

(** An operation started in [w] contains its storage failures: it
    returns, or, only when it started without a live connection, it
    raises the RuntimeError of the failed reconnection. *)
Definition contained {A} (w : World) (r : Res A * World) : Prop :=
  match fst r with
  | Val _ => True
  | Exn e => e = RuntimeError "DB connection failed" /\ live w = false
  end.

(** The RuntimeError of a failed reconnection reaches the caller of an
    operation started in [w]; no statement was sent and the table is as
    it was. *)
Definition escapes {A} (w : World) (r : Res A * World) : Prop :=
  fst r = Exn (RuntimeError "DB connection failed") /\
  sents (out (snd r)) = sents (out w) /\
  table (snd r) = table w.

(** No mysql.connector.Error gets out. *)
Definition no_Error {A} (r : Res A * World) : Prop :=
  forall why, fst r <> Exn (MySQLError why).

(** The insert and the fallback update that restore builds from one row
    of the frame; [None] when the row lacks a column or its marks do not
    convert. *)
Definition row_statements (num : Numerals) (row : Dict) : option (Sql * Sql) :=
  match dict_get "roll_no" row, dict_get "name" row, dict_get "marks" row,
        dict_get "grade" row with
  | Some r, Some n, Some mv, Some g =>
      match py_to_float num mv with
      | Val m =>
          Some (InsertStudent r n (PFloat m) g,
                UpdateStudent [col_name; col_marks; col_grade]
                              [n; PFloat m; g; r])
      | Exn _ => None
      end
  | _, _, _, _ => None
  end.

(** The exception with which the parameters of the insert fail to build,
    if they do: the columns are looked up in the order roll_no, name,
    marks, grade, the marks converted as soon as they are found. *)
Definition row_exception (num : Numerals) (row : Dict) : option PyExc :=
  match dict_get "roll_no" row with
  | None => Some (KeyError "roll_no")
  | Some _ =>
      match dict_get "name" row with
      | None => Some (KeyError "name")
      | Some _ =>
          match dict_get "marks" row with
          | None => Some (KeyError "marks")
          | Some mv =>
              match py_to_float num mv with
              | Exn e => Some e
              | Val _ =>
                  match dict_get "grade" row with
                  | None => Some (KeyError "grade")
                  | Some _ => None
                  end
              end
          end
      end
  end.

(** What became of one row of a restore. *)
Inductive RowOutcome : Type :=
| Inserted                     (* the insert went through *)
| Updated                      (* the insert was rejected, the update went through *)
| Failed (why : DbFailure).    (* both were rejected *)

(** The trace one row leaves. *)
Definition row_events (st : Sql * Sql) (o : RowOutcome) : list Event :=
  match o with
  | Inserted => [Sent (fst st); Committed]
  | Updated => [Sent (fst st); Sent (snd st); Committed]
  | Failed why =>
      [Sent (fst st); Sent (snd st);
       PrintedExc "Error restoring row:" (MySQLError why)]
  end.

(** The trace of a restore, row after row. *)
Fixpoint restore_events (num : Numerals) (df : list Dict)
    (os : list RowOutcome) : list Event :=
  match df, os with
  | row :: df', o :: os' =>
      match row_statements num row with
      | Some st => row_events st o ++ restore_events num df' os'
      | None => []
      end
  | _, _ => []
  end.

(** The marks cell that a fetched row shows to [to_numeric]. *)
Definition marks_cell (d : Dict) : pyval :=
  match dict_get "marks" d with
  | Some v => v
  | None => PFloat NaN
  end.

(** The numbers among the marks of a frame, in frame order: the cells
    that [to_numeric] reads as a number, every other cell left out. *)
Definition numeric_marks (num : Numerals) (df : list Dict) : list pyfloat :=
  flat_map (fun d =>
              let x := to_numeric_coerce num (marks_cell d) in
              if is_nan x then [] else [x]) df.

(** The marks of a fetched row do not read as a number: a text that
    pandas cannot read, no value at all, or not-a-number itself. *)
Definition unreadable_marks (num : Numerals) (d : Dict) : Prop :=
  match marks_cell d with
  | PStr s => pd_float num s = None
  | PNone | PFloat NaN => True
  | _ => False
  end.

(** The library's reduction over a run of numbers, and not-a-number
    when the run holds fewer than [least]. *)
Definition reduced (least : nat) (f : list pyfloat -> pyfloat)
    (ys : list pyfloat) : pyfloat :=
  if List.length ys <? least then NaN else f ys.

(** What [stats] does with the rows it fetched (lines 190 to 212). *)
Definition stats_of (num : Numerals) (rows : list Dict) : M (option Stats) :=
  match rows with
  | [] => print "No data to compute stats." ;;; ret None
  | d :: l =>
      let rs := d :: l in
      let df := coerce_marks num rs in
      let mean_val := series_mean num (map marks_of df) in
      let median_val := series_median num (map marks_of df) in
      let std_dev := series_std num (map marks_of df) in
      let toppers :=
        map (select_cols ["roll_no"; "name"; "marks"]) (nlargest 3 df) in
      print_num "Mean marks:" mean_val ;;;
      print_num "Median marks:" median_val ;;;
      (if negb (is_nan std_dev) then print_num "Std deviation:" std_dev
       else print "Std deviation: N/A") ;;;
      print "Topper(s):" ;;;
      print_frame toppers ;;;
      ret (Some (mkStats mean_val median_val std_dev toppers))
  end.

(** What [view_students] does with the rows it fetched (lines 92 to
    97). *)
Definition shown (rows : list Dict) : M (list Dict) :=
  match rows with
  | [] => print "No students found." ;;; ret []
  | d :: l => let rs := d :: l in print_frame rs ;;; ret rs
  end.

(** A row of the frame carries a number. *)
Definition numeric (d : Dict) : bool := negb (is_nan (marks_of d)).

(** [a == b] on floats; never true of not-a-number. *)
Definition feq (a b : pyfloat) : bool :=
  match a, b with
  | Fin x, Fin y => Qeq_bool x y
  | PosInf, PosInf | NegInf, NegInf => true
  | _, _ => false
  end.

(** The rows of a frame with marks equal to [m]. *)
Definition tied (m : pyfloat) (df : list Dict) : list Dict :=
  filter (fun d => feq (marks_of d) m) df.

(** Marks do not increase along the list. *)
Definition descending (df : list Dict) : Prop :=
  StronglySorted (fun a b => fge (marks_of a) (marks_of b) = true) df.

(** ** Sample worlds *)

(** A class of two, the connection up. *)
Definition world_up : World :=
  mkWorld [mkRow "S1" "Asha" (Some 90%Q) "A";
           mkRow "S2" "Ravi" (Some (171 # 2)%Q) "B+"]
          true [] [] [] [] false [].

(** The same class with the connection lost and the server out of
    reach. *)
Definition world_down : World :=
  set_connects [false] (set_live false world_up).

(** An empty store, the connection up, and a backup file whose first
    line carries marks that are not a number. *)
Definition world_bad_marks : World :=
  mkWorld [] true [] [] []
          [(CSV_BACKUP,
            Table (mkCsv ["roll_no"; "name"; "marks"; "grade"]
                         [["S1"; "Asha"; "abc"; "A"];
                          ["S2"; "Ravi"; "85.5"; "B+"]]))]
          false [].

(** An empty store, the connection up, and a well-formed backup file. *)
Definition world_backup : World :=
  mkWorld [] true [] [] []
          [(CSV_BACKUP,
            Table (mkCsv ["roll_no"; "name"; "marks"; "grade"]
                         [["S1"; "Asha"; "90.0"; "A"];
                          ["S2"; "Ravi"; "85.5"; "B+"]]))]
          false [].

(** The backup file of the sample class, to be restored over a store
    that already holds S2, by a server that will reject the next two
    statements. *)
Definition world_rejecting : World :=
  mkWorld [mkRow "S2" "Old" None "F"] true [] [true; true] []
          [(CSV_BACKUP,
            Table (mkCsv ["roll_no"; "name"; "marks"; "grade"]
                         [["S1"; "Asha"; "90.0"; "A"];
                          ["S2"; "Ravi"; "85.5"; "B+"]]))]
          false [].

(** An empty store, the connection up, and a file without the grade
    column. *)
Definition world_no_grade : World :=
  mkWorld [] true [] [] []
          [(CSV_BACKUP,
            Table (mkCsv ["roll_no"; "name"; "marks"]
                         [["S1"; "Asha"; "90.0"];
                          ["S2"; "Ravi"; "85.5"]]))]
          false [].

(** A class whose roll numbers are digit strings with leading zeros. *)
Definition world_zeros : World :=
  mkWorld [mkRow "007" "Bond" (Some 90%Q) "A";
           mkRow "008" "Ann" (Some (171 # 2)%Q) "B"]
          true [] [] [] [] false [].

(** The sample class with one more student, whose marks are missing. *)
Definition world_missing : World :=
  set_table [mkRow "S1" "Asha" (Some 90%Q) "A";
             mkRow "S3" "Mira" None "C";
             mkRow "S2" "Ravi" (Some (171 # 2)%Q) "B+"] world_up.

(** Four students with equal marks, stored in the order S4, S1, S2,
    S3. *)
Definition world_ties : World :=
  set_table [mkRow "S4" "Dev" (Some 90%Q) "A";
             mkRow "S1" "Asha" (Some 90%Q) "A";
             mkRow "S2" "Ravi" (Some 90%Q) "A";
             mkRow "S3" "Mira" (Some 90%Q) "A"] world_up.

(** ** The program as a whole *)

(** How the process ends. *)
Inductive Ending : Type :=
| Exited (code : nat)      (* exit(code), or the end of the script with 0 *)
| Uncaught (e : PyExc)     (* an exception no handler took *)
| Unfinished.              (* the menu was still running when the turns ran out *)

(** The [__main__] block: connect or exit(1); the menu; [db.close()] in
    the [finally] clause. *)
Definition main (num : Numerals) (fuel : nat) : World -> Ending * World :=
  fun w =>
    match connect w with
    | (Val true, w1) =>
        let '(r, w2) := main_menu num fuel w1 in
        let w3 := snd (close w2) in
        (match r with
         | Val true => Exited 0
         | Val false => Unfinished
         | Exn e => Uncaught e
         end, w3)
    | (_, w1) =>
        (Exited 1,
         emit (Printed
                 "Cannot continue without DB. Check DB credentials and server.")
              w1)
    end.

(** ** What a computation keeps *)

(** [m] takes every world to one related to it by [P], whatever it
    returns or raises. *)
Definition preserves {A} (P : World -> World -> Prop) (m : M A) : Prop :=
  forall w, P w (snd (m w)).

(** The table is left as it was. *)
Definition same_table (w w' : World) : Prop := table w' = table w.

(** The files are left as they were. *)
Definition same_files (w w' : World) : Prop := files w' = files w.

(** No typed line is put back. *)
Definition input_not_longer (w w' : World) : Prop :=
  List.length (stdin w') <= List.length (stdin w).

(** No two stored rows share a roll number. *)
Definition unique_rolls (t : list Row) : Prop := NoDup (map r_roll t).

(** A statement that only reads. *)
Definition reads_only (num : Numerals) (q : Sql) : Prop :=
  forall t, exists rows, run_sql num q t = inr (t, rows).

(** The row an update with the given fields makes of a stored row; a
    field not supplied stays. *)
Definition with_fields (roll : string) (n : option string)
    (m : option pyfloat) (g : option string) (r : Row) : Row :=
  if String.eqb (r_roll r) roll
  then mkRow (r_roll r)
             (match n with Some x => x | None => r_name r end)
             (match m with Some x => marks_written x | None => r_marks r end)
             (match g with Some x => x | None => r_grade r end)
  else r.

(** The SET clause and its parameters for the supplied fields, in the
    order name, marks, grade. *)
Definition supplied (n : option string) (m : option pyfloat)
    (g : option string) : list (Column * pyval) :=
  (match n with Some x => [(col_name, PStr x)] | None => [] end)
  ++ (match m with Some x => [(col_marks, PFloat x)] | None => [] end)
  ++ (match g with Some x => [(col_grade, PStr x)] | None => [] end).

(** Rows come in ascending roll number. *)
Definition by_roll (l : list Row) : Prop :=
  Sorted (fun a b => String.leb (r_roll a) (r_roll b) = true) l.

(** No stored row has this roll number. *)
Definition absent (roll : string) (t : list Row) : Prop :=
  forall r, In r t -> r_roll r <> roll.

(** The line of the backup file for one stored row. *)
Definition csv_line (num : Numerals) (r : Row) : list string :=
  [r_roll r; r_name r;
   match r_marks r with
   | Some q => py_str_float num (Fin q)
   | None => ""
   end;
   r_grade r].

(** A stored row as a row of the frame that restore iterates over, when
    the text columns are read as text and the marks as floats. *)
Definition frame_of_row (r : Row) : Dict :=
  [("roll_no", PStr (r_roll r)); ("name", PStr (r_name r));
   ("marks", PFloat (match r_marks r with Some q => Fin q | None => NaN end));
   ("grade", PStr (r_grade r))].

(** Put a row under its roll number: over the row stored there, or at
    the end when there is none. *)
Definition upsert (t : list Row) (r : Row) : list Row :=
  if existsb (fun x => String.eqb (r_roll x) (r_roll r)) t
  then map (fun x => if String.eqb (r_roll x) (r_roll r) then r else x) t
  else t ++ [r].

(** The marks that are stored as numbers, in scan order. *)
Definition known_marks (t : list Row) : list Q :=
  flat_map (fun r => match r_marks r with Some q => [q] | None => [] end) t.

(** What the stats frame shows of a stored row once the marks are
    coerced. *)
Definition topper_of_row (r : Row) : Dict :=
  [("roll_no", PStr (r_roll r)); ("name", PStr (r_name r));
   ("marks", PFloat (match r_marks r with Some q => Fin q | None => NaN end))].

(** The values the histogram is drawn from: the stored marks, without
    the missing ones, in scan order. *)
Definition plotted (t : list Row) : list pyval :=
  map (fun q => PFloat (Fin q)) (known_marks t).

(** The float [input_marks] hands on for a typed text, if any. *)
Definition marks_accepted (num : Numerals) (s : string) : option pyfloat :=
  match py_float num (strip s) with
  | Some m => if flt m (Fin 0%Q) || fgt m (Fin 100%Q) then None else Some m
  | None => None
  end.

(** The world once a prompt is answered: the prompt shown, one line
    taken, [rest] still to be typed. *)
Definition typed (prompt : string) (rest : list string) (w : World) : World :=
  set_stdin rest (emit (Asked prompt) w).

(** What is still to be typed afterwards is an end of what was still to
    be typed before. *)
Definition input_suffix (w w' : World) : Prop :=
  exists taken, stdin w = taken ++ stdin w'.

(** * Properties *)

(** ** Traces *)

Lemma attempts_app (a b : list Event) :
  attempts (a ++ b) = attempts a + attempts b.
Proof.
  unfold attempts. rewrite filter_app, length_app. reflexivity.
Qed.

Lemma sents_app (a b : list Event) : sents (a ++ b) = sents a ++ sents b.
Proof.
  induction a as [|e a IH]; simpl; [reflexivity|].
  destruct e; simpl; rewrite IH; reflexivity.
Qed.

(** ** The gateway *)

(** [execute] on a live connection, spelled out. *)
Lemma execute_live num q commit fetch w :
  live w = true ->
  execute num q commit fetch w =
  match faults w with
  | true :: rest =>
      (Exn (MySQLError Refused), set_faults rest (emit (Sent q) w))
  | _ =>
      let w2 := set_faults (tl (faults w)) (emit (Sent q) w) in
      match run_sql num q (table w) with
      | inl why => (Exn (MySQLError why), w2)
      | inr (t', rows) =>
          let w3 := set_table t' w2 in
          (Val (if fetch then Some rows else None),
           if commit then emit Committed w3 else w3)
      end
  end.
Proof.
  intros Hl. unfold execute, bind, ret, cursor_execute, conn_commit.
  rewrite Hl.
  destruct (faults w) as [|[] rest]; simpl;
    try reflexivity;
    destruct (run_sql num q (table w)) as [why|[t' rows]]; simpl;
    try reflexivity; destruct commit, fetch; reflexivity.
Qed.

(** [execute] without a connection when the reconnection fails. *)
Lemma execute_down num q commit fetch w rest :
  live w = false ->
  connects w = false :: rest ->
  execute num q commit fetch w =
  (Exn (RuntimeError "DB connection failed"),
   emit (PrintedExc "Database connection error:" (MySQLError Refused))
        (emit (Connecting false) (set_connects rest w))).
Proof.
  intros Hl Hc. unfold execute, bind, ret, raise, connect.
  rewrite Hl, Hc. reflexivity.
Qed.

(** [execute] without a connection when the reconnection succeeds: one
    attempt, then as on a live connection. *)
Lemma execute_reconnect num q commit fetch w :
  live w = false ->
  hd true (connects w) = true ->
  execute num q commit fetch w =
  execute num q commit fetch
          (set_live true (emit (Connecting true)
                                (set_connects (tl (connects w)) w))).
Proof.
  intros Hl Hc. destruct w as [t l cs fs si fl ro o]. simpl in *. subst l.
  destruct cs as [|[] rest]; simpl in *; try discriminate; reflexivity.
Qed.

(** Counting the attempts of a trace that grew by known events. *)
Ltac count_attempts :=
  repeat rewrite attempts_app; unfold attempts; simpl; lia.

(** No statement changes the trace before it, and [execute] on a live
    connection attempts no connection. *)
Lemma execute_live_trace num q commit fetch w :
  live w = true ->
  let r := execute num q commit fetch w in
  attempts (out (snd r)) = attempts (out w) /\ live (snd r) = true.
Proof.
  intros Hl. cbv zeta. rewrite execute_live by assumption.
  destruct (faults w) as [|[] rest]; simpl;
    try destruct (run_sql num q (table w)) as [why|[t' rows]]; simpl;
    try destruct commit; simpl;
    (split; [count_attempts | assumption]).
Qed.

(** C9: without a live connection [execute] makes exactly one
    connection attempt; when that attempt fails it fails with the error
    of an unreachable store, which the program raises as
    RuntimeError("DB connection failed"), sends no statement and leaves
    the table alone. *)
Theorem execute_reconnects_once num q commit fetch w :
  live w = false ->
  let r := execute num q commit fetch w in
  attempts (out (snd r)) = S (attempts (out w)) /\
  (hd true (connects w) = false ->
   fst r = Exn (RuntimeError "DB connection failed") /\
   table (snd r) = table w /\
   sents (out (snd r)) = sents (out w)).
Proof.
  intros Hl. cbv zeta.
  destruct (hd true (connects w)) eqn:Hc.
  - split; [|intros Hf; discriminate Hf].
    rewrite execute_reconnect by assumption.
    match goal with
    | |- context [execute num q commit fetch ?w1] =>
        destruct (execute_live_trace num q commit fetch w1 eq_refl) as [Ha _]
    end.
    cbv zeta in Ha. rewrite Ha. simpl. count_attempts.
  - destruct (connects w) as [|[] rest] eqn:Hcs; simpl in Hc; try discriminate.
    rewrite (execute_down num q commit fetch w rest Hl Hcs). simpl.
    split; [count_attempts|]. intros _.
    repeat rewrite sents_app. simpl. repeat rewrite app_nil_r.
    repeat split; reflexivity.
Qed.

Lemma execute_reconnects_once_witness :
  live world_down = false /\
  attempts (out (snd (execute decimal_numerals SelectAll false true
                              world_down))) = 1.
Proof.
  split; [reflexivity|].
  apply (execute_reconnects_once decimal_numerals SelectAll false true
                                 world_down).
  reflexivity.
Defined.

(** ** Statements that the server lets through *)

Lemma calm_head n w : calm (S n) w -> hd false (faults w) = false.
Proof.
  unfold calm. destruct (faults w) as [|[] fs]; simpl; intros H;
    try reflexivity; discriminate H.
Qed.

Lemma calm_tail n w w' :
  calm (S n) w -> faults w' = tl (faults w) -> calm n w'.
Proof.
  unfold calm. intros H E. rewrite E.
  destruct (faults w) as [|b fs]; simpl in *.
  - destruct n; reflexivity.
  - apply andb_true_iff in H. tauto.
Qed.

Lemma calm_less n w : calm (S n) w -> calm n w.
Proof.
  unfold calm. generalize (faults w). induction n as [|n IH]; intros fs H.
  - reflexivity.
  - destruct fs as [|b fs]; [reflexivity|].
    simpl in *. apply andb_true_iff in H. destruct H as [Hb H].
    rewrite Hb. simpl. apply IH. exact H.
Qed.

(** [execute] on a live connection when the server lets the statement
    through. *)
Lemma execute_ok num q commit fetch w :
  live w = true ->
  calm 1 w ->
  execute num q commit fetch w =
  let w2 := set_faults (tl (faults w)) (emit (Sent q) w) in
  match run_sql num q (table w) with
  | inl why => (Exn (MySQLError why), w2)
  | inr (t', rows) =>
      let w3 := set_table t' w2 in
      (Val (if fetch then Some rows else None),
       if commit then emit Committed w3 else w3)
  end.
Proof.
  intros Hl Hc. rewrite execute_live by assumption.
  apply calm_head in Hc.
  destruct (faults w) as [|[] fs]; simpl in *; try discriminate; reflexivity.
Qed.

(** ** Delete *)

Lemma filter_twice {A} (f : A -> bool) (l : list A) :
  filter f (filter f l) = filter f l.
Proof.
  induction l as [|x l IH]; simpl; [reflexivity|].
  destruct (f x) eqn:E; simpl; [rewrite E, IH|]; auto.
Qed.

Lemma key_matches_str num roll r :
  key_matches num (PStr roll) r = String.eqb (r_roll r) roll.
Proof. reflexivity. Qed.

(** [delete_student] when the statement goes through. *)
Lemma delete_student_ok num roll w :
  live w = true ->
  calm 1 w ->
  delete_student num roll w =
  (Val tt,
   emit (Printed "Student deleted (if existed).")
     (emit Committed
        (set_table
           (filter (fun r => negb (String.eqb (r_roll r) roll)) (table w))
           (set_faults (tl (faults w))
                       (emit (Sent (DeleteByRoll (PStr roll))) w))))).
Proof.
  intros Hl Hc. unfold delete_student, try_except, bind, print.
  rewrite execute_ok by assumption. reflexivity.
Qed.

(** C4: on a live connection, with the server letting the statements
    through, two deletes of the same roll number in a row both return
    normally, both print the same success line, the record is absent
    after the first, and the second leaves the table as the first left
    it. *)
Theorem delete_twice num roll w :
  live w = true ->
  calm 2 w ->
  let said := [Sent (DeleteByRoll (PStr roll)); Committed;
               Printed "Student deleted (if existed)."] in
  let r1 := delete_student num roll w in
  let r2 := delete_student num roll (snd r1) in
  fst r1 = Val tt /\ fst r2 = Val tt /\
  out (snd r1) = out w ++ said /\
  out (snd r2) = out (snd r1) ++ said /\
  (forall r, In r (table (snd r1)) -> r_roll r <> roll) /\
  table (snd r2) = table (snd r1).
Proof.
  intros Hl Hc. cbv zeta.
  rewrite (delete_student_ok num roll w Hl (calm_less 1 w Hc)). simpl.
  rewrite delete_student_ok;
    [| exact Hl | eapply calm_tail; [exact Hc | reflexivity] ].
  simpl. repeat rewrite <- app_assoc. simpl.
  repeat split; try reflexivity.
  - intros r Hin E. apply filter_In in Hin. destruct Hin as [_ Hn].
    rewrite E, String.eqb_refl in Hn. discriminate.
  - apply filter_twice.
Qed.

Lemma delete_twice_witness :
  live world_up = true /\ calm 2 world_up /\
  (forall r,
     In r (table (snd (delete_student decimal_numerals "S1" world_up))) ->
     r_roll r <> "S1").
Proof.
  split; [reflexivity|]. split; [reflexivity|].
  destruct (delete_twice decimal_numerals "S1" world_up)
    as (_ & _ & _ & _ & H & _); [reflexivity | reflexivity | exact H].
Defined.

(** ** Update *)

(** [get_student_by_roll] when the statement goes through. *)
Lemma get_student_by_roll_ok num roll w :
  live w = true ->
  calm 1 w ->
  get_student_by_roll num roll w =
  (Val (hd_error (map dict_of_row
                      (filter (fun r => String.eqb (r_roll r) roll)
                              (table w)))),
   set_faults (tl (faults w)) (emit (Sent (SelectByRoll (PStr roll))) w)).
Proof.
  intros Hl Hc. unfold get_student_by_roll, try_except, bind, ret.
  rewrite execute_ok by assumption. simpl.
  destruct w; reflexivity.
Qed.

Lemma found_present roll (t : list Row) :
  (exists r, In r t /\ r_roll r = roll) ->
  found (hd_error (map dict_of_row
                       (filter (fun r => String.eqb (r_roll r) roll) t)))
  = true.
Proof.
  intros [r [Hin E]].
  assert (Hf : In r (filter (fun r => String.eqb (r_roll r) roll) t)).
  { apply filter_In. split; [assumption|]. rewrite E. apply String.eqb_refl. }
  destruct (filter (fun r => String.eqb (r_roll r) roll) t); [destruct Hf|].
  reflexivity.
Qed.

(** The SET clause of the supplied fields, none of them an infinity, on
    the rows under a key. *)
Lemma update_rows_supplied num roll n m g t :
  forallb sendable (map snd (supplied n m g)) = true ->
  update_rows num (supplied n m g) (PStr roll) t
  = Some (map (with_fields roll n m g) t).
Proof.
  intros Hs. induction t as [|r t IH]; simpl; [reflexivity|].
  rewrite IH, key_matches_str. unfold with_fields.
  destruct r as [k nm mk gr]. simpl.
  destruct (String.eqb k roll); [|reflexivity].
  destruct n, m as [[x| | |]|], g; simpl in Hs; try discriminate Hs;
    reflexivity.
Qed.

(** A SELECT never changes the table, whatever becomes of it. *)
Lemma execute_select_table num q commit fetch w :
  (forall t, exists rows, run_sql num q t = inr (t, rows)) ->
  table (snd (execute num q commit fetch w)) = table w.
Proof.
  intros Hq. destruct (Hq (table w)) as [rows Hr].
  destruct (live w) eqn:Hl.
  - rewrite execute_live by assumption. rewrite Hr.
    destruct (faults w) as [|[] fs]; destruct commit; reflexivity.
  - destruct (hd true (connects w)) eqn:Hc.
    + rewrite execute_reconnect by assumption.
      rewrite execute_live by reflexivity. simpl. rewrite Hr.
      destruct (faults w) as [|[] fs]; destruct commit; reflexivity.
    + destruct (connects w) as [|[] rest] eqn:Hcs; simpl in Hc;
        try discriminate.
      rewrite (execute_down num q commit fetch w rest Hl Hcs). reflexivity.
Qed.

(** What [execute] adds to the trace holds no statement but its own. *)
Lemma execute_sents num q commit fetch w :
  exists evs,
    out (snd (execute num q commit fetch w)) = out w ++ evs /\
    (forall q', In (Sent q') evs -> q' = q).
Proof.
  assert (Hlive : forall w1, live w1 = true ->
            exists evs,
              out (snd (execute num q commit fetch w1)) = out w1 ++ evs /\
              (forall q', In (Sent q') evs -> q' = q)).
  { intros w1 Hl. rewrite execute_live by assumption.
    destruct (faults w1) as [|[] fs]; simpl;
      try destruct (run_sql num q (table w1)) as [why|[t' rows]];
      try destruct commit; simpl;
      repeat rewrite <- app_assoc; simpl;
      eexists; (split; [reflexivity|]);
      intros q' Hin; simpl in Hin;
      repeat (destruct Hin as [Hin|Hin]; try discriminate Hin;
              try (injection Hin as <-; reflexivity));
      try contradiction. }
  destruct (live w) eqn:Hl; [apply Hlive; assumption|].
  destruct (hd true (connects w)) eqn:Hc.
  - rewrite execute_reconnect by assumption.
    match goal with
    | |- context [execute num q commit fetch ?w1] =>
        destruct (Hlive w1 eq_refl) as [evs [Ho Hs]]
    end.
    rewrite Ho. simpl. rewrite <- app_assoc.
    eexists; split; [reflexivity|].
    intros q' [Hin|Hin]; [discriminate Hin | apply Hs; exact Hin].
  - destruct (connects w) as [|[] rest] eqn:Hcs; simpl in Hc;
      try discriminate.
    rewrite (execute_down num q commit fetch w rest Hl Hcs). simpl.
    rewrite <- app_assoc. eexists; split; [reflexivity|].
    intros q' Hin; simpl in Hin.
    repeat (destruct Hin as [Hin|Hin]; try discriminate Hin).
    contradiction.
Qed.

(** [get_student_by_roll] never changes the table and sends nothing but
    its own SELECT. *)
Lemma get_student_by_roll_frame num roll w :
  let r := get_student_by_roll num roll w in
  table (snd r) = table w /\
  exists evs,
    out (snd r) = out w ++ evs /\
    (forall q, In (Sent q) evs -> q = SelectByRoll (PStr roll)).
Proof.
  cbv zeta.
  pose proof (execute_select_table num (SelectByRoll (PStr roll)) false true w)
    as Ht.
  destruct (execute_sents num (SelectByRoll (PStr roll)) false true w)
    as [evs [Ho Hs]].
  unfold get_student_by_roll, try_except, bind, ret, print_exc.
  destruct (execute num (SelectByRoll (PStr roll)) false true w)
    as [[rows|e] w'] eqn:E; simpl in *.
  - split; [apply Ht; intros t; eexists; reflexivity|].
    exists evs. split; assumption.
  - assert (Ht' : table w' = table w)
      by (apply Ht; intros t; eexists; reflexivity).
    destruct (is_Error e); simpl.
    + split; [assumption|].
      exists (evs ++ [PrintedExc "Error:" e]). rewrite Ho, app_assoc.
      split; [reflexivity|].
      intros q Hin. apply in_app_or in Hin. destruct Hin as [Hin|Hin].
      * apply Hs; assumption.
      * destruct Hin as [Hin|[]]. discriminate Hin.
    + split; [assumption|]. exists evs. split; assumption.
Qed.

(** [update_student] with at least one field supplied, on a live
    connection, for a stored roll number, with the server letting the
    look-up and then the UPDATE through to the table. *)
Lemma update_student_run num roll n m g w :
  live w = true ->
  calm 2 w ->
  (exists r, In r (table w) /\ r_roll r = roll) ->
  supplied n m g <> [] ->
  let upd := UpdateStudent (map fst (supplied n m g))
                           (map snd (supplied n m g) ++ [PStr roll]) in
  let w2 := set_faults (tl (tl (faults w)))
              (emit (Sent upd) (emit (Sent (SelectByRoll (PStr roll))) w)) in
  update_student num roll n m g w =
  if forallb sendable (map snd (supplied n m g))
  then (Val tt,
        emit (Printed "Student updated.")
          (emit Committed
             (set_table (map (with_fields roll n m g) (table w)) w2)))
  else (Val tt,
        emit (PrintedExc "Error updating student:" (MySQLError BadValue)) w2).
Proof.
  intros Hl Hc Hex Hne. cbv zeta.
  pose proof (update_rows_supplied num roll n m g (table w)) as Hu.
  unfold update_student, bind.
  rewrite (get_student_by_roll_ok num roll w Hl (calm_less 1 w Hc)).
  rewrite found_present by assumption. cbn [negb].
  destruct n as [n|], m as [m|], g as [g|];
    try (exfalso; apply Hne; reflexivity);
    cbn [supplied app map fst snd] in *;
    unfold try_except, bind, print, print_exc;
    (rewrite execute_ok;
     [| exact Hl | eapply calm_tail; [exact Hc | reflexivity] ]);
    cbn [run_sql nth_error List.length combine Nat.eqb table emit set_faults
         set_table app];
    try (destruct m as [x| | |]);
    cbn [forallb sendable andb] in *;
    try rewrite (Hu eq_refl);
    cbn [fst snd is_Error faults emit set_faults set_table tl];
    reflexivity.
Qed.

(** C3, as the code has it.  On a live connection, with the server
    letting the statements through to the table, [update(roll_no,
    marks=X)] with name and grade omitted sends a SET clause of the marks
    alone.  For a finite X every row under the key gets marks X and keeps
    its name and grade, and no other row changes.  For X not-a-number the
    marks under the key become missing (NULL), with the same report.
    For X an infinity the server rejects the statement: the table stays
    as it was and "Error updating student:" is printed.  With all three
    fields omitted the table is never changed and no statement but the
    look-up is sent; for an existing record the only report is
    "Nothing to update.". *)
Theorem partial_update num roll w :
  (forall X,
     live w = true -> calm 2 w ->
     (exists r, In r (table w) /\ r_roll r = roll) ->
     let r := update_student num roll None (Some X) None w in
     let sent := [Sent (SelectByRoll (PStr roll));
                  Sent (UpdateStudent [col_marks] [PFloat X; PStr roll])] in
     let updated := [Committed; Printed "Student updated."] in
     fst r = Val tt /\
     match X with
     | Fin x =>
         table (snd r) = map (with_marks roll (Some x)) (table w) /\
         out (snd r) = out w ++ sent ++ updated
     | NaN =>
         table (snd r) = map (with_marks roll None) (table w) /\
         out (snd r) = out w ++ sent ++ updated
     | PosInf | NegInf =>
         table (snd r) = table w /\
         out (snd r)
         = out w ++ sent ++ [PrintedExc "Error updating student:"
                                        (MySQLError BadValue)]
     end) /\
  (let r := update_student num roll None None None w in
   table (snd r) = table w /\
   (exists evs,
      out (snd r) = out w ++ evs /\
      forall q, In (Sent q) evs -> q = SelectByRoll (PStr roll)) /\
   (live w = true -> calm 1 w ->
    (exists r, In r (table w) /\ r_roll r = roll) ->
    fst r = Val tt /\
    out (snd r) = out w ++ [Sent (SelectByRoll (PStr roll));
                            Printed "Nothing to update."])).
Proof.
  split.
  - intros X Hl Hc Hex. cbv zeta.
    assert (Hne : supplied None (Some X) None <> []) by discriminate.
    pose proof (update_student_run num roll None (Some X) None w Hl Hc Hex Hne)
      as Hr.
    cbv zeta in Hr. cbn [supplied app map fst snd] in Hr. rewrite Hr.
    destruct X as [x| | |]; cbn [forallb sendable andb fst snd table emit
                                 set_table set_faults out];
      repeat rewrite <- app_assoc; repeat split; reflexivity.
  - cbv zeta.
    destruct (get_student_by_roll_frame num roll w) as [Ht [evs [Ho Hs]]].
    unfold update_student, bind, print.
    destruct (get_student_by_roll num roll w) as [[existing|e] w'] eqn:E;
      simpl in *.
    + split; [|split].
      * destruct (found existing); simpl; assumption.
      * exists (evs ++ [Printed (if found existing then "Nothing to update."
                                 else "Student not found.")]).
        rewrite app_assoc, <- Ho.
        split; [destruct (found existing); reflexivity|].
        intros q Hin. apply in_app_or in Hin. destruct Hin as [Hin|Hin].
        -- apply Hs; assumption.
        -- destruct Hin as [Hin|[]]. discriminate Hin.
      * intros Hl Hc Hex.
        rewrite (get_student_by_roll_ok num roll w Hl Hc) in E.
        injection E as E1 E2. subst existing w'.
        rewrite found_present by assumption. simpl.
        rewrite <- app_assoc. split; reflexivity.
    + split; [assumption|]. split; [exists evs; split; assumption|].
      intros Hl Hc Hex.
      rewrite (get_student_by_roll_ok num roll w Hl Hc) in E. discriminate E.
Qed.

Lemma partial_update_witness :
  live world_up = true /\ calm 2 world_up /\
  (exists r, In r (table world_up) /\ r_roll r = "S2") /\
  table (snd (update_student decimal_numerals "S2" None
                             (Some (Fin 77%Q)) None world_up))
  = [mkRow "S1" "Asha" (Some 90%Q) "A"; mkRow "S2" "Ravi" (Some 77%Q) "B+"].
Proof.
  assert (Hex : exists r, In r (table world_up) /\ r_roll r = "S2")
    by (eexists; split; [right; left; reflexivity | reflexivity]).
  split; [reflexivity|]. split; [reflexivity|]. split; [exact Hex|].
  destruct (partial_update decimal_numerals "S2" world_up) as [H _].
  destruct (H (Fin 77%Q) eq_refl eq_refl Hex) as (_ & Ht & _).
  rewrite Ht. reflexivity.
Defined.

(** C3, as the claim words it, fails: not every marks value X is what
    the record holds afterwards.  With X not-a-number the record of S2
    ends with no marks at all, under the report "Student updated."; with
    X an infinity it keeps the marks it had.  Both values are reached
    from the Update flow, which hands on what [float] reads from the
    typed text. *)
Lemma partial_update_cex :
  (let r := update_student decimal_numerals "S2" None (Some NaN) None
                           world_up in
   fst r = Val tt /\
   table (snd r) = [mkRow "S1" "Asha" (Some 90%Q) "A";
                    mkRow "S2" "Ravi" None "B+"] /\
   last (out (snd r)) (Printed "") = Printed "Student updated.") /\
  (let r := update_student decimal_numerals "S2" None (Some PosInf) None
                           world_up in
   fst r = Val tt /\
   table (snd r) = table world_up /\
   last (out (snd r)) (Printed "")
   = PrintedExc "Error updating student:" (MySQLError BadValue)) /\
  table (snd (menu_turn decimal_numerals
                        (set_stdin ["4"; "S2"; ""; "nan"; ""] world_up)))
  = [mkRow "S1" "Asha" (Some 90%Q) "A"; mkRow "S2" "Ravi" None "B+"] /\
  table (snd (menu_turn decimal_numerals
                        (set_stdin ["4"; "S2"; ""; "-inf"; ""] world_up)))
  = table world_up.
Proof.
  cbv zeta. repeat split; vm_compute; reflexivity.
Qed.

(** ** The menu *)

(** A turn is its branch, run under the two [except] clauses. *)
Lemma menu_turn_choice num w c rest :
  stdin w = c :: rest ->
  menu_turn num w =
  try_except (dispatch num (strip c)) is_Exception
    (fun e =>
       if is_ValueError e then print_exc "Input error:" e ;;; ret false
       else print_exc "Unexpected error:" e ;;; ret false)
    (after_choice rest w).
Proof.
  intros Hs. unfold menu_turn. unfold bind at 1.
  destruct (print_menu w) as [r w1] eqn:E.
  unfold print_menu, bind, print in E. injection E as <- <-.
  unfold bind, input. simpl. rewrite Hs. reflexivity.
Qed.

Lemma after_choice_frame rest w :
  table (after_choice rest w) = table w /\
  live (after_choice rest w) = live w /\
  faults (after_choice rest w) = faults w /\
  stdin (after_choice rest w) = rest /\
  sents (out (after_choice rest w)) = sents (out w).
Proof.
  unfold after_choice, print_menu, bind, print. simpl.
  repeat rewrite sents_app. simpl. repeat rewrite app_nil_r.
  repeat split; reflexivity.
Qed.

(** The Delete branch, spelled out. *)
Lemma dispatch_delete num w rl cf rest :
  stdin w = rl :: cf :: rest ->
  nonempty (strip rl) = true ->
  dispatch num "5" w =
  if String.eqb (lower (strip cf)) "yes"
  then (delete_student num (strip rl) ;;; ret false)
         (delete_asked (strip rl) rest w)
  else (Val false,
        emit (Printed "Delete cancelled.") (delete_asked (strip rl) rest w)).
Proof.
  intros Hs Hn. unfold dispatch. simpl.
  unfold bind at 1. unfold input_roll, bind at 1, input at 1.
  rewrite Hs, Hn. simpl. unfold ret at 1, bind at 1, bind at 1.
  unfold input. simpl. unfold delete_asked.
  destruct (String.eqb (lower (strip cf)) "yes"); reflexivity.
Qed.

Lemma out_emit e w : out (emit e w) = out w ++ [e].
Proof. reflexivity. Qed.

Lemma table_emit e w : table (emit e w) = table w.
Proof. reflexivity. Qed.

Lemma delete_asked_frame roll rest w :
  table (delete_asked roll rest w) = table w /\
  live (delete_asked roll rest w) = live w /\
  faults (delete_asked roll rest w) = faults w /\
  sents (out (delete_asked roll rest w)) = sents (out w).
Proof.
  unfold delete_asked. simpl.
  repeat rewrite sents_app. simpl. repeat rewrite app_nil_r.
  repeat split; reflexivity.
Qed.

(** [delete_student] on a live connection always sends its statement. *)
Lemma delete_student_live num roll w :
  live w = true ->
  let r := delete_student num roll w in
  fst r = Val tt /\
  sents (out (snd r)) = sents (out w) ++ [DeleteByRoll (PStr roll)].
Proof.
  intros Hl. cbv zeta. unfold delete_student, try_except, bind, print, print_exc.
  rewrite execute_live by assumption.
  destruct (faults w) as [|[] fs]; simpl;
    repeat rewrite sents_app; simpl; repeat rewrite app_nil_r;
    split; reflexivity.
Qed.

(** C10: in the Delete branch, once a roll number is entered, the delete
    is issued exactly when the confirmation, trimmed and lowercased, is
    "yes"; any other confirmation prints "Delete cancelled.", sends no
    statement and leaves the table as it was. *)
Theorem delete_flow_confirmation num w c rl cf rest :
  stdin w = c :: rl :: cf :: rest ->
  strip c = "5" ->
  nonempty (strip rl) = true ->
  let roll := strip rl in
  let asked := delete_asked roll rest (after_choice (rl :: cf :: rest) w) in
  let r := menu_turn num w in
  (lower (strip cf) = "yes" ->
   live w = true ->
   fst r = Val false /\
   sents (out (snd r)) = sents (out w) ++ [DeleteByRoll (PStr roll)] /\
   (calm 1 w ->
    table (snd r)
    = filter (fun x => negb (String.eqb (r_roll x) roll)) (table w))) /\
  (lower (strip cf) <> "yes" ->
   r = (Val false, emit (Printed "Delete cancelled.") asked) /\
   sents (out (snd r)) = sents (out w) /\
   table (snd r) = table w).
Proof.
  intros Hs Hc Hn. cbv zeta.
  destruct (after_choice_frame (rl :: cf :: rest) w)
    as (At & Al & Af & As & Ao).
  destruct (delete_asked_frame (strip rl) rest
              (after_choice (rl :: cf :: rest) w)) as (Dt & Dl & Df & Do).
  rewrite (menu_turn_choice num w c _ Hs), Hc.
  unfold try_except.
  rewrite (dispatch_delete num _ rl cf rest As Hn).
  split.
  - intros Hy Hl. rewrite Hy. simpl String.eqb. cbv iota.
    assert (Hl' : live (delete_asked (strip rl) rest
                          (after_choice (rl :: cf :: rest) w)) = true)
      by (rewrite Dl, Al; exact Hl).
    unfold bind.
    destruct (delete_student_live num (strip rl) _ Hl') as [Hv Hse].
    destruct (delete_student num (strip rl)
                (delete_asked (strip rl) rest
                   (after_choice (rl :: cf :: rest) w))) as [res w'] eqn:E.
    cbn [fst snd] in Hv, Hse. subst res. cbn [fst snd ret].
    split; [reflexivity|]. split.
    + rewrite Hse, Do, Ao. reflexivity.
    + intros Hcalm.
      assert (Hcalm' : calm 1 (delete_asked (strip rl) rest
                                 (after_choice (rl :: cf :: rest) w)))
        by (unfold calm; rewrite Df, Af; exact Hcalm).
      rewrite (delete_student_ok num (strip rl) _ Hl' Hcalm') in E.
      injection E as <-. reflexivity.
  - intros Hno.
    destruct (String.eqb (lower (strip cf)) "yes") eqn:Eq.
    + apply String.eqb_eq in Eq. contradiction.
    + split; [reflexivity|]. cbn [snd]. split.
      * rewrite out_emit, sents_app. cbn [sents].
        rewrite app_nil_r, Do, Ao. reflexivity.
      * rewrite table_emit, Dt, At. reflexivity.
Qed.

Lemma delete_flow_confirmation_witness :
  stdin (set_stdin ["5"; " S1 "; " YES"; "0"] world_up)
  = ["5"; " S1 "; " YES"; "0"] /\
  strip "5" = "5" /\ nonempty (strip " S1 ") = true /\
  lower (strip " YES") = "yes" /\ lower (strip "y") <> "yes" /\
  table (snd (menu_turn decimal_numerals
                        (set_stdin ["5"; " S1 "; " YES"; "0"] world_up)))
  = [mkRow "S2" "Ravi" (Some (171 # 2)%Q) "B+"] /\
  table (snd (menu_turn decimal_numerals
                        (set_stdin ["5"; " S1 "; "y"; "0"] world_up)))
  = table world_up.
Proof.
  split; [reflexivity|]. split; [reflexivity|]. split; [reflexivity|].
  split; [reflexivity|]. split; [discriminate|]. split.
  - destruct (delete_flow_confirmation decimal_numerals
                (set_stdin ["5"; " S1 "; " YES"; "0"] world_up)
                "5" " S1 " " YES" ["0"] eq_refl eq_refl eq_refl) as [H _].
    destruct (H eq_refl eq_refl) as (_ & _ & Ht).
    rewrite (Ht eq_refl). reflexivity.
  - destruct (delete_flow_confirmation decimal_numerals
                (set_stdin ["5"; " S1 "; "y"; "0"] world_up)
                "5" " S1 " "y" ["0"] eq_refl eq_refl eq_refl) as [_ H].
    destruct H as (_ & _ & Ht); [discriminate|]. exact Ht.
Defined.

(** ** Marks at the keyboard *)

(** [input_marks], spelled out: the typed text is accepted when it reads
    as a float that is neither below 0 nor above 100. *)
Lemma input_marks_decision num w s rest :
  stdin w = s :: rest ->
  input_marks num w =
  let w1 := set_stdin rest (emit (Asked "Enter Marks (0-100): ") w) in
  match py_float num (strip s) with
  | Some m =>
      if flt m (Fin 0%Q) || fgt m (Fin 100%Q)
      then (Exn (ValueError
                   "Invalid marks; enter a number between 0 and 100."), w1)
      else (Val m, w1)
  | None =>
      (Exn (ValueError "Invalid marks; enter a number between 0 and 100."),
       w1)
  end.
Proof.
  intros Hs. unfold input_marks, bind at 1, input. rewrite Hs.
  unfold try_except, bind, lift, py_to_float, raise, ret.
  destruct (py_float num (strip s)) as [m|]; [|reflexivity].
  destruct (flt m (Fin 0%Q) || fgt m (Fin 100%Q)); reflexivity.
Qed.

(** In the Add flow a text that reads as exactly 0 or exactly 100 is
    accepted, and one that reads below 0 or above 100 is refused with a
    ValueError before anything is sent. *)
Lemma input_marks_boundary num w s rest q :
  stdin w = s :: rest ->
  py_float num (strip s) = Some (Fin q) ->
  let r := input_marks num w in
  ((q == 0 \/ q == 100)%Q -> fst r = Val (Fin q)) /\
  ((q < 0 \/ 100 < q)%Q ->
   fst r = Exn (ValueError
                  "Invalid marks; enter a number between 0 and 100.") /\
   sents (out (snd r)) = sents (out w)).
Proof.
  intros Hs Hp. cbv zeta. rewrite (input_marks_decision num w s rest Hs), Hp.
  cbv zeta. unfold flt, fgt, flt. split.
  - intros Hq.
    assert (H0 : Qle_bool 0 q = true)
      by (apply Qle_bool_iff; destruct Hq as [E|E]; rewrite E;
          [apply Qle_refl | discriminate]).
    assert (H1 : Qle_bool q 100 = true)
      by (apply Qle_bool_iff; destruct Hq as [E|E]; rewrite E;
          [discriminate | apply Qle_refl]).
    rewrite H0, H1. reflexivity.
  - intros Hq.
    assert (H : negb (Qle_bool 0 q) || negb (Qle_bool q 100) = true).
    { destruct Hq as [L|L].
      - destruct (Qle_bool 0 q) eqn:E; [|reflexivity].
        apply Qle_bool_iff in E. exfalso. exact (Qlt_not_le _ _ L E).
      - destruct (Qle_bool q 100) eqn:E; [|apply orb_true_r].
        apply Qle_bool_iff in E. exfalso. exact (Qlt_not_le _ _ L E). }
    rewrite H. simpl. rewrite sents_app. simpl. rewrite app_nil_r.
    split; reflexivity.
Qed.

(** Reduce the accesses to a world given by its fields. *)
Ltac world_step :=
  cbn [stdin emit set_stdin table live connects faults files read_only out
       fst snd negb];
  cbv beta iota.

(** The Update branch, spelled out: the marks text, when not blank, goes
    through [float] alone. *)
Lemma dispatch_update num w rl nm mi gr rest :
  stdin w = rl :: nm :: mi :: gr :: rest ->
  nonempty (strip rl) = true ->
  nonempty (strip mi) = true ->
  forall m, py_float num (strip mi) = Some m ->
  dispatch num "4" w =
  (update_student num (strip rl) (or_None (strip nm)) (Some m)
                  (or_None (strip gr)) ;;; ret false)
    (set_stdin rest
       (emit (Asked "New Grade: ")
          (emit (Asked "New Marks: ")
             (emit (Asked "New Name: ")
                (emit (Printed "Leave a field blank to skip updating it.")
                   (emit (Asked "Enter Roll No: ") w)))))).
Proof.
  intros Hs Hn Hm m Hp.
  assert (E : String.eqb (strip mi) "" = false)
    by (destruct (strip mi); [discriminate Hm | reflexivity]).
  destruct w as [t l cs fs si fl ro o]. simpl in Hs. subst si.
  unfold dispatch.
  change (String.eqb "4" "1") with false.
  change (String.eqb "4" "2") with false.
  change (String.eqb "4" "3") with false.
  change (String.eqb "4" "4") with true. cbv iota.
  unfold input_roll, bind, input, print, ret, lift, py_to_float.
  world_step. rewrite Hn. world_step. rewrite E. world_step.
  rewrite Hp. reflexivity.
Qed.

(** C7, at the input where the code departs from it: typed into the Add
    flow, "100.01" is refused before any statement is sent; typed into the
    Update flow, "100.01" and "-0.01" pass [float] unchecked and are
    written to the table. *)
Theorem update_flow_skips_range_check :
  (let r := menu_turn decimal_numerals
              (set_stdin ["1"; "S9"; "Zed"; "100.01"; "A"] world_up) in
   fst r = Val false /\
   sents (out (snd r)) = [] /\
   table (snd r) = table world_up /\
   last (out (snd r)) (Printed "")
   = PrintedExc "Input error:"
       (ValueError "Invalid marks; enter a number between 0 and 100.")) /\
  (let r := menu_turn decimal_numerals
              (set_stdin ["4"; "S1"; ""; "100.01"; ""] world_up) in
   fst r = Val false /\
   sents (out (snd r))
   = [SelectByRoll (PStr "S1");
      UpdateStudent [col_marks] [PFloat (Fin 100.01%Q); PStr "S1"]] /\
   table (snd r)
   = [mkRow "S1" "Asha" (Some 100.01%Q) "A";
      mkRow "S2" "Ravi" (Some (171 # 2)%Q) "B+"]) /\
  (let r := menu_turn decimal_numerals
              (set_stdin ["4"; "S1"; ""; "-0.01"; ""] world_up) in
   fst r = Val false /\
   table (snd r)
   = [mkRow "S1" "Asha" (Some (-0.01)%Q) "A";
      mkRow "S2" "Ravi" (Some (171 # 2)%Q) "B+"]).
Proof.
  cbv zeta. repeat split; vm_compute; reflexivity.
Qed.

(** ** Containment of storage failures *)

(** What can come out of [execute]: a value or an Error, both on a
    connection that is live afterwards, or the RuntimeError of a failed
    reconnection. *)
Lemma execute_outcome num q commit fetch w :
  let r := execute num q commit fetch w in
  match fst r with
  | Val _ => live (snd r) = true
  | Exn e =>
      (is_Error e = true /\ live (snd r) = true) \/
      (e = RuntimeError "DB connection failed" /\ live w = false)
  end.
Proof.
  cbv zeta.
  assert (Hlive : forall w1, live w1 = true ->
            match fst (execute num q commit fetch w1) with
            | Val _ => live (snd (execute num q commit fetch w1)) = true
            | Exn e => is_Error e = true /\
                       live (snd (execute num q commit fetch w1)) = true
            end).
  { intros w1 Hl. rewrite execute_live by assumption.
    destruct (faults w1) as [|[] fs]; simpl;
      try destruct (run_sql num q (table w1)) as [why|[t' rows]];
      try destruct commit; simpl; auto. }
  destruct (live w) eqn:Hl.
  - specialize (Hlive w Hl).
    destruct (fst (execute num q commit fetch w)); auto.
  - destruct (hd true (connects w)) eqn:Hc.
    + rewrite execute_reconnect by assumption.
      match goal with
      | |- context [execute num q commit fetch ?w1] =>
          specialize (Hlive w1 eq_refl);
          destruct (fst (execute num q commit fetch w1)); auto
      end.
    + destruct (connects w) as [|[] rest] eqn:Hcs; simpl in Hc;
        try discriminate.
      rewrite (execute_down num q commit fetch w rest Hl Hcs). simpl.
      right. split; reflexivity.
Qed.

(** One statement under [except Error] with a handler that returns. *)
Lemma guarded_statement {A} num q commit fetch w
      (k : option (list Dict) -> M A) (h : PyExc -> M A) :
  (forall a w1, live w1 = true ->
                exists v w2, k a w1 = (Val v, w2) /\ live w2 = true) ->
  (forall e w1, live w1 = true ->
                exists v w2, h e w1 = (Val v, w2) /\ live w2 = true) ->
  let r := try_except (x <- execute num q commit fetch ;; k x) is_Error h w in
  contained w r /\
  (forall v, fst r = Val v -> live (snd r) = true).
Proof.
  intros Hk Hh. cbv zeta. unfold try_except, bind, contained.
  pose proof (execute_outcome num q commit fetch w) as Ho. cbv zeta in Ho.
  destruct (execute num q commit fetch w) as [[a|e] w1]; simpl in *.
  - destruct (Hk a w1 Ho) as (v & w2 & E & L). rewrite E. simpl. auto.
  - destruct Ho as [[He L]|[He L]].
    + rewrite He. destruct (Hh e w1 L) as (v & w2 & E & L2).
      rewrite E. simpl. auto.
    + subst e. simpl. split; [auto|]. intros v Hv. discriminate Hv.
Qed.

(** Printing returns and keeps the connection as it is. *)
Ltac returns_live :=
  intros; unfold bind, print, print_exc, print_frame, ret; simpl;
  repeat match goal with
         | |- context [match ?x with _ => _ end] => destruct x; simpl
         end;
  do 2 eexists; (split; [reflexivity | simpl; assumption]).

Lemma add_student_contained num s w :
  contained w (add_student num s w) /\
  (forall v, fst (add_student num s w) = Val v ->
             live (snd (add_student num s w)) = true).
Proof. unfold add_student. apply guarded_statement; returns_live. Qed.

Lemma view_students_contained num w :
  contained w (view_students num w) /\
  (forall v, fst (view_students num w) = Val v ->
             live (snd (view_students num w)) = true).
Proof. unfold view_students. apply guarded_statement; returns_live. Qed.

Lemma get_student_by_roll_contained num roll w :
  contained w (get_student_by_roll num roll w) /\
  (forall v, fst (get_student_by_roll num roll w) = Val v ->
             live (snd (get_student_by_roll num roll w)) = true).
Proof. unfold get_student_by_roll. apply guarded_statement; returns_live. Qed.

Lemma delete_student_contained num roll w :
  contained w (delete_student num roll w) /\
  (forall v, fst (delete_student num roll w) = Val v ->
             live (snd (delete_student num roll w)) = true).
Proof. unfold delete_student. apply guarded_statement; returns_live. Qed.

(** Started on a live connection, a contained operation returns. *)
Lemma contained_live {A} w (r : Res A * World) :
  live w = true -> contained w r -> exists v, fst r = Val v.
Proof.
  unfold contained. intros Hl H. destruct (fst r) as [v|e].
  - exists v. reflexivity.
  - destruct H as [_ H]. rewrite Hl in H. discriminate H.
Qed.

Lemma update_student_contained num roll n m g w :
  contained w (update_student num roll n m g w).
Proof.
  destruct (get_student_by_roll_contained num roll w) as [Hc Hl].
  unfold update_student, bind. unfold contained in Hc |- *.
  destruct (get_student_by_roll num roll w) as [[existing|e] w1];
    simpl in *; [|exact Hc].
  specialize (Hl existing eq_refl).
  destruct (negb (found existing)); [exact I|].
  destruct n, m, g; simpl;
    try exact I;
    match goal with
    | |- match fst (try_except ?b ?c ?h w1) with _ => _ end =>
        let H := fresh in
        assert (H : contained w1 (try_except b c h w1))
          by (apply guarded_statement; returns_live);
        destruct (contained_live w1 _ Hl H) as [v Hv]; rewrite Hv; exact I
    end.
Qed.

Lemma backup_to_csv_contained num path w :
  contained w (backup_to_csv num path w).
Proof.
  destruct (view_students_contained num w) as [Hc _].
  unfold backup_to_csv, bind. unfold contained in Hc |- *.
  destruct (view_students num w) as [[rows|e] w1]; simpl in *; [|exact Hc].
  destruct rows as [|first rows']; [exact I|].
  unfold try_except, bind, write_csv, print, print_exc.
  destruct (read_only w1); exact I.
Qed.

Lemma no_Error_guard {A} (body : M A) (h : PyExc -> M A) w :
  (forall e w1, no_Error (h e w1)) ->
  no_Error (try_except body is_Error h w).
Proof.
  intros Hh. unfold try_except.
  destruct (body w) as [[a|e] w1].
  - intros why H. discriminate H.
  - destruct (is_Error e) eqn:E; [apply Hh|].
    intros why H. simpl in H. injection H as ->. discriminate E.
Qed.

Lemma no_Error_bind {A B} (m : M A) (k : A -> M B) w :
  no_Error (m w) -> (forall a w1, no_Error (k a w1)) -> no_Error (bind m k w).
Proof.
  intros Hm Hk. unfold bind. destruct (m w) as [[a|e] w1]; [apply Hk|].
  intros why H. simpl in H. injection H as ->.
  apply (Hm why). reflexivity.
Qed.

Lemma no_Error_value {A} (a : A) w : no_Error (Val a, w).
Proof. intros why H. discriminate H. Qed.

Lemma restore_row_no_Error num row w : no_Error (restore_row num row w).
Proof.
  unfold restore_row. apply no_Error_guard. intros e w1.
  apply no_Error_guard. intros e2 w2. apply no_Error_value.
Qed.

Lemma restore_rows_no_Error num rows w : no_Error (restore_rows num rows w).
Proof.
  revert w. induction rows as [|row rows IH]; intros w; simpl.
  - apply no_Error_value.
  - apply no_Error_bind; [apply restore_row_no_Error | intros; apply IH].
Qed.

Lemma restore_from_csv_no_Error num path w :
  no_Error (restore_from_csv num path w).
Proof.
  unfold restore_from_csv.
  destruct (file_lookup path (files w)) as [content|];
    [|apply no_Error_value].
  destruct (read_file num content) as [e|df]; [apply no_Error_value|].
  apply no_Error_bind; [apply restore_rows_no_Error|].
  intros; apply no_Error_value.
Qed.

(** A statement the server rejects, on a live connection. *)
Lemma execute_rejected num q commit fetch w fs :
  live w = true ->
  faults w = true :: fs ->
  execute num q commit fetch w =
  (Exn (MySQLError Refused), set_faults fs (emit (Sent q) w)).
Proof.
  intros Hl Hf. rewrite execute_live by assumption. rewrite Hf. reflexivity.
Qed.

(** One row of a restore, spelled out over the two statements built
    from it: the insert; on an Error of it the update; an Error of the
    update printed.  Whatever else is raised passes through. *)
Lemma restore_row_steps num row st w :
  row_statements num row = Some st ->
  restore_row num row w =
  match execute num (fst st) true false w with
  | (Val _, w1) => (Val tt, w1)
  | (Exn e, w1) =>
      if is_Error e then
        match execute num (snd st) true false w1 with
        | (Val _, w2) => (Val tt, w2)
        | (Exn e2, w2) =>
            if is_Error e2
            then (Val tt, emit (PrintedExc "Error restoring row:" e2) w2)
            else (Exn e2, w2)
        end
      else (Exn e, w1)
  end.
Proof.
  intros Hst. unfold row_statements in Hst.
  destruct (dict_get "roll_no" row) as [r|] eqn:Er; [|discriminate].
  destruct (dict_get "name" row) as [n|] eqn:En; [|discriminate].
  destruct (dict_get "marks" row) as [mv|] eqn:Em; [|discriminate].
  destruct (dict_get "grade" row) as [g|] eqn:Eg; [|discriminate].
  destruct (py_to_float num mv) as [m|] eqn:Ef; [|discriminate].
  injection Hst as <-. cbn [fst snd].
  unfold restore_row, try_except, bind, getitem, lift, ret.
  rewrite Er, En, Em, Eg. cbv beta iota. rewrite Ef. cbv beta iota.
  destruct (execute num (InsertStudent r n (PFloat m) g) true false w)
    as [[a|e] w1]; [reflexivity|].
  destruct (is_Error e); [|reflexivity].
  destruct (execute num (UpdateStudent [col_name; col_marks; col_grade]
                                       [n; PFloat m; g; r]) true false w1)
    as [[a2|e2] w2]; [reflexivity|].
  destruct (is_Error e2); reflexivity.
Qed.

(** A row whose insert and update the server both rejects. *)
Lemma restore_row_rejected num row st w fs :
  live w = true ->
  faults w = true :: true :: fs ->
  row_statements num row = Some st ->
  restore_row num row w =
  (Val tt,
   emit (PrintedExc "Error restoring row:" (MySQLError Refused))
     (set_faults fs (emit (Sent (snd st)) (emit (Sent (fst st)) w)))).
Proof.
  intros Hl Hf Hst. rewrite (restore_row_steps num row st w Hst).
  rewrite (execute_rejected num _ true false w (true :: fs) Hl Hf).
  cbn [is_Error].
  rewrite (execute_rejected num _ true false _ fs); [reflexivity | exact Hl |].
  reflexivity.
Qed.

(** [execute] without a connection when the reconnection fails: the
    RuntimeError, nothing sent. *)
Lemma execute_escapes num q commit fetch w cs :
  live w = false ->
  connects w = false :: cs ->
  escapes w (execute num q commit fetch w).
Proof.
  intros Hl Hc. rewrite (execute_down num q commit fetch w cs Hl Hc).
  unfold escapes. cbn [fst snd]. repeat rewrite out_emit.
  repeat rewrite sents_app. cbn [sents]. repeat rewrite app_nil_r.
  repeat split; reflexivity.
Qed.

(** What follows a statement that raised is not run. *)
Lemma bind_escapes {A B} (m : M A) (k : A -> M B) w :
  escapes w (m w) -> escapes w (bind m k w).
Proof.
  unfold escapes, bind. destruct (m w) as [[a|e] w1]; cbn [fst snd].
  - intros [H _]. discriminate H.
  - intros [H rest]. injection H as ->. split; [reflexivity | exact rest].
Qed.

(** [except Error] does not take a RuntimeError. *)
Lemma guard_escapes {A} (body : M A) (h : PyExc -> M A) w :
  escapes w (body w) -> escapes w (try_except body is_Error h w).
Proof.
  unfold escapes, try_except. destruct (body w) as [[a|e] w1]; cbn [fst snd].
  - intros [H _]. discriminate H.
  - intros [H rest]. injection H as ->. cbn [is_Error fst snd].
    split; [reflexivity | exact rest].
Qed.

(** C1, as the code has it.

    The six operations with a handler (add, view_all, get_by_roll,
    update, delete, backup) contain every Error of the server: each
    returns, or, only when it started without a live connection, lets the
    RuntimeError of the failed reconnection through; restore lets no
    Error of the server through.

    When the server rejects the statement an operation sends, the
    operation prints its own diagnostic with the Error, returns its
    neutral result and leaves the table as it was: add, view_all,
    get_by_roll and delete print theirs; update prints the look-up's
    "Error:" and then "Student not found.", or, when it is the UPDATE
    that is rejected, "Error updating student:"; backup prints
    "Error fetching students:" and then "Nothing to backup."; restore
    prints "Error restoring row:" for a row whose insert and update are
    both rejected.  stats and plot have no handler: the Error leaves
    them.

    The RuntimeError of a failed reconnection leaves every one of the
    nine operations, with nothing sent. *)
Theorem manager_contains_query_errors num w :
  ((forall s, contained w (add_student num s w)) /\
   contained w (view_students num w) /\
   (forall roll, contained w (get_student_by_roll num roll w)) /\
   (forall roll n m g, contained w (update_student num roll n m g w)) /\
   (forall roll, contained w (delete_student num roll w)) /\
   (forall path, contained w (backup_to_csv num path w)) /\
   (forall path, no_Error (restore_from_csv num path w))) /\
  (forall fs,
     live w = true -> faults w = true :: fs ->
     let e := MySQLError Refused in
     let after q := set_faults fs (emit (Sent q) w) in
     (forall s,
        add_student num s w =
        (Val tt,
         emit (PrintedExc "Error adding student:" e)
           (after (InsertStudent (PStr (roll_no s)) (PStr (name s))
                                 (PFloat (marks s)) (PStr (grade s)))))) /\
     view_students num w =
       (Val [], emit (PrintedExc "Error fetching students:" e)
                  (after SelectAll)) /\
     (forall roll,
        get_student_by_roll num roll w =
        (Val None, emit (PrintedExc "Error:" e)
                     (after (SelectByRoll (PStr roll))))) /\
     (forall roll n m g,
        update_student num roll n m g w =
        (Val tt, emit (Printed "Student not found.")
                   (emit (PrintedExc "Error:" e)
                      (after (SelectByRoll (PStr roll)))))) /\
     (forall roll,
        delete_student num roll w =
        (Val tt, emit (PrintedExc "Error deleting student:" e)
                   (after (DeleteByRoll (PStr roll))))) /\
     (forall path,
        backup_to_csv num path w =
        (Val tt, emit (Printed "Nothing to backup.")
                   (emit (PrintedExc "Error fetching students:" e)
                      (after SelectAll)))) /\
     stats num w = (Exn e, after SelectStats) /\
     plot_marks_distribution num w = (Exn e, after SelectMarks)) /\
  (forall roll n m g fs,
     live w = true -> faults w = false :: true :: fs ->
     (exists r, In r (table w) /\ r_roll r = roll) ->
     supplied n m g <> [] ->
     let r := update_student num roll n m g w in
     fst r = Val tt /\
     table (snd r) = table w /\
     out (snd r)
     = out w ++ [Sent (SelectByRoll (PStr roll));
                 Sent (UpdateStudent (map fst (supplied n m g))
                                     (map snd (supplied n m g) ++ [PStr roll]));
                 PrintedExc "Error updating student:" (MySQLError Refused)]) /\
  (forall row st fs,
     live w = true -> faults w = true :: true :: fs ->
     row_statements num row = Some st ->
     let r := restore_row num row w in
     fst r = Val tt /\
     table (snd r) = table w /\
     out (snd r)
     = out w ++ [Sent (fst st); Sent (snd st);
                 PrintedExc "Error restoring row:" (MySQLError Refused)]) /\
  (forall cs,
     live w = false -> connects w = false :: cs ->
     (forall s, escapes w (add_student num s w)) /\
     escapes w (view_students num w) /\
     (forall roll, escapes w (get_student_by_roll num roll w)) /\
     (forall roll n m g, escapes w (update_student num roll n m g w)) /\
     (forall roll, escapes w (delete_student num roll w)) /\
     (forall path, escapes w (backup_to_csv num path w)) /\
     (forall path c row df st,
        file_lookup path (files w) = Some (Table c) ->
        read_csv num c = Some (row :: df) ->
        row_statements num row = Some st ->
        escapes w (restore_from_csv num path w)) /\
     escapes w (stats num w) /\
     escapes w (plot_marks_distribution num w)).
Proof.
  split.
  { split; [intros; apply add_student_contained|].
    split; [apply view_students_contained|].
    split; [intros; apply get_student_by_roll_contained|].
    split; [intros; apply update_student_contained|].
    split; [intros; apply delete_student_contained|].
    split; [intros; apply backup_to_csv_contained|].
    intros; apply restore_from_csv_no_Error. }
  split.
  { intros fs Hl Hf. cbv zeta.
    repeat split; intros;
      unfold add_student, update_student, backup_to_csv, view_students,
             get_student_by_roll, delete_student, stats,
             plot_marks_distribution, try_except, bind;
      rewrite (execute_rejected _ _ _ _ w fs Hl Hf); reflexivity. }
  split.
  { intros roll n m g fs Hl Hf Hex Hne. cbv zeta.
    assert (Hc : calm 1 w) by (unfold calm; rewrite Hf; reflexivity).
    unfold update_student, bind.
    rewrite (get_student_by_roll_ok num roll w Hl Hc).
    rewrite found_present by assumption. cbn [negb].
    destruct n as [n|], m as [m|], g as [g|];
      try (exfalso; apply Hne; reflexivity);
      cbn [supplied app map fst snd];
      unfold try_except, bind, print_exc;
      (rewrite (execute_rejected num _ true false _ fs);
       [| exact Hl | cbn [faults set_faults emit]; rewrite Hf; reflexivity ]);
      cbn [fst snd is_Error table out emit set_faults];
      repeat rewrite <- app_assoc; repeat split; reflexivity. }
  split.
  { intros row st fs Hl Hf Hst. cbv zeta.
    rewrite (restore_row_rejected num row st w fs Hl Hf Hst).
    cbn [fst snd table out emit set_faults].
    repeat rewrite <- app_assoc. repeat split; reflexivity. }
  intros cs Hl Hc.
  assert (Hex : forall q commit fetch,
            escapes w (execute num q commit fetch w))
    by (intros; apply (execute_escapes num _ _ _ w cs Hl Hc)).
  assert (Hget : forall roll, escapes w (get_student_by_roll num roll w))
    by (intros; unfold get_student_by_roll;
        apply guard_escapes, bind_escapes, Hex).
  assert (Hview : escapes w (view_students num w))
    by (unfold view_students; apply guard_escapes, bind_escapes, Hex).
  split; [intros; unfold add_student;
          apply guard_escapes, bind_escapes, Hex|].
  split; [exact Hview|]. split; [exact Hget|].
  split; [intros; unfold update_student; apply bind_escapes, Hget|].
  split; [intros; unfold delete_student;
          apply guard_escapes, bind_escapes, Hex|].
  split; [intros; unfold backup_to_csv; apply bind_escapes, Hview|].
  split.
  - intros path c row df st Hfile Hread Hst.
    unfold restore_from_csv, read_file. rewrite Hfile, Hread.
    apply bind_escapes. cbn [restore_rows]. apply bind_escapes.
    rewrite (restore_row_steps num row st w Hst).
    pose proof (Hex (fst st) true false) as He. unfold escapes in He |- *.
    destruct (execute num (fst st) true false w) as [[a|e] w1];
      cbn [fst snd] in He |- *.
    + destruct He as [He _]. discriminate He.
    + destruct He as [He rest]. injection He as ->. cbn [is_Error fst snd].
      split; [reflexivity | exact rest].
  - split; [unfold stats | unfold plot_marks_distribution];
      apply bind_escapes, Hex.
Qed.

Lemma manager_contains_query_errors_witness :
  (live (set_faults [true] world_up) = true /\
   faults (set_faults [true] world_up) = [true] /\
   out (snd (update_student decimal_numerals "S1" None (Some (Fin 50%Q)) None
                            (set_faults [true] world_up)))
   = [Sent (SelectByRoll (PStr "S1"));
      PrintedExc "Error:" (MySQLError Refused);
      Printed "Student not found."]) /\
  (live (set_faults [false; true] world_up) = true /\
   faults (set_faults [false; true] world_up) = [false; true] /\
   (exists r, In r (table (set_faults [false; true] world_up)) /\
              r_roll r = "S1") /\
   supplied None (Some (Fin 50%Q)) None <> [] /\
   out (snd (update_student decimal_numerals "S1" None (Some (Fin 50%Q)) None
                            (set_faults [false; true] world_up)))
   = [Sent (SelectByRoll (PStr "S1"));
      Sent (UpdateStudent [col_marks] [PFloat (Fin 50%Q); PStr "S1"]);
      PrintedExc "Error updating student:" (MySQLError Refused)]) /\
  (live world_down = false /\ connects world_down = [false] /\
   fst (backup_to_csv decimal_numerals CSV_BACKUP world_down)
   = Exn (RuntimeError "DB connection failed")).
Proof.
  split; [|split].
  - split; [reflexivity|]. split; [reflexivity|].
    destruct (manager_contains_query_errors decimal_numerals
                (set_faults [true] world_up)) as (_ & H & _).
    destruct (H [] eq_refl eq_refl) as (_ & _ & _ & Hu & _).
    rewrite Hu. reflexivity.
  - assert (Hex : exists r, In r (table (set_faults [false; true] world_up)) /\
                            r_roll r = "S1")
      by (eexists; split; [left; reflexivity | reflexivity]).
    split; [reflexivity|]. split; [reflexivity|]. split; [exact Hex|].
    split; [discriminate|].
    destruct (manager_contains_query_errors decimal_numerals
                (set_faults [false; true] world_up)) as (_ & _ & H & _).
    destruct (H "S1" None (Some (Fin 50%Q)) None [] eq_refl eq_refl Hex)
      as (_ & _ & Ho); [discriminate|].
    rewrite Ho. reflexivity.
  - split; [reflexivity|]. split; [reflexivity|].
    destruct (manager_contains_query_errors decimal_numerals world_down)
      as (_ & _ & _ & _ & H).
    destruct (H [] eq_refl eq_refl) as (_ & _ & _ & _ & _ & Hb & _).
    apply (Hb CSV_BACKUP).
Defined.

(** C1, as the claim words it, fails: an Error of the server during
    stats or plot reaches the caller, and so does, from each of the nine
    operations, the RuntimeError of a failed reconnection. *)
Lemma manager_propagates_cex :
  (fst (stats decimal_numerals (set_faults [true] world_up))
   = Exn (MySQLError Refused) /\
   fst (plot_marks_distribution decimal_numerals
                                (set_faults [true] world_up))
   = Exn (MySQLError Refused)) /\
  (let down {A} : Res A := Exn (RuntimeError "DB connection failed") in
   fst (add_student decimal_numerals (mkStudent "S3" "Mira" (Fin 70%Q) "B")
                    world_down) = down /\
   fst (view_students decimal_numerals world_down) = down /\
   fst (get_student_by_roll decimal_numerals "S1" world_down) = down /\
   fst (update_student decimal_numerals "S1" None (Some (Fin 50%Q)) None
                       world_down) = down /\
   fst (delete_student decimal_numerals "S1" world_down) = down /\
   fst (backup_to_csv decimal_numerals CSV_BACKUP world_down) = down /\
   fst (restore_from_csv decimal_numerals CSV_BACKUP
          (set_connects [false] (set_live false world_backup))) = down /\
   fst (stats decimal_numerals world_down) = down /\
   fst (plot_marks_distribution decimal_numerals world_down) = down).
Proof.
  cbv zeta. repeat split; vm_compute; reflexivity.
Qed.

(** ** Restore *)

(** A committed statement on a live connection either goes through or
    is rejected with an Error; the connection stays live. *)
Lemma execute_write_cases num q w :
  live w = true ->
  (exists w1, execute num q true false w = (Val None, w1) /\
              live w1 = true /\ out w1 = out w ++ [Sent q; Committed]) \/
  (exists why w1, execute num q true false w = (Exn (MySQLError why), w1) /\
                  live w1 = true /\ out w1 = out w ++ [Sent q]).
Proof.
  intros Hl. rewrite execute_live by assumption.
  destruct (faults w) as [|[] fs].
  - destruct (run_sql num q (table w)) as [why|[t' rows]].
    + right. do 2 eexists. repeat split. exact Hl.
    + left. eexists. split; [reflexivity|]. simpl. rewrite <- app_assoc.
      split; [exact Hl | reflexivity].
  - right. do 2 eexists. repeat split. exact Hl.
  - destruct (run_sql num q (table w)) as [why|[t' rows]].
    + right. do 2 eexists. repeat split. exact Hl.
    + left. eexists. split; [reflexivity|]. simpl. rewrite <- app_assoc.
      split; [exact Hl | reflexivity].
Qed.

(** One row of a restore on a live connection: the insert is sent; if
    the server rejects it the update is sent; if that is rejected too
    the Error is printed; in every case the row returns normally. *)
Lemma restore_row_live num row st w :
  live w = true ->
  row_statements num row = Some st ->
  exists o w',
    restore_row num row w = (Val tt, w') /\
    live w' = true /\
    out w' = out w ++ row_events st o.
Proof.
  intros Hl Hst. rewrite (restore_row_steps num row st w Hst).
  destruct (execute_write_cases num (fst st) w Hl)
    as [(w1 & E & L & O)|(why & w1 & E & L & O)]; rewrite E.
  - exists Inserted, w1. simpl. auto.
  - cbn [is_Error].
    destruct (execute_write_cases num (snd st) w1 L)
      as [(w2 & E2 & L2 & O2)|(why2 & w2 & E2 & L2 & O2)]; rewrite E2.
    + exists Updated, w2. simpl. rewrite O2, O, <- app_assoc. auto.
    + exists (Failed why2). eexists. cbn [is_Error].
      split; [reflexivity|].
      simpl. rewrite O2, O. repeat rewrite <- app_assoc. auto.
Qed.

Lemma restore_rows_live num df : forall w,
  live w = true ->
  Forall (fun row => row_statements num row <> None) df ->
  exists os w',
    restore_rows num df w = (Val tt, w') /\
    live w' = true /\
    List.length os = List.length df /\
    out w' = out w ++ restore_events num df os.
Proof.
  induction df as [|row df IH]; intros w Hl Hwf.
  - exists [], w. simpl. rewrite app_nil_r. auto.
  - inversion Hwf as [|? ? Hrow Hrest]; subst.
    destruct (row_statements num row) as [st|] eqn:Est; [|contradiction].
    destruct (restore_row_live num row st w Hl Est) as (o & w1 & E1 & L1 & O1).
    destruct (IH w1 L1 Hrest) as (os & w2 & E2 & L2 & Len & O2).
    exists (o :: os), w2. simpl. unfold bind. rewrite E1, E2, Est.
    repeat split; auto.
    rewrite O2, O1, <- app_assoc. reflexivity.
Qed.

(** The exception with which a row's parameters fail to build is no
    Error of the server. *)
Lemma row_exception_not_Error num row e :
  row_exception num row = Some e -> is_Error e = false.
Proof.
  unfold row_exception.
  destruct (dict_get "roll_no" row); [|intros H; injection H as <-; reflexivity].
  destruct (dict_get "name" row); [|intros H; injection H as <-; reflexivity].
  destruct (dict_get "marks" row) as [mv|];
    [|intros H; injection H as <-; reflexivity].
  destruct mv as [s|f|z|b|]; unfold py_to_float;
    try destruct (py_float num s);
    destruct (dict_get "grade" row); intros H; try discriminate H;
    injection H as <-; reflexivity.
Qed.

(** A row whose parameters fail to build raises before anything is
    sent. *)
Lemma restore_row_raises num row e w :
  row_exception num row = Some e ->
  restore_row num row w = (Exn e, w).
Proof.
  intros He. pose proof (row_exception_not_Error num row e He) as Hn.
  unfold row_exception in He.
  unfold restore_row, try_except, bind, getitem, lift, ret, raise.
  destruct (dict_get "roll_no" row) as [r|];
    [|injection He as <-; reflexivity].
  destruct (dict_get "name" row) as [n|];
    [|injection He as <-; reflexivity].
  destruct (dict_get "marks" row) as [mv|];
    [|injection He as <-; reflexivity].
  destruct (py_to_float num mv) as [m|e'];
    [|injection He as <-; cbv beta iota; rewrite Hn; reflexivity].
  destruct (dict_get "grade" row) as [g|]; [discriminate He|].
  injection He as <-. reflexivity.
Qed.

Lemma restore_rows_app num done rest w :
  restore_rows num (done ++ rest) w =
  match restore_rows num done w with
  | (Val _, w1) => restore_rows num rest w1
  | (Exn e, w1) => (Exn e, w1)
  end.
Proof.
  revert w. induction done as [|row done IH]; intros w; [reflexivity|].
  cbn [app restore_rows]. unfold bind.
  destruct (restore_row num row w) as [[a|e] w1]; [apply IH | reflexivity].
Qed.

(** C8, as the code has it.

    On a live connection, for a file that parses into rows that carry
    the four columns with marks [float] accepts, restore handles every
    row on its own: an insert is sent for each; when the server rejects
    it one update keyed by roll_no is sent; when that is rejected too the
    row's Error is printed; the next row follows in every case, and
    restore ends with "Restore complete.".  A row whose two statements
    are rejected leaves its report and the table as it was, and the rows
    after it are restored from there.

    An exception that is no Error of the server is not contained: a row
    that lacks a column (KeyError) or whose marks [float] refuses
    (ValueError) ends the restore where it stands, the rows before it
    restored and nothing sent for it or for the rows after it; so does a
    failed reconnection (RuntimeError). *)
Theorem restore_rows_independent num w :
  (forall path c df,
     file_lookup path (files w) = Some (Table c) ->
     read_csv num c = Some df ->
     live w = true ->
     Forall (fun row => row_statements num row <> None) df ->
     let r := restore_from_csv num path w in
     exists os,
       List.length os = List.length df /\
       fst r = Val tt /\
       out (snd r) =
         out w ++ restore_events num df os ++ [Printed "Restore complete."]) /\
  (forall row st,
     row_statements num row = Some st ->
     restore_row num row w =
     match execute num (fst st) true false w with
     | (Val _, w1) => (Val tt, w1)
     | (Exn e, w1) =>
         if is_Error e then
           match execute num (snd st) true false w1 with
           | (Val _, w2) => (Val tt, w2)
           | (Exn e2, w2) =>
               if is_Error e2
               then (Val tt, emit (PrintedExc "Error restoring row:" e2) w2)
               else (Exn e2, w2)
           end
         else (Exn e, w1)
     end) /\
  (forall row st rest fs,
     live w = true ->
     faults w = true :: true :: fs ->
     row_statements num row = Some st ->
     restore_rows num (row :: rest) w =
     restore_rows num rest
       (emit (PrintedExc "Error restoring row:" (MySQLError Refused))
          (set_faults fs (emit (Sent (snd st)) (emit (Sent (fst st)) w))))) /\
  (forall path c done row rest e,
     file_lookup path (files w) = Some (Table c) ->
     read_csv num c = Some (done ++ row :: rest) ->
     row_exception num row = Some e ->
     is_Error e = false /\
     restore_from_csv num path w =
     match restore_rows num done w with
     | (Val _, w1) => (Exn e, w1)
     | (Exn e', w1) => (Exn e', w1)
     end) /\
  (forall path c row rest st cs,
     file_lookup path (files w) = Some (Table c) ->
     read_csv num c = Some (row :: rest) ->
     row_statements num row = Some st ->
     live w = false ->
     connects w = false :: cs ->
     escapes w (restore_from_csv num path w)).
Proof.
  split.
  { intros path c df Hf Hp Hl Hwf. cbv zeta.
    unfold restore_from_csv, read_file.
    rewrite Hf, Hp. unfold bind, print.
    destruct (restore_rows_live num df w Hl Hwf)
      as (os & w' & E & _ & Len & O).
    rewrite E. exists os. simpl. rewrite O, <- app_assoc. auto. }
  split; [intros row st Hst; apply restore_row_steps; exact Hst|].
  split.
  { intros row st rest fs Hl Hf Hst. cbn [restore_rows]. unfold bind.
    rewrite (restore_row_rejected num row st w fs Hl Hf Hst). reflexivity. }
  split.
  { intros path c done row rest e Hf Hp He.
    split; [apply (row_exception_not_Error num row e He)|].
    unfold restore_from_csv, read_file. rewrite Hf, Hp.
    unfold bind at 1. rewrite restore_rows_app.
    destruct (restore_rows num done w) as [[a|e'] w1]; [|reflexivity].
    cbn [restore_rows]. unfold bind.
    rewrite (restore_row_raises num row e w1 He). reflexivity. }
  intros path c row rest st cs Hf Hp Hst Hl Hc.
  unfold restore_from_csv, read_file. rewrite Hf, Hp.
  apply bind_escapes. cbn [restore_rows]. apply bind_escapes.
  rewrite (restore_row_steps num row st w Hst).
  pose proof (execute_escapes num (fst st) true false w cs Hl Hc) as He.
  unfold escapes in He |- *.
  destruct (execute num (fst st) true false w) as [[a|e] w1];
    cbn [fst snd] in He |- *.
  - destruct He as [He _]. discriminate He.
  - destruct He as [He more]. injection He as ->. cbn [is_Error fst snd].
    split; [reflexivity | exact more].
Qed.

Lemma restore_rows_independent_witness :
  live world_rejecting = true /\
  faults world_rejecting = [true; true] /\
  (let r := restore_from_csv decimal_numerals CSV_BACKUP world_rejecting in
   fst r = Val tt /\
   out (snd r)
   = [Sent (InsertStudent (PStr "S1") (PStr "Asha") (PFloat (Fin 90%Q))
                          (PStr "A"));
      Sent (UpdateStudent [col_name; col_marks; col_grade]
              [PStr "Asha"; PFloat (Fin 90%Q); PStr "A"; PStr "S1"]);
      PrintedExc "Error restoring row:" (MySQLError Refused);
      Sent (InsertStudent (PStr "S2") (PStr "Ravi")
                          (PFloat (Fin (171 # 2)%Q)) (PStr "B+"));
      Sent (UpdateStudent [col_name; col_marks; col_grade]
              [PStr "Ravi"; PFloat (Fin (171 # 2)%Q); PStr "B+"; PStr "S2"]);
      Committed;
      Printed "Restore complete."] /\
   table (snd r) = [mkRow "S2" "Ravi" (Some (171 # 2)%Q) "B+"]).
Proof.
  split; [reflexivity|]. split; [reflexivity|]. cbv zeta.
  destruct (restore_rows_independent decimal_numerals world_rejecting)
    as (_ & _ & H & _).
  pose (row1 := [("roll_no", PStr "S1"); ("name", PStr "Asha");
                 ("marks", PFloat (Fin 90%Q)); ("grade", PStr "A")] : Dict).
  pose (row2 := [("roll_no", PStr "S2"); ("name", PStr "Ravi");
                 ("marks", PFloat (Fin (171 # 2)%Q)); ("grade", PStr "B+")]
                : Dict).
  pose proof
    (H row1
       (InsertStudent (PStr "S1") (PStr "Asha") (PFloat (Fin 90%Q)) (PStr "A"),
        UpdateStudent [col_name; col_marks; col_grade]
          [PStr "Asha"; PFloat (Fin 90%Q); PStr "A"; PStr "S1"])
       [row2] [] eq_refl eq_refl eq_refl) as Hrows.
  assert (E : restore_from_csv decimal_numerals CSV_BACKUP world_rejecting
              = (restore_rows decimal_numerals (row1 :: [row2]) ;;;
                 print "Restore complete.") world_rejecting)
    by (vm_compute; reflexivity).
  rewrite E. unfold bind. rewrite Hrows.
  repeat split; vm_compute; reflexivity.
Defined.

(** C8, as the claim words it, fails: a row whose marks [float] refuses
    raises ValueError out of restore, a file without one of the four
    columns raises KeyError, and a failed reconnection raises
    RuntimeError; in each case nothing is sent for the rows that
    follow. *)
Lemma restore_aborts_cex :
  (let r := restore_from_csv decimal_numerals CSV_BACKUP world_bad_marks in
   fst r = Exn (ValueError "could not convert string to float: 'abc'") /\
   sents (out (snd r)) = [] /\
   table (snd r) = []) /\
  (let r := restore_from_csv decimal_numerals CSV_BACKUP world_no_grade in
   fst r = Exn (KeyError "grade") /\
   sents (out (snd r)) = [] /\
   table (snd r) = []) /\
  (let r := restore_from_csv decimal_numerals CSV_BACKUP
              (set_connects [false] (set_live false world_backup)) in
   fst r = Exn (RuntimeError "DB connection failed") /\
   sents (out (snd r)) = [] /\
   table (snd r) = []).
Proof.
  cbv zeta. repeat split; vm_compute; reflexivity.
Qed.

(** ** Backup, then restore *)

(** The round trip on the sample class: the table comes back as it
    was. *)
Example backup_restore_sample :
  let saved := snd (backup_to_csv decimal_numerals CSV_BACKUP world_up) in
  let r := restore_from_csv decimal_numerals CSV_BACKUP (set_table [] saved) in
  fst r = Val tt /\ table (snd r) = table world_up.
Proof. cbv zeta. split; vm_compute; reflexivity. Qed.

(** C2, at the input where the code departs from it: the backup writes
    the roll numbers "007" and "008" as they are; read back, the column
    holds only digits and comes out as the integers 7 and 8, so the
    restored rows are keyed "7" and "8" and the stored set is not
    reproduced. *)
Theorem backup_restore_drops_leading_zeros :
  let saved := snd (backup_to_csv decimal_numerals CSV_BACKUP world_zeros) in
  let r := restore_from_csv decimal_numerals CSV_BACKUP (set_table [] saved) in
  file_lookup CSV_BACKUP (files saved)
  = Some (Table (mkCsv ["roll_no"; "name"; "marks"; "grade"]
                       [["007"; "Bond"; "90.0"; "A"];
                        ["008"; "Ann"; "85.5"; "B"]])) /\
  fst r = Val tt /\
  table (snd r) = [mkRow "7" "Bond" (Some 90%Q) "A";
                   mkRow "8" "Ann" (Some (171 # 2)%Q) "B"] /\
  ~ Permutation (table (snd r)) (table world_zeros).
Proof.
  cbv zeta.
  assert (Ht : table (snd (restore_from_csv decimal_numerals CSV_BACKUP
                 (set_table []
                    (snd (backup_to_csv decimal_numerals CSV_BACKUP
                                        world_zeros)))))
               = [mkRow "7" "Bond" (Some 90%Q) "A";
                  mkRow "8" "Ann" (Some (171 # 2)%Q) "B"])
    by (vm_compute; reflexivity).
  split; [vm_compute; reflexivity|].
  split; [vm_compute; reflexivity|].
  split; [exact Ht|].
  rewrite Ht. intros P.
  assert (Hin : In (mkRow "007" "Bond" (Some 90%Q) "A")
                   [mkRow "7" "Bond" (Some 90%Q) "A";
                    mkRow "8" "Ann" (Some (171 # 2)%Q) "B"]).
  { apply (Permutation_in _ (Permutation_sym P)). left. reflexivity. }
  destruct Hin as [H|[H|[]]]; discriminate H.
Qed.

(** ** Statistics *)

(** [stats] on a live connection, a statement that goes through and a
    table with a row. *)
Lemma stats_ok num w :
  live w = true ->
  calm 1 w ->
  table w <> [] ->
  let df := coerce_marks num (map stats_dict_of_row (table w)) in
  let xs := map marks_of df in
  fst (stats num w)
  = Val (Some (mkStats (series_mean num xs) (series_median num xs)
                       (series_std num xs)
                       (map (select_cols ["roll_no"; "name"; "marks"])
                            (nlargest 3 df)))).
Proof.
  intros Hl Hc Hne. cbv zeta. unfold stats, bind.
  rewrite execute_ok by assumption. simpl.
  destruct (table w) as [|r t]; [contradiction|]. simpl.
  unfold print_num, print, print_frame, ret.
  destruct (is_nan _); reflexivity.
Qed.

Lemma insert_by_roll_In r x l :
  In r (insert_by_roll x l) <-> r = x \/ In r l.
Proof.
  induction l as [|y l IH]; simpl; [intuition congruence|].
  destruct (String.leb (r_roll x) (r_roll y)); simpl; [intuition congruence|].
  rewrite IH. intuition congruence.
Qed.

Lemma order_by_roll_In r l : In r (order_by_roll l) <-> In r l.
Proof.
  induction l as [|y l IH]; simpl; [tauto|].
  rewrite insert_by_roll_In, IH. intuition congruence.
Qed.

(** [view_students] on a live connection when the statement goes
    through. *)
Lemma view_students_ok num w :
  live w = true ->
  calm 1 w ->
  fst (view_students num w) = Val (map dict_of_row (order_by_roll (table w))).
Proof.
  intros Hl Hc. unfold view_students, try_except, bind.
  rewrite execute_ok by assumption. simpl.
  destruct (map dict_of_row (order_by_roll (table w))); reflexivity.
Qed.

(** [view_students] when the statement goes through, with the world it
    leaves. *)
Lemma view_students_run num w :
  live w = true ->
  calm 1 w ->
  view_students num w =
  (Val (map dict_of_row (order_by_roll (table w))),
   emit (match order_by_roll (table w) with
         | [] => Printed "No students found."
         | _ => PrintedFrame (map dict_of_row (order_by_roll (table w)))
         end)
        (set_faults (tl (faults w)) (emit (Sent SelectAll) w))).
Proof.
  intros Hl Hc. unfold view_students, try_except, bind.
  rewrite execute_ok by assumption. simpl.
  destruct (order_by_roll (table w)); reflexivity.
Qed.

Lemma dict_get_set k v d : dict_get k (dict_set k v d) = Some v.
Proof.
  induction d as [|[k' v'] d IH]; simpl.
  - rewrite String.eqb_refl. reflexivity.
  - destruct (String.eqb k k') eqn:E; simpl; rewrite ?String.eqb_refl, ?E;
      auto.
Qed.

(** The coerced marks column of a frame, cell by cell. *)
Lemma coerced_marks num df :
  map marks_of (coerce_marks num df)
  = map (fun d => to_numeric_coerce num (marks_cell d)) df.
Proof.
  unfold coerce_marks. rewrite map_map. apply map_ext. intros d.
  unfold marks_of. rewrite dict_get_set. reflexivity.
Qed.

(** What the aggregates see of the coerced column are the numbers of
    the frame. *)
Lemma dropna_numeric num df :
  dropna (map marks_of (coerce_marks num df)) = numeric_marks num df.
Proof.
  rewrite coerced_marks. unfold dropna, numeric_marks.
  induction df as [|d df IH]; simpl; [reflexivity|].
  destruct (is_nan (to_numeric_coerce num (marks_cell d))); simpl;
    rewrite IH; reflexivity.
Qed.

(** The three aggregates of a frame are the library's reductions over
    its numbers. *)
Lemma series_numeric num df :
  let xs := map marks_of (coerce_marks num df) in
  let ys := numeric_marks num df in
  series_mean num xs = reduced 1 (float_mean num) ys /\
  series_median num xs = reduced 1 (float_median num) ys /\
  series_std num xs = reduced 2 (float_std num) ys.
Proof.
  cbv zeta. unfold series_mean, series_median, series_std, aggregate, reduced.
  rewrite dropna_numeric. repeat split; reflexivity.
Qed.

Lemma unreadable_is_nan num d :
  unreadable_marks num d -> to_numeric_coerce num (marks_cell d) = NaN.
Proof.
  unfold unreadable_marks.
  destruct (marks_cell d) as [s|[q| | |]|z|b|]; simpl; intros H;
    try contradiction; try reflexivity.
  rewrite H. reflexivity.
Qed.

(** A row whose marks do not read as a number adds nothing to the
    numbers of the frame. *)
Lemma numeric_marks_skip num df1 d df2 :
  unreadable_marks num d ->
  numeric_marks num (df1 ++ d :: df2) = numeric_marks num (df1 ++ df2).
Proof.
  intros H. unfold numeric_marks. repeat rewrite flat_map_app. simpl.
  rewrite (unreadable_is_nan num d H). reflexivity.
Qed.

(** The numbers of the stats frame are the marks stored as numbers. *)
Lemma numeric_marks_stored num t :
  numeric_marks num (map stats_dict_of_row t) = map Fin (known_marks t).
Proof.
  unfold numeric_marks, known_marks.
  induction t as [|r t IH]; simpl; [reflexivity|].
  destruct r as [k n [q|] g]; simpl in *; rewrite IH; reflexivity.
Qed.

Lemma known_marks_skip l1 r l2 :
  r_marks r = None -> known_marks (l1 ++ r :: l2) = known_marks (l1 ++ l2).
Proof.
  intros H. unfold known_marks. repeat rewrite flat_map_app. simpl.
  rewrite H. reflexivity.
Qed.

(** [stats] once the rows are fetched, when there are any. *)
Lemma stats_of_ok num rs w :
  rs <> [] ->
  let df := coerce_marks num rs in
  let xs := map marks_of df in
  fst (stats_of num rs w)
  = Val (Some (mkStats (series_mean num xs) (series_median num xs)
                       (series_std num xs)
                       (map (select_cols ["roll_no"; "name"; "marks"])
                            (nlargest 3 df)))).
Proof.
  intros Hne. cbv zeta. unfold stats_of.
  destruct rs as [|d rs]; [contradiction|].
  unfold bind, print_num, print, print_frame, ret.
  destruct (negb (is_nan _)); reflexivity.
Qed.

(** C6: a record whose marks do not read as a number is left out of the
    mean, the median and the standard deviation, and view_all still
    returns and displays it.

    stats is its query followed by [stats_of] on the rows fetched, and
    view_all its query followed by [shown].  Whatever rows the cursor
    hands over, a row among them whose marks are an unreadable text,
    missing or not-a-number counts for nothing in the three figures
    (not for a zero): they are the library's reductions over the marks
    that to_numeric reads as numbers in the other rows, in the order
    fetched; and [shown] returns that row with the others and prints it
    in the frame.

    On the store, where a row without a number is a row with missing
    (NULL) marks: stats returns the reductions over the marks of the
    other rows, and view_all returns the row and prints it in its
    frame. *)
Theorem missing_marks_excluded num :
  (stats num
   = (rows <- execute num SelectStats false true ;;
      stats_of num (rows_of rows)) /\
   view_students num
   = try_except
       (rows <- execute num SelectAll false true ;; shown (rows_of rows))
       is_Error
       (fun e => print_exc "Error fetching students:" e ;;; ret [])) /\
  (forall df1 d df2 w,
     unreadable_marks num d ->
     let df := df1 ++ d :: df2 in
     let ys := numeric_marks num (df1 ++ df2) in
     (exists st,
        fst (stats_of num df w) = Val (Some st) /\
        st_mean st = reduced 1 (float_mean num) ys /\
        st_median st = reduced 1 (float_median num) ys /\
        st_std st = reduced 2 (float_std num) ys) /\
     shown df w = (Val df, emit (PrintedFrame df) w) /\
     In d df) /\
  (forall w l1 r l2,
     table w = l1 ++ r :: l2 ->
     r_marks r = None ->
     live w = true ->
     calm 1 w ->
     let ys := map Fin (known_marks (l1 ++ l2)) in
     exists st rows,
       fst (stats num w) = Val (Some st) /\
       st_mean st = reduced 1 (float_mean num) ys /\
       st_median st = reduced 1 (float_median num) ys /\
       st_std st = reduced 2 (float_std num) ys /\
       fst (view_students num w) = Val rows /\
       out (snd (view_students num w))
       = out w ++ [Sent SelectAll; PrintedFrame rows] /\
       In (dict_of_row r) rows).
Proof.
  split; [split; reflexivity|].
  split.
  { intros df1 d df2 w Hd. cbv zeta.
    assert (Hne : df1 ++ d :: df2 <> []) by (destruct df1; discriminate).
    split; [|split].
    - eexists. split; [apply (stats_of_ok num _ w Hne)|].
      cbn [st_mean st_median st_std].
      rewrite <- (numeric_marks_skip num df1 d df2 Hd). apply series_numeric.
    - unfold shown. destruct (df1 ++ d :: df2); [contradiction|]. reflexivity.
    - apply in_or_app. right. left. reflexivity. }
  intros w l1 r l2 Ht Hr Hl Hc. cbv zeta.
  assert (Hne : table w <> [])
    by (rewrite Ht; destruct l1; discriminate).
  pose proof (stats_ok num w Hl Hc Hne) as Hs. cbv zeta in Hs.
  destruct (series_numeric num (map stats_dict_of_row (table w)))
    as (Hm & Hmed & Hstd).
  rewrite numeric_marks_stored, Ht, (known_marks_skip l1 r l2 Hr), <- Ht
    in Hm, Hmed, Hstd.
  assert (Hin : In r (order_by_roll (table w))).
  { apply order_by_roll_In. rewrite Ht.
    apply in_or_app. right. left. reflexivity. }
  do 2 eexists.
  split; [exact Hs|]. cbn [st_mean st_median st_std].
  split; [exact Hm|]. split; [exact Hmed|]. split; [exact Hstd|].
  rewrite (view_students_run num w Hl Hc). cbn [fst snd].
  split; [reflexivity|]. split.
  - destruct (order_by_roll (table w)) as [|r0 sorted]; [destruct Hin|].
    cbn [out emit set_faults]. rewrite <- app_assoc. reflexivity.
  - apply in_map. exact Hin.
Qed.

Lemma missing_marks_excluded_witness :
  (let d : Dict := [("roll_no", PStr "S3"); ("name", PStr "Mira");
                    ("marks", PStr "abc")] in
   let df := [stats_dict_of_row (mkRow "S1" "Asha" (Some 90%Q) "A")] ++ d
             :: [stats_dict_of_row
                   (mkRow "S2" "Ravi" (Some (171 # 2)%Q) "B+")] in
   unreadable_marks decimal_numerals d /\
   exists st,
     fst (stats_of decimal_numerals df world_up) = Val (Some st) /\
     st_mean st = Fin (351 # 4)%Q /\
     st_median st = Fin (351 # 4)%Q) /\
  (table world_missing
   = [mkRow "S1" "Asha" (Some 90%Q) "A"] ++ mkRow "S3" "Mira" None "C"
     :: [mkRow "S2" "Ravi" (Some (171 # 2)%Q) "B+"] /\
   live world_missing = true /\ calm 1 world_missing /\
   exists st rows,
     fst (stats decimal_numerals world_missing) = Val (Some st) /\
     st_mean st = Fin (351 # 4)%Q /\
     st_median st = Fin (351 # 4)%Q /\
     fst (view_students decimal_numerals world_missing) = Val rows /\
     In (dict_of_row (mkRow "S3" "Mira" None "C")) rows).
Proof.
  destruct (missing_marks_excluded decimal_numerals) as (_ & Hframe & Hstore).
  split.
  - cbv zeta.
    assert (Hd : unreadable_marks decimal_numerals
                   [("roll_no", PStr "S3"); ("name", PStr "Mira");
                    ("marks", PStr "abc")]) by reflexivity.
    split; [exact Hd|].
    destruct (Hframe [stats_dict_of_row (mkRow "S1" "Asha" (Some 90%Q) "A")]
                     [("roll_no", PStr "S3"); ("name", PStr "Mira");
                      ("marks", PStr "abc")]
                     [stats_dict_of_row
                        (mkRow "S2" "Ravi" (Some (171 # 2)%Q) "B+")]
                     world_up Hd)
      as ((st & Hs & Hm & Hmed & _) & _).
    exists st. split; [exact Hs|].
    split; [refine (eq_trans Hm _) | refine (eq_trans Hmed _)];
      vm_compute; reflexivity.
  - split; [reflexivity|]. split; [reflexivity|]. split; [reflexivity|].
    destruct (Hstore world_missing [mkRow "S1" "Asha" (Some 90%Q) "A"]
                (mkRow "S3" "Mira" None "C")
                [mkRow "S2" "Ravi" (Some (171 # 2)%Q) "B+"]
                eq_refl eq_refl eq_refl eq_refl)
      as (st & rows & Hs & Hm & Hmed & _ & Hv & _ & Hin).
    exists st, rows. split; [exact Hs|].
    split; [rewrite Hm; vm_compute; reflexivity|].
    split; [rewrite Hmed; vm_compute; reflexivity|].
    split; [exact Hv | exact Hin].
Defined.

(** Missing is not zero: with marks 90, missing and 85.5 the mean is
    87.75 and the median 87.75, where a zero in place of the missing
    value would give 58.5 and 85.5. *)
Example missing_is_not_zero :
  (exists st,
     fst (stats decimal_numerals world_missing) = Val (Some st) /\
     st_mean st = Fin (351 # 4)%Q /\ st_median st = Fin (351 # 4)%Q) /\
  float_mean decimal_numerals [Fin 90%Q; Fin 0%Q; Fin (171 # 2)%Q]
  = Fin (117 # 2)%Q /\
  float_median decimal_numerals [Fin 90%Q; Fin 0%Q; Fin (171 # 2)%Q]
  = Fin (171 # 2)%Q.
Proof.
  split; [|split; vm_compute; reflexivity].
  eexists. split; [vm_compute; reflexivity|]. split; reflexivity.
Qed.

(** ** The top three *)

Lemma fge_total a b :
  is_nan a = false -> is_nan b = false -> fge a b = false -> fge b a = true.
Proof.
  destruct a as [x| | |], b as [y| | |]; simpl; intros Ha Hb H;
    try discriminate; try reflexivity.
  apply Qle_bool_iff. apply Qlt_le_weak. apply Qnot_le_lt.
  intros L. apply Qle_bool_iff in L. rewrite L in H. discriminate.
Qed.

Lemma fge_trans a b c :
  fge a b = true -> fge b c = true -> fge a c = true.
Proof.
  destruct a as [x| | |], b as [y| | |], c as [z| | |]; simpl;
    intros H1 H2; try discriminate; try reflexivity.
  apply Qle_bool_iff. apply Qle_bool_iff in H1, H2.
  eapply Qle_trans; eassumption.
Qed.

Lemma feq_fge a b m : feq a m = true -> feq b m = true -> fge a b = true.
Proof.
  destruct a as [x| | |], b as [y| | |], m as [z| | |]; simpl;
    intros H1 H2; try discriminate; try reflexivity.
  apply Qeq_bool_iff in H1, H2. apply Qle_bool_iff.
  rewrite H1, H2. apply Qle_refl.
Qed.

Lemma insert_desc_perm d l : Permutation (insert_desc d l) (d :: l).
Proof.
  induction l as [|y l IH]; simpl; [reflexivity|].
  destruct (fge (marks_of d) (marks_of y)); [reflexivity|].
  rewrite IH. apply perm_swap.
Qed.

Lemma sort_desc_perm l : Permutation (sort_desc l) l.
Proof.
  induction l as [|d l IH]; simpl; [reflexivity|].
  rewrite insert_desc_perm. apply perm_skip. exact IH.
Qed.

Lemma insert_desc_descending d l :
  numeric d = true ->
  Forall (fun y => numeric y = true) l ->
  descending l -> descending (insert_desc d l).
Proof.
  unfold descending, numeric. intros Hd Hl Hs.
  induction l as [|y l IH]; simpl.
  - repeat constructor.
  - inversion Hl as [|? ? Hy Hl']; subst.
    inversion Hs as [|? ? Hs' Hall]; subst.
    destruct (fge (marks_of d) (marks_of y)) eqn:E.
    + constructor; [exact Hs|]. constructor; [exact E|].
      eapply Forall_impl; [|exact Hall].
      intros z Hz. eapply fge_trans; eassumption.
    + constructor; [apply IH; assumption|].
      apply (Permutation_Forall (Permutation_sym (insert_desc_perm d l))).
      constructor; [|exact Hall].
      apply fge_total; try assumption.
      * apply negb_true_iff. exact Hd.
      * apply negb_true_iff. exact Hy.
Qed.

Lemma sort_desc_descending l :
  Forall (fun y => numeric y = true) l -> descending (sort_desc l).
Proof.
  induction l as [|d l IH]; intros H; simpl.
  - constructor.
  - inversion H; subst. apply insert_desc_descending; auto.
    apply (Permutation_Forall (Permutation_sym (sort_desc_perm l))).
    assumption.
Qed.

(** Insertion never passes a row of equal marks. *)
Lemma insert_desc_tied m d l :
  tied m (insert_desc d l) = tied m (d :: l).
Proof.
  unfold tied. induction l as [|y l IH]; simpl; [reflexivity|].
  destruct (fge (marks_of d) (marks_of y)) eqn:E; [reflexivity|].
  simpl. rewrite IH. simpl.
  destruct (feq (marks_of d) m) eqn:Ed; [|reflexivity].
  destruct (feq (marks_of y) m) eqn:Ey; [|reflexivity].
  rewrite (feq_fge _ _ _ Ed Ey) in E. discriminate.
Qed.

Lemma sort_desc_tied m l : tied m (sort_desc l) = tied m l.
Proof.
  induction l as [|d l IH]; simpl; [reflexivity|].
  rewrite insert_desc_tied. unfold tied in *. simpl. rewrite IH. reflexivity.
Qed.

Lemma descending_split l1 l2 :
  descending (l1 ++ l2) ->
  forall a b, In a l1 -> In b l2 -> fge (marks_of a) (marks_of b) = true.
Proof.
  unfold descending. induction l1 as [|x l1 IH]; simpl; intros Hs a b Ha Hb.
  - destruct Ha.
  - inversion Hs as [|? ? Hs' Hall]; subst.
    destruct Ha as [<-|Ha].
    + rewrite Forall_forall in Hall. apply Hall.
      apply in_or_app. right. exact Hb.
    + apply IH; assumption.
Qed.

(** C5, as the code has it.  With at least one row stored, the toppers
    are the first three of the rows that carry a number, ranked by
    decreasing marks, followed by the rows that carry none: the ranking
    is a rearrangement of the numbered rows, no row ranked among the
    first three has lower marks than a row ranked after them, and rows
    of equal marks keep the order in which the stats query returned
    them, which is the order of the table scan since that query has no
    ORDER BY. *)
Theorem toppers_by_fetch_order num w :
  live w = true ->
  calm 1 w ->
  table w <> [] ->
  let df := coerce_marks num (map stats_dict_of_row (table w)) in
  exists st ranked,
    fst (stats num w) = Val (Some st) /\
    st_toppers st
    = map (select_cols ["roll_no"; "name"; "marks"])
          (firstn 3 (ranked ++ filter (fun d => is_nan (marks_of d)) df)) /\
    Permutation ranked (filter numeric df) /\
    descending ranked /\
    (forall a b, In a (firstn 3 ranked) -> In b (skipn 3 ranked) ->
                 fge (marks_of a) (marks_of b) = true) /\
    (forall m, tied m ranked = tied m (filter numeric df)).
Proof.
  intros Hl Hc Hne. cbv zeta.
  pose proof (stats_ok num w Hl Hc Hne) as Hs. cbv zeta in Hs.
  set (df := coerce_marks num (map stats_dict_of_row (table w))) in *.
  assert (Hd : descending (sort_desc (filter numeric df))).
  { apply sort_desc_descending. apply Forall_forall.
    intros d Hin. apply filter_In in Hin. tauto. }
  eexists. exists (sort_desc (filter numeric df)).
  split; [exact Hs|]. split; [reflexivity|].
  split; [apply sort_desc_perm|]. split; [exact Hd|]. split.
  - apply descending_split. rewrite firstn_skipn. exact Hd.
  - intros m. apply sort_desc_tied.
Qed.

Lemma toppers_by_fetch_order_witness :
  live world_ties = true /\ calm 1 world_ties /\ table world_ties <> [] /\
  exists st,
    fst (stats decimal_numerals world_ties) = Val (Some st) /\
    map (dict_get "roll_no") (st_toppers st)
    = [Some (PStr "S4"); Some (PStr "S1"); Some (PStr "S2")].
Proof.
  split; [reflexivity|]. split; [reflexivity|]. split; [discriminate|].
  destruct (toppers_by_fetch_order decimal_numerals world_ties)
    as (st & ranked & Hs & _); [reflexivity | reflexivity | discriminate |].
  exists st. split; [exact Hs|].
  vm_compute in Hs. injection Hs as <-. reflexivity.
Defined.

(** C5, as the claim words it, fails: the four rows have equal marks and
    the stats query returns them as stored, S4 first; the toppers are
    S4, S1, S2, not the S1, S2, S3 an ascending roll_no order would
    give. *)
Lemma toppers_roll_order_cex :
  map r_roll (order_by_roll (table world_ties)) = ["S1"; "S2"; "S3"; "S4"] /\
  exists st,
    fst (stats decimal_numerals world_ties) = Val (Some st) /\
    map (dict_get "roll_no") (st_toppers st)
    = [Some (PStr "S4"); Some (PStr "S1"); Some (PStr "S2")] /\
    map (dict_get "roll_no")
        (map (select_cols ["roll_no"; "name"; "marks"])
             (nlargest 3 (coerce_marks decimal_numerals
                            (map stats_dict_of_row
                                 (order_by_roll (table world_ties))))))
    = [Some (PStr "S1"); Some (PStr "S2"); Some (PStr "S3")].
Proof.
  split; [vm_compute; reflexivity|].
  eexists. split; [vm_compute; reflexivity|].
  split; vm_compute; reflexivity.
Qed.

(** * Further properties *)

(** ** What computations keep *)

Section Keeping.

Variable num : Numerals.
Variable P : World -> World -> Prop.
Variable allowed : Sql -> Prop.

Hypothesis P_refl : forall w, P w w.
Hypothesis P_trans : forall a b c, P a b -> P b c -> P a c.
Hypothesis P_emit : forall e w, P w (emit e w).
Hypothesis P_live : forall b w, P w (set_live b w).
Hypothesis P_connects : forall l w, P w (set_connects l w).
Hypothesis P_faults : forall l w, P w (set_faults l w).
Hypothesis P_run :
  forall q, allowed q ->
  forall w t' rows, run_sql num q (table w) = inr (t', rows) ->
                    P w (set_table t' w).

Lemma keeps_ret {A} (a : A) : preserves P (ret a).
Proof. intros w. apply P_refl. Qed.

Lemma keeps_raise {A} e : preserves P (@raise A e).
Proof. intros w. apply P_refl. Qed.

Lemma keeps_lift {A} (r : Res A) : preserves P (lift r).
Proof. intros w. apply P_refl. Qed.

Lemma keeps_bind {A B} (m : M A) (k : A -> M B) :
  preserves P m -> (forall a, preserves P (k a)) -> preserves P (bind m k).
Proof.
  intros Hm Hk w. unfold bind. specialize (Hm w).
  destruct (m w) as [[a|e] w1]; simpl in *; [|exact Hm].
  eapply P_trans; [exact Hm | apply Hk].
Qed.

Lemma keeps_try {A} (body : M A) cls (h : PyExc -> M A) :
  preserves P body -> (forall e, preserves P (h e)) ->
  preserves P (try_except body cls h).
Proof.
  intros Hb Hh w. unfold try_except. specialize (Hb w).
  destruct (body w) as [[a|e] w1]; simpl in *; [exact Hb|].
  destruct (cls e); [|exact Hb].
  eapply P_trans; [exact Hb | apply Hh].
Qed.

Lemma keeps_print t : preserves P (print t).
Proof. intros w. apply P_emit. Qed.

Lemma keeps_print_exc t e : preserves P (print_exc t e).
Proof. intros w. apply P_emit. Qed.

Lemma keeps_print_num t x : preserves P (print_num t x).
Proof. intros w. apply P_emit. Qed.

Lemma keeps_print_frame rows : preserves P (print_frame rows).
Proof. intros w. apply P_emit. Qed.

Lemma keeps_connect : preserves P connect.
Proof.
  intros w. unfold connect.
  destruct (connects w) as [|[] rest]; simpl;
    repeat (eapply P_trans; [|first [apply P_emit | apply P_live]]);
    first [apply P_connects | apply P_refl].
Qed.

Lemma keeps_cursor_execute q : allowed q -> preserves P (cursor_execute num q).
Proof.
  intros Hq w. unfold cursor_execute.
  destruct (faults w) as [|[] rest]; simpl;
    try (eapply P_trans; [apply P_emit | apply P_faults]);
    destruct (run_sql num q (table w)) as [why|[t' rows]] eqn:E; simpl;
    try (eapply P_trans; [apply P_emit | apply P_faults]);
    (eapply P_trans; [apply P_emit|]);
    (eapply P_trans; [apply P_faults|]);
    eapply (P_run q Hq); simpl; exact E.
Qed.

Lemma keeps_execute q commit fetch :
  allowed q -> preserves P (execute num q commit fetch).
Proof.
  intros Hq. unfold execute.
  apply keeps_bind.
  - intros w. destruct (live w); [apply P_refl|].
    apply keeps_bind; [apply keeps_connect|].
    intros []; [apply keeps_ret | apply keeps_raise].
  - intros _. apply keeps_bind; [apply keeps_cursor_execute; exact Hq|].
    intros rows. apply keeps_bind.
    + destruct commit; [intros w; apply P_emit | apply keeps_ret].
    + intros _. destruct fetch; apply keeps_ret.
Qed.

(** The shape shared by the guarded operations. *)
Ltac keeps_step :=
  lazymatch goal with
  | |- preserves _ (execute _ _ _ _) => apply keeps_execute; solve [auto]
  | |- preserves _ (ret _) => apply keeps_ret
  | |- preserves _ (raise _) => apply keeps_raise
  | |- preserves _ (lift _) => apply keeps_lift
  | |- preserves _ (print _) => apply keeps_print
  | |- preserves _ (print_exc _ _) => apply keeps_print_exc
  | |- preserves _ (print_num _ _) => apply keeps_print_num
  | |- preserves _ (print_frame _) => apply keeps_print_frame
  | |- preserves _ (bind _ _) => apply keeps_bind
  | |- preserves _ (try_except _ _ _) => apply keeps_try
  end.

Ltac keeps :=
  repeat
    (intros;
     first
       [ keeps_step
       | match goal with
         | |- preserves _ (match ?x with _ => _ end) => destruct x
         | |- preserves _ (if ?x then _ else _) => destruct x
         | |- preserves _ (let '(_, _) := ?x in _) => destruct x
         end ]).

Lemma keeps_add_student s :
  (forall q, allowed q) -> preserves P (add_student num s).
Proof. intros Ha. unfold add_student. keeps. Qed.

Lemma keeps_view_students :
  allowed SelectAll -> preserves P (view_students num).
Proof. intros Ha. unfold view_students. keeps. Qed.

Lemma keeps_get_student_by_roll roll :
  allowed (SelectByRoll (PStr roll)) ->
  preserves P (get_student_by_roll num roll).
Proof. intros Ha. unfold get_student_by_roll. keeps. Qed.

Lemma keeps_update_student roll n m g :
  (forall q, allowed q) -> preserves P (update_student num roll n m g).
Proof.
  intros Ha. unfold update_student.
  apply keeps_bind; [apply keeps_get_student_by_roll; apply Ha|].
  intros existing. destruct (negb (found existing)); [apply keeps_print|].
  destruct n, m, g; simpl; keeps.
Qed.

Lemma keeps_delete_student roll :
  (forall q, allowed q) -> preserves P (delete_student num roll).
Proof. intros Ha. unfold delete_student. keeps. Qed.

Lemma keeps_restore_from_csv path :
  (forall q, allowed q) -> preserves P (restore_from_csv num path).
Proof.
  intros Ha w. unfold restore_from_csv.
  destruct (file_lookup path (files w)) as [content|]; [|apply P_emit].
  destruct (read_file num content) as [e|df]; [apply P_emit|].
  assert (Hrows : forall rows, preserves P (restore_rows num rows)).
  { induction rows as [|row rows IH]; simpl; [apply keeps_ret|].
    apply keeps_bind; [|intros _; exact IH].
    unfold restore_row, getitem. keeps. }
  apply (keeps_bind (restore_rows num df)); [apply Hrows|].
  intros _. apply keeps_print.
Qed.

Lemma keeps_stats : allowed SelectStats -> preserves P (stats num).
Proof. intros Ha. unfold stats. keeps. Qed.

Lemma keeps_plot_marks_distribution :
  allowed SelectMarks -> preserves P (plot_marks_distribution num).
Proof.
  intros Ha. unfold plot_marks_distribution. keeps.
  intros w. apply P_emit.
Qed.

Hypothesis P_files : forall f w, P w (set_files f w).

Lemma keeps_backup_to_csv path :
  allowed SelectAll -> preserves P (backup_to_csv num path).
Proof.
  intros Ha. unfold backup_to_csv.
  apply keeps_bind; [apply keeps_view_students; exact Ha|].
  intros [|first rows]; [apply keeps_print|].
  apply keeps_try; [|intros; apply keeps_print_exc].
  apply keeps_bind; [|intros; apply keeps_print].
  intros w. unfold write_csv. destruct (read_only w); [apply P_refl|].
  simpl. eapply P_trans; [apply P_files | apply P_emit].
Qed.

Hypothesis P_stdin :
  forall w l rest, stdin w = l :: rest -> P w (set_stdin rest w).

Lemma keeps_input prompt : preserves P (input prompt).
Proof.
  intros w. unfold input. destruct (stdin w) as [|l rest] eqn:E; simpl.
  - apply P_emit.
  - eapply P_trans; [apply P_emit|]. apply (P_stdin _ l). exact E.
Qed.

Lemma keeps_input_roll : preserves P input_roll.
Proof. unfold input_roll. apply keeps_bind; [apply keeps_input|]. keeps. Qed.

Lemma keeps_input_name : preserves P input_name.
Proof. unfold input_name. apply keeps_bind; [apply keeps_input|]. keeps. Qed.

Lemma keeps_input_grade : preserves P input_grade.
Proof. unfold input_grade. apply keeps_bind; [apply keeps_input|]. keeps. Qed.

Lemma keeps_input_marks : preserves P (input_marks num).
Proof. unfold input_marks. apply keeps_bind; [apply keeps_input|]. keeps. Qed.

Lemma keeps_dispatch choice :
  (forall q, allowed q) -> preserves P (dispatch num choice).
Proof.
  intros Ha. unfold dispatch.
  repeat match goal with
         | |- preserves _ (if String.eqb choice ?c then _ else _) =>
             destruct (String.eqb choice c)
         end;
    repeat first
      [ apply keeps_input_roll | apply keeps_input_name
      | apply keeps_input_marks | apply keeps_input_grade
      | apply keeps_input
      | apply keeps_add_student | apply keeps_view_students
      | apply keeps_get_student_by_roll | apply keeps_update_student
      | apply keeps_delete_student | apply keeps_backup_to_csv
      | apply keeps_restore_from_csv | apply keeps_stats
      | apply keeps_plot_marks_distribution
      | exact Ha | apply Ha
      | (intros; keeps_step)
      | match goal with
        | |- preserves _ (if ?x then _ else _) => destruct x
        end ].
Qed.

Lemma keeps_menu_turn :
  (forall q, allowed q) -> preserves P (menu_turn num).
Proof.
  intros Ha. unfold menu_turn, print_menu.
  repeat first
    [ apply keeps_input | apply keeps_dispatch | exact Ha
    | keeps_step
    | match goal with
      | |- forall _, _ => intro
      | |- preserves _ (if ?x then _ else _) => destruct x
      end ].
Qed.

End Keeping.

(** ** Reading never writes *)

Lemma reads_only_keeps num q w t' rows :
  reads_only num q ->
  run_sql num q (table w) = inr (t', rows) ->
  same_table w (set_table t' w).
Proof.
  intros Hq E. destruct (Hq (table w)) as [rows' E'].
  rewrite E' in E. injection E as <- _. reflexivity.
Qed.

(** Discharge the side conditions of a keeping lemma for a relation
    that looks at one field of the world. *)
Ltac field_kept R :=
  unfold R; intros; simpl;
  try reflexivity; try congruence; try lia; auto.

(** X1.  The operations that only read (view_all, get_by_roll, stats, plot)
    and backup leave the table exactly as it was, in every world: with
    the connection up or down, the statement accepted or rejected, the
    disk writable or not. *)
Theorem reads_leave_table num w :
  table (snd (view_students num w)) = table w /\
  (forall roll, table (snd (get_student_by_roll num roll w)) = table w) /\
  table (snd (stats num w)) = table w /\
  table (snd (plot_marks_distribution num w)) = table w /\
  (forall path, table (snd (backup_to_csv num path w)) = table w).
Proof.
  assert (Hsel : forall q, (q = SelectAll \/
                            (exists roll, q = SelectByRoll (PStr roll)) \/
                            q = SelectStats \/ q = SelectMarks) ->
                           reads_only num q).
  { intros q [->|[[p ->]|[->| ->]]] t; eexists; reflexivity. }
  repeat split; intros;
    [ apply (keeps_view_students num same_table (reads_only num))
    | apply (keeps_get_student_by_roll num same_table (reads_only num))
    | apply (keeps_stats num same_table (reads_only num))
    | apply (keeps_plot_marks_distribution num same_table (reads_only num))
    | apply (keeps_backup_to_csv num same_table (reads_only num)) ];
    try (apply Hsel; eauto 6);
    try (intros; eapply reads_only_keeps; eassumption);
    field_kept same_table.
Qed.

(** ** Only backup writes a file *)

(** X2.  Every operation but backup leaves the files as they were, in every
    world; restore in particular never alters the file it reads. *)
Theorem only_backup_writes num w :
  (forall s, files (snd (add_student num s w)) = files w) /\
  files (snd (view_students num w)) = files w /\
  (forall roll, files (snd (get_student_by_roll num roll w)) = files w) /\
  (forall roll n m g,
     files (snd (update_student num roll n m g w)) = files w) /\
  (forall roll, files (snd (delete_student num roll w)) = files w) /\
  (forall path, files (snd (restore_from_csv num path w)) = files w) /\
  files (snd (stats num w)) = files w /\
  files (snd (plot_marks_distribution num w)) = files w.
Proof.
  repeat split; intros;
    [ apply (keeps_add_student num same_files (fun _ => True))
    | apply (keeps_view_students num same_files (fun _ => True))
    | apply (keeps_get_student_by_roll num same_files (fun _ => True))
    | apply (keeps_update_student num same_files (fun _ => True))
    | apply (keeps_delete_student num same_files (fun _ => True))
    | apply (keeps_restore_from_csv num same_files (fun _ => True))
    | apply (keeps_stats num same_files (fun _ => True))
    | apply (keeps_plot_marks_distribution num same_files (fun _ => True)) ];
    field_kept same_files.
Qed.

(** ** The menu loop *)

Lemma dispatch_input_not_longer num choice w :
  List.length (stdin (snd (dispatch num choice w))) <= List.length (stdin w).
Proof.
  apply (keeps_dispatch num input_not_longer (fun _ => True));
    try (unfold input_not_longer; intros; simpl; lia);
    try exact I.
  unfold input_not_longer. intros w0 l rest E. simpl. rewrite E. simpl. lia.
Qed.

Lemma bind_not_true {A} (m : M A) (k : A -> M bool) w :
  (forall a w1, fst (k a w1) <> Val true) -> fst (bind m k w) <> Val true.
Proof.
  intros Hk. unfold bind. destruct (m w) as [[a|e] w1]; [apply Hk|].
  discriminate.
Qed.

(** Only the branch of choice 0 leaves the loop. *)
Lemma dispatch_true num choice w :
  fst (dispatch num choice w) = Val true -> choice = "0".
Proof.
  unfold dispatch.
  repeat match goal with
         | |- context [if String.eqb choice ?c then _ else _] =>
             destruct (String.eqb choice c) eqn:?
         end;
    try (intros H; exfalso; revert H;
         repeat (apply bind_not_true; intros); discriminate).
  intros _. apply String.eqb_eq. assumption.
Qed.

Lemma after_choice_stdin rest w : stdin (after_choice rest w) = rest.
Proof. destruct (after_choice_frame rest w) as (_ & _ & _ & H & _). exact H. Qed.

Lemma input_suffix_refl w : input_suffix w w.
Proof. exists []. reflexivity. Qed.

Lemma input_suffix_trans a b c :
  input_suffix a b -> input_suffix b c -> input_suffix a c.
Proof.
  intros [t1 H1] [t2 H2]. exists (t1 ++ t2).
  rewrite H1, H2, app_assoc. reflexivity.
Qed.

(** A turn reads its lines from the front of the input. *)
Lemma menu_turn_suffix num w c rest :
  stdin w = c :: rest ->
  exists taken, rest = taken ++ stdin (snd (menu_turn num w)).
Proof.
  intros Hs. rewrite (menu_turn_choice num w c rest Hs).
  assert (H : preserves input_suffix
                (try_except (dispatch num (strip c)) is_Exception
                   (fun e =>
                      if is_ValueError e
                      then print_exc "Input error:" e ;;; ret false
                      else print_exc "Unexpected error:" e ;;; ret false))).
  { assert (Hemit : forall e w0, input_suffix w0 (emit e w0))
      by (intros; exists []; reflexivity).
    apply (keeps_try input_suffix input_suffix_trans).
    - apply (keeps_dispatch num input_suffix (fun _ => True));
        try exact I;
        try (intros; exists []; reflexivity);
        try apply input_suffix_trans.
      + intros w0 l rest0 E. exists [l]. simpl. exact E.
      + intros _. exact I.
    - intros e.
      destruct (is_ValueError e);
        (apply (keeps_bind input_suffix input_suffix_trans);
         [ intros w0; apply Hemit
         | intros _ w0; apply input_suffix_refl ]). }
  destruct (H (after_choice rest w)) as [taken Ht].
  rewrite after_choice_stdin in Ht. exists taken. exact Ht.
Qed.

(** What one turn returns once the choice is read. *)
Lemma menu_turn_outcome num w c rest :
  stdin w = c :: rest ->
  exists stop,
    fst (menu_turn num w) = Val stop /\
    (stop = true <-> strip c = "0") /\
    List.length (stdin (snd (menu_turn num w))) <= List.length rest.
Proof.
  intros Hs. rewrite (menu_turn_choice num w c rest Hs).
  pose proof (dispatch_input_not_longer num (strip c) (after_choice rest w))
    as Hlen.
  pose proof (dispatch_true num (strip c) (after_choice rest w)) as Htrue.
  rewrite after_choice_stdin in Hlen.
  unfold try_except.
  destruct (dispatch num (strip c) (after_choice rest w)) as [[b|e] w1] eqn:E;
    simpl in *.
  - exists b. split; [reflexivity|]. split; [|exact Hlen].
    split.
    + intros ->. apply Htrue. reflexivity.
    + intros H0. rewrite H0 in E. unfold dispatch in E. simpl in E.
      unfold bind, print, ret in E. simpl in E. injection E as <- _.
      reflexivity.
  - exists false.
    destruct (is_ValueError e); unfold bind, print_exc, ret; simpl;
      (split; [reflexivity|]); (split; [|exact Hlen]);
      (split; [discriminate|]);
      intros H0; rewrite H0 in E; unfold dispatch in E; simpl in E;
      unfold bind, print, ret in E; simpl in E; discriminate E.
Qed.

(** X4.  One turn of the loop never lets an exception of its branch out once
    the choice is read.  Whatever the branch raises is caught and
    reported with the exception, a ValueError as "Input error:" and any
    other (an end of input in the middle of a form, a lost connection, an
    Error out of stats) as "Unexpected error:", and the turn returns to
    the loop; a branch that raises nothing leaves its own result and
    trace.  The turn asks to leave exactly when the trimmed choice is
    "0", and the lines left to type afterwards are an end of those that
    followed the choice. *)
Theorem menu_turn_returns num w c rest :
  stdin w = c :: rest ->
  let branch := dispatch num (strip c) (after_choice rest w) in
  menu_turn num w
  = match fst branch with
    | Val stop => (Val stop, snd branch)
    | Exn e =>
        (Val false,
         emit (PrintedExc (if is_ValueError e then "Input error:"
                           else "Unexpected error:") e)
              (snd branch))
    end /\
  exists stop taken,
    fst (menu_turn num w) = Val stop /\
    (stop = true <-> strip c = "0") /\
    rest = taken ++ stdin (snd (menu_turn num w)).
Proof.
  intros Hs. cbv zeta. split.
  - rewrite (menu_turn_choice num w c rest Hs). unfold try_except.
    destruct (dispatch num (strip c) (after_choice rest w)) as [[b|e] w1];
      cbn [fst snd is_Exception]; [reflexivity|].
    destruct (is_ValueError e); reflexivity.
  - destruct (menu_turn_outcome num w c rest Hs) as (stop & Hv & Hiff & _).
    destruct (menu_turn_suffix num w c rest Hs) as [taken Ht].
    exists stop, taken. repeat split; try assumption; apply Hiff.
Qed.

Lemma menu_turn_returns_witness :
  (stdin (set_stdin ["2"; "0"] world_down) = ["2"; "0"] /\
   let r := menu_turn decimal_numerals (set_stdin ["2"; "0"] world_down) in
   fst r = Val false /\
   last (out (snd r)) (Printed "")
   = PrintedExc "Unexpected error:" (RuntimeError "DB connection failed") /\
   stdin (snd r) = ["0"]) /\
  (stdin (set_stdin ["1"; "  "; "0"] world_up) = ["1"; "  "; "0"] /\
   let r := menu_turn decimal_numerals (set_stdin ["1"; "  "; "0"] world_up) in
   fst r = Val false /\
   last (out (snd r)) (Printed "")
   = PrintedExc "Input error:" (ValueError "Roll no cannot be empty.") /\
   stdin (snd r) = ["0"]).
Proof.
  split.
  - split; [reflexivity|]. cbv zeta.
    destruct (menu_turn_returns decimal_numerals
                (set_stdin ["2"; "0"] world_down) "2" ["0"] eq_refl)
      as [E _].
    rewrite E. repeat split; vm_compute; reflexivity.
  - split; [reflexivity|]. cbv zeta.
    destruct (menu_turn_returns decimal_numerals
                (set_stdin ["1"; "  "; "0"] world_up) "1" ["  "; "0"] eq_refl)
      as [E _].
    rewrite E. repeat split; vm_compute; reflexivity.
Defined.

(** At the end of input the choice prompt raises EOFError, outside the
    [try]. *)
Lemma menu_turn_eof num w :
  stdin w = [] -> fst (menu_turn num w) = Exn EOFError.
Proof.
  intros Hs. unfold menu_turn. unfold bind at 1.
  destruct (print_menu w) as [r w1] eqn:E.
  unfold print_menu, bind, print in E. injection E as <- <-.
  unfold bind, input. simpl. rewrite Hs. reflexivity.
Qed.

(** The loop on a finite input, by induction on the turns. *)
Lemma main_menu_finishes num : forall fuel w,
  List.length (stdin w) < fuel ->
  fst (main_menu num fuel w) = Val true \/
  fst (main_menu num fuel w) = Exn EOFError.
Proof.
  induction fuel as [|fuel IH]; intros w Hlt; [lia|].
  simpl. unfold bind.
  destruct (stdin w) as [|c rest] eqn:Hs.
  - pose proof (menu_turn_eof num w Hs) as He.
    destruct (menu_turn num w) as [r w1]. simpl in He. subst r.
    right. reflexivity.
  - destruct (menu_turn_outcome num w c rest Hs) as (stop & Hv & _ & Hlen).
    destruct (menu_turn num w) as [r w1]. simpl in Hv, Hlen. subst r.
    destruct stop; [left; reflexivity|].
    apply IH. simpl in Hlt. lia.
Qed.

(** X5.  On a finite input the loop ends: given more turns than there are
    typed lines, main_menu either leaves through choice 0, and then a
    typed line trims to "0", or stops with the EOFError of the choice
    prompt; it never runs out of turns. *)
Theorem main_menu_ends num : forall fuel w,
  List.length (stdin w) < fuel ->
  (fst (main_menu num fuel w) = Val true /\
   exists line, In line (stdin w) /\ strip line = "0") \/
  fst (main_menu num fuel w) = Exn EOFError.
Proof.
  induction fuel as [|fuel IH]; intros w Hlt; [lia|].
  simpl. unfold bind.
  destruct (stdin w) as [|c rest] eqn:Hs.
  - pose proof (menu_turn_eof num w Hs) as He.
    destruct (menu_turn num w) as [r w1]. simpl in He. subst r.
    right. reflexivity.
  - destruct (menu_turn_outcome num w c rest Hs) as (stop & Hv & Hiff & Hlen).
    destruct (menu_turn_suffix num w c rest Hs) as [taken Ht].
    destruct (menu_turn num w) as [r w1]. simpl in Hv, Hlen, Ht. subst r.
    destruct stop.
    + left. split; [reflexivity|]. exists c. split; [left; reflexivity|].
      apply Hiff. reflexivity.
    + destruct (IH w1) as [[Hv [line [Hin Hz]]]|He].
      * simpl in Hlt. lia.
      * left. split; [exact Hv|]. exists line. split; [|exact Hz].
        right. rewrite Ht. apply in_or_app. right. exact Hin.
      * right. exact He.
Qed.

Lemma main_menu_ends_witness :
  List.length (stdin (set_stdin ["2"; "9"; "x"] world_up)) < 4 /\
  fst (main_menu decimal_numerals 4 (set_stdin ["2"; "9"; "x"] world_up))
  = Exn EOFError.
Proof.
  split; [simpl; lia|].
  destruct (main_menu_ends decimal_numerals 4
              (set_stdin ["2"; "9"; "x"] world_up)) as [[_ [l [Hin Hz]]]|He].
  - simpl. lia.
  - exfalso. simpl in Hin.
    destruct Hin as [<-|[<-|[<-|[]]]]; discriminate Hz.
  - exact He.
Defined.

(** ** The program *)

Lemma close_releases w : live (snd (close w)) = false.
Proof. unfold close. destruct (live w) eqn:E; simpl; auto. Qed.

(** X6.  The script as a whole.  When the first connection fails it exits
    with code 1: the menu is never shown, nothing is read and no
    statement is sent.  Otherwise, on a finite input, it ends with code 0
    through choice 0 or with the EOFError of the choice prompt, and on
    both paths the [finally] clause has released the connection. *)
Theorem main_ends num fuel w :
  List.length (stdin w) < fuel ->
  let r := main num fuel w in
  (hd true (connects w) = false ->
   fst r = Exited 1 /\
   out (snd r)
   = out w ++ [Connecting false;
               PrintedExc "Database connection error:" (MySQLError Refused);
               Printed
                 "Cannot continue without DB. Check DB credentials and server."]
   /\ stdin (snd r) = stdin w /\ table (snd r) = table w) /\
  (hd true (connects w) = true ->
   (fst r = Exited 0 \/ fst r = Uncaught EOFError) /\
   live (snd r) = false).
Proof.
  intros Hlt. cbv zeta. unfold main. split; intros Hc.
  - unfold connect.
    destruct (connects w) as [|[] rest]; simpl in Hc; try discriminate.
    simpl. repeat rewrite <- app_assoc. repeat split; reflexivity.
  - assert (Hc1 : exists w1, connect w = (Val true, w1) /\ stdin w1 = stdin w).
    { unfold connect.
      destruct (connects w) as [|[] rest]; simpl in Hc; try discriminate;
        eexists; split; reflexivity. }
    destruct Hc1 as (w1 & E & Hs). rewrite E.
    assert (Hlt1 : List.length (stdin w1) < fuel) by (rewrite Hs; exact Hlt).
    pose proof (main_menu_finishes num fuel w1 Hlt1) as Hend.
    destruct (main_menu num fuel w1) as [r w2]. simpl in Hend.
    cbn [fst snd]. split; [|apply close_releases].
    destruct Hend as [-> | ->]; auto.
Qed.

Lemma main_ends_witness :
  List.length (stdin (set_stdin ["2"; "0"] world_down)) < 3 /\
  hd true (connects (set_stdin ["2"; "0"] world_down)) = false /\
  fst (main decimal_numerals 3 (set_stdin ["2"; "0"] world_down)) = Exited 1.
Proof.
  split; [simpl; lia|]. split; [reflexivity|].
  destruct (main_ends decimal_numerals 3 (set_stdin ["2"; "0"] world_down))
    as [H _]; [simpl; lia|].
  apply H. reflexivity.
Defined.

(** ** Add and look up *)

Lemma absent_existsb roll t :
  absent roll t -> existsb (fun x => String.eqb (r_roll x) roll) t = false.
Proof.
  intros Ha. destruct (existsb _ t) eqn:E; [|reflexivity].
  apply existsb_exists in E. destruct E as [x [Hin Hx]].
  apply String.eqb_eq in Hx. exfalso. exact (Ha x Hin Hx).
Qed.

Lemma absent_filter roll t :
  absent roll t -> filter (fun r => String.eqb (r_roll r) roll) t = [].
Proof.
  induction t as [|r t IH]; intros Ha; simpl; [reflexivity|].
  destruct (String.eqb (r_roll r) roll) eqn:E.
  - apply String.eqb_eq in E. exfalso. apply (Ha r); [left; reflexivity|exact E].
  - apply IH. intros x Hx. apply Ha. right. exact Hx.
Qed.

(** X7.  A student added under a roll number that is not yet stored is what
    a look-up of that roll number returns next: the row is appended with
    the name, marks and grade given, and get_by_roll yields exactly it. *)
Theorem add_then_get num s q w :
  live w = true ->
  calm 2 w ->
  marks s = Fin q ->
  absent (roll_no s) (table w) ->
  let row := mkRow (roll_no s) (name s) (Some q) (grade s) in
  let r := add_student num s w in
  fst r = Val tt /\
  table (snd r) = table w ++ [row] /\
  last (out (snd r)) (Printed "") = Printed "Student added." /\
  fst (get_student_by_roll num (roll_no s) (snd r)) = Val (Some (dict_of_row row)).
Proof.
  intros Hl Hc Hm Ha. cbv zeta.
  assert (E : add_student num s w =
              (Val tt,
               emit (Printed "Student added.")
                 (emit Committed
                    (set_table
                       (table w ++ [mkRow (roll_no s) (name s) (Some q) (grade s)])
                       (set_faults (tl (faults w))
                          (emit (Sent (InsertStudent (PStr (roll_no s))
                                         (PStr (name s)) (PFloat (marks s))
                                         (PStr (grade s)))) w)))))).
  { unfold add_student, try_except, bind, print.
    rewrite execute_ok; [|exact Hl|apply calm_less; exact Hc].
    simpl. rewrite Hm. simpl. rewrite (absent_existsb _ _ Ha). reflexivity. }
  rewrite E. cbn [fst snd]. split; [reflexivity|]. split; [reflexivity|].
  split; [simpl; apply last_last|].
  rewrite get_student_by_roll_ok;
    [| exact Hl | eapply calm_tail; [exact Hc | reflexivity] ].
  cbn [fst table emit set_table]. rewrite filter_app, (absent_filter _ _ Ha).
  simpl. rewrite String.eqb_refl. reflexivity.
Qed.

Lemma add_then_get_witness :
  live world_up = true /\ calm 2 world_up /\
  absent "S3" (table world_up) /\
  fst (get_student_by_roll decimal_numerals "S3"
         (snd (add_student decimal_numerals
                 (mkStudent "S3" "Mira" (Fin 70%Q) "B") world_up)))
  = Val (Some (dict_of_row (mkRow "S3" "Mira" (Some 70%Q) "B"))).
Proof.
  assert (Ha : absent "S3" (table world_up)).
  { intros r [<-|[<-|[]]]; discriminate. }
  split; [reflexivity|]. split; [reflexivity|]. split; [exact Ha|].
  apply (add_then_get decimal_numerals (mkStudent "S3" "Mira" (Fin 70%Q) "B")
           70%Q world_up eq_refl eq_refl eq_refl Ha).
Defined.

(** X8.  Adding under a roll number that is already stored changes nothing:
    the server's duplicate-key Error is caught, reported as
    "Error adding student:", nothing is committed and the stored row
    keeps its name, marks and grade. *)
Theorem add_duplicate num s q w :
  live w = true ->
  calm 1 w ->
  marks s = Fin q ->
  (exists r, In r (table w) /\ r_roll r = roll_no s) ->
  let r := add_student num s w in
  fst r = Val tt /\
  table (snd r) = table w /\
  out (snd r)
  = out w ++ [Sent (InsertStudent (PStr (roll_no s)) (PStr (name s))
                                  (PFloat (Fin q)) (PStr (grade s)));
              PrintedExc "Error adding student:" (MySQLError Duplicate)].
Proof.
  intros Hl Hc Hm [r0 [Hin Hk]]. cbv zeta.
  unfold add_student, try_except, bind, print, print_exc.
  rewrite execute_ok by assumption. simpl. rewrite Hm. simpl.
  assert (Ex : existsb (fun x => String.eqb (r_roll x) (roll_no s)) (table w)
               = true).
  { apply existsb_exists. exists r0. split; [exact Hin|].
    rewrite Hk. apply String.eqb_refl. }
  rewrite Ex. simpl. rewrite <- app_assoc. repeat split; reflexivity.
Qed.

Lemma add_duplicate_witness :
  live world_up = true /\ calm 1 world_up /\
  (exists r, In r (table world_up) /\ r_roll r = "S1") /\
  table (snd (add_student decimal_numerals
                (mkStudent "S1" "Twin" (Fin 10%Q) "D") world_up))
  = table world_up.
Proof.
  assert (Hex : exists r, In r (table world_up) /\ r_roll r = "S1")
    by (eexists; split; [left; reflexivity | reflexivity]).
  split; [reflexivity|]. split; [reflexivity|]. split; [exact Hex|].
  apply (add_duplicate decimal_numerals (mkStudent "S1" "Twin" (Fin 10%Q) "D")
           10%Q world_up eq_refl eq_refl eq_refl Hex).
Defined.

(** ** View all *)

Lemma insert_by_roll_perm x l : Permutation (insert_by_roll x l) (x :: l).
Proof.
  induction l as [|y l IH]; simpl; [reflexivity|].
  destruct (String.leb (r_roll x) (r_roll y)); [reflexivity|].
  rewrite IH. apply perm_swap.
Qed.

Lemma order_by_roll_perm l : Permutation (order_by_roll l) l.
Proof.
  induction l as [|x l IH]; simpl; [reflexivity|].
  rewrite insert_by_roll_perm. apply perm_skip. exact IH.
Qed.

Lemma insert_by_roll_sorted x l : by_roll l -> by_roll (insert_by_roll x l).
Proof.
  unfold by_roll. induction l as [|y l IH]; simpl; intros Hs.
  - repeat constructor.
  - destruct (String.leb (r_roll x) (r_roll y)) eqn:E.
    + constructor; [exact Hs|]. constructor. exact E.
    + inversion Hs as [|? ? Hs' Hhd]; subst.
      constructor; [apply IH; exact Hs'|].
      assert (Hyx : String.leb (r_roll y) (r_roll x) = true).
      { destruct (String.leb_total (r_roll x) (r_roll y)) as [H|H];
          [rewrite H in E; discriminate | exact H]. }
      destruct l as [|z l]; simpl.
      * constructor. exact Hyx.
      * destruct (String.leb (r_roll x) (r_roll z)).
        -- constructor. exact Hyx.
        -- inversion Hhd; subst. constructor. assumption.
Qed.

Lemma order_by_roll_sorted l : by_roll (order_by_roll l).
Proof.
  induction l as [|x l IH]; simpl; [constructor|].
  apply insert_by_roll_sorted. exact IH.
Qed.

(** X9.  view_all returns every stored row exactly once, in ascending roll
    number, and prints them as one frame; on an empty table it returns
    the empty list and prints "No students found." instead, which is not
    the line of a failed query. *)
Theorem view_students_sorted num w :
  live w = true ->
  calm 1 w ->
  exists sorted,
    fst (view_students num w) = Val (map dict_of_row sorted) /\
    Permutation sorted (table w) /\
    by_roll sorted /\
    out (snd (view_students num w))
    = out w ++ [Sent SelectAll;
                match sorted with
                | [] => Printed "No students found."
                | _ => PrintedFrame (map dict_of_row sorted)
                end].
Proof.
  intros Hl Hc. exists (order_by_roll (table w)).
  split; [apply view_students_ok; assumption|].
  split; [apply order_by_roll_perm|]. split; [apply order_by_roll_sorted|].
  unfold view_students, try_except, bind. rewrite execute_ok by assumption.
  simpl. destruct (order_by_roll (table w)); simpl;
    rewrite <- app_assoc; reflexivity.
Qed.

Lemma view_students_sorted_witness :
  live world_ties = true /\ calm 1 world_ties /\
  exists sorted,
    fst (view_students decimal_numerals world_ties)
    = Val (map dict_of_row sorted) /\
    Permutation sorted (table world_ties) /\ by_roll sorted.
Proof.
  split; [reflexivity|]. split; [reflexivity|].
  destruct (view_students_sorted decimal_numerals world_ties eq_refl eq_refl)
    as (sorted & Hv & Hp & Hs & _).
  exists sorted. auto.
Defined.

(** ** Update and delete *)

(** X10.  Updating a roll number that is not stored sends no UPDATE: after the
    look-up the operation prints "Student not found." and returns,
    whichever fields were supplied. *)
Theorem update_absent num roll n m g w :
  live w = true ->
  calm 1 w ->
  absent roll (table w) ->
  let r := update_student num roll n m g w in
  fst r = Val tt /\
  table (snd r) = table w /\
  out (snd r) = out w ++ [Sent (SelectByRoll (PStr roll));
                          Printed "Student not found."].
Proof.
  intros Hl Hc Ha. cbv zeta. unfold update_student, bind, print.
  rewrite get_student_by_roll_ok by assumption.
  rewrite (absent_filter _ _ Ha). simpl. rewrite <- app_assoc.
  repeat split; reflexivity.
Qed.

Lemma update_absent_witness :
  live world_up = true /\ calm 1 world_up /\ absent "S9" (table world_up) /\
  table (snd (update_student decimal_numerals "S9" (Some "Nobody")
                             (Some (Fin 1%Q)) None world_up))
  = table world_up.
Proof.
  assert (Ha : absent "S9" (table world_up)).
  { intros r [<-|[<-|[]]]; discriminate. }
  split; [reflexivity|]. split; [reflexivity|]. split; [exact Ha|].
  apply (update_absent decimal_numerals "S9" (Some "Nobody") (Some (Fin 1%Q))
           None world_up eq_refl eq_refl Ha).
Defined.

Lemma last_after {A} (l1 l2 : list A) d :
  l2 <> [] -> last (l1 ++ l2) d = last l2 d.
Proof.
  intros Hne. induction l1 as [|x l1 IH]; [reflexivity|].
  simpl. rewrite IH. destruct (l1 ++ l2) eqn:E; [|reflexivity].
  apply app_eq_nil in E. destruct E as [_ E]. contradiction.
Qed.

(** The SET clause can be sent unless the marks supplied are an
    infinity. *)
Lemma supplied_sendable n m g :
  forallb sendable (map snd (supplied n m g))
  = negb (match m with Some x => is_inf x | None => false end).
Proof. destruct n, m as [[x| | |]|], g; reflexivity. Qed.

(** X11.  update writes exactly the fields it is given: the SET clause names
    the supplied fields, in the order name, marks, grade, with the roll
    number as last parameter.  Every row under the key takes the supplied
    values, not-a-number marks as missing marks, and keeps the others; no
    other row changes.  When the marks supplied are an infinity the
    server rejects the statement: no row changes and
    "Error updating student:" is printed. *)
Theorem update_supplied_fields num roll n m g w :
  live w = true ->
  calm 2 w ->
  (exists r, In r (table w) /\ r_roll r = roll) ->
  supplied n m g <> [] ->
  let r := update_student num roll n m g w in
  let infinite := match m with Some x => is_inf x | None => false end in
  fst r = Val tt /\
  sents (out (snd r))
  = sents (out w)
    ++ [SelectByRoll (PStr roll);
        UpdateStudent (map fst (supplied n m g))
                      (map snd (supplied n m g) ++ [PStr roll])] /\
  (infinite = false ->
   table (snd r) = map (with_fields roll n m g) (table w) /\
   last (out (snd r)) (Printed "") = Printed "Student updated.") /\
  (infinite = true ->
   table (snd r) = table w /\
   last (out (snd r)) (Printed "")
   = PrintedExc "Error updating student:" (MySQLError BadValue)).
Proof.
  intros Hl Hc Hex Hne. cbv zeta.
  pose proof (update_student_run num roll n m g w Hl Hc Hex Hne) as Hr.
  cbv zeta in Hr. rewrite Hr, supplied_sendable.
  destruct (match m with Some x => is_inf x | None => false end);
    cbn [negb fst snd table out emit set_table set_faults];
    repeat rewrite sents_app; cbn [sents]; repeat rewrite app_nil_r;
    repeat rewrite <- app_assoc; cbn [app];
    (split; [reflexivity|]); (split; [reflexivity|]);
    (split; intros Hi; try discriminate Hi);
    (split; [reflexivity|]);
    rewrite last_after by discriminate; reflexivity.
Qed.

Lemma update_supplied_fields_witness :
  live world_up = true /\ calm 2 world_up /\
  (exists r, In r (table world_up) /\ r_roll r = "S1") /\
  supplied (Some "Asha K") (Some NaN) (Some "A+") <> [] /\
  table (snd (update_student decimal_numerals "S1" (Some "Asha K") (Some NaN)
                             (Some "A+") world_up))
  = [mkRow "S1" "Asha K" None "A+";
     mkRow "S2" "Ravi" (Some (171 # 2)%Q) "B+"] /\
  table (snd (update_student decimal_numerals "S1" (Some "Asha K")
                             (Some PosInf) (Some "A+") world_up))
  = table world_up.
Proof.
  assert (Hex : exists r, In r (table world_up) /\ r_roll r = "S1")
    by (eexists; split; [left; reflexivity | reflexivity]).
  split; [reflexivity|]. split; [reflexivity|]. split; [exact Hex|].
  split; [discriminate|]. split.
  - destruct (update_supplied_fields decimal_numerals "S1" (Some "Asha K")
                (Some NaN) (Some "A+") world_up eq_refl eq_refl Hex)
      as (_ & _ & H & _); [discriminate|].
    destruct (H eq_refl) as [Ht _]. exact Ht.
  - destruct (update_supplied_fields decimal_numerals "S1" (Some "Asha K")
                (Some PosInf) (Some "A+") world_up eq_refl eq_refl Hex)
      as (_ & _ & _ & H); [discriminate|].
    destruct (H eq_refl) as [Ht _]. exact Ht.
Defined.

(** X12.  After a delete the roll number is gone for a look-up, and every row
    under another roll number is still stored, in the order it had. *)
Theorem delete_then_get num roll w :
  live w = true ->
  calm 2 w ->
  let w1 := snd (delete_student num roll w) in
  fst (get_student_by_roll num roll w1) = Val None /\
  filter (fun r => negb (String.eqb (r_roll r) roll)) (table w) = table w1 /\
  (forall r, r_roll r <> roll -> (In r (table w1) <-> In r (table w))).
Proof.
  intros Hl Hc. cbv zeta.
  rewrite (delete_student_ok num roll w Hl (calm_less 1 w Hc)). cbn [snd].
  rewrite get_student_by_roll_ok;
    [| exact Hl | eapply calm_tail; [exact Hc | reflexivity] ].
  cbn [fst table emit set_table]. split; [|split; [reflexivity|]].
  - rewrite absent_filter; [reflexivity|].
    intros r Hin E. apply filter_In in Hin. destruct Hin as [_ Hn].
    rewrite E, String.eqb_refl in Hn. discriminate.
  - intros r Hr. rewrite filter_In. split; [tauto|].
    intros Hin. split; [exact Hin|].
    apply negb_true_iff. apply String.eqb_neq. exact Hr.
Qed.

Lemma delete_then_get_witness :
  live world_up = true /\ calm 2 world_up /\
  fst (get_student_by_roll decimal_numerals "S1"
         (snd (delete_student decimal_numerals "S1" world_up)))
  = Val None.
Proof.
  split; [reflexivity|]. split; [reflexivity|].
  apply (delete_then_get decimal_numerals "S1" world_up eq_refl eq_refl).
Defined.

(** ** Backup *)

Lemma file_lookup_store path c fs :
  file_lookup path (file_store path c fs) = Some c.
Proof.
  induction fs as [|[p c'] fs IH]; simpl.
  - rewrite String.eqb_refl. reflexivity.
  - destruct (String.eqb path p) eqn:E; simpl; rewrite E; auto.
Qed.

Lemma file_lookup_store_other path p c fs :
  p <> path -> file_lookup p (file_store path c fs) = file_lookup p fs.
Proof.
  intros Hne. apply String.eqb_neq in Hne.
  induction fs as [|[p' c'] fs IH]; simpl.
  - rewrite Hne. reflexivity.
  - destruct (String.eqb path p') eqn:E; simpl.
    + apply String.eqb_eq in E. subst p'. rewrite Hne. reflexivity.
    + rewrite IH. reflexivity.
Qed.

Lemma order_by_roll_nil t : order_by_roll t = [] -> t = [].
Proof.
  intros E. pose proof (order_by_roll_perm t) as Hp. rewrite E in Hp.
  apply Permutation_nil. exact Hp.
Qed.

Lemma csv_record_row num r :
  csv_record num (keys (dict_of_row r)) (dict_of_row r) = csv_line num r.
Proof. destruct r as [k n [q|] g]; reflexivity. Qed.

Lemma csv_records_rows num l :
  map (csv_record num ["roll_no"; "name"; "marks"; "grade"])
      (map dict_of_row l)
  = map (csv_line num) l.
Proof.
  rewrite map_map. apply map_ext. intros r. apply (csv_record_row num r).
Qed.

Lemma keys_dict_of_row r :
  keys (dict_of_row r) = ["roll_no"; "name"; "marks"; "grade"].
Proof. reflexivity. Qed.

(** X13.  A backup of a table with rows writes, under the given path, the
    header roll_no, name, marks, grade and one line per stored row in
    ascending roll number, missing marks as an empty field; it replaces
    what the file held, touches no other file and leaves the table as it
    was. *)
Theorem backup_writes_table num path w :
  live w = true ->
  calm 1 w ->
  read_only w = false ->
  table w <> [] ->
  let r := backup_to_csv num path w in
  fst r = Val tt /\
  file_lookup path (files (snd r))
  = Some (Table (mkCsv ["roll_no"; "name"; "marks"; "grade"]
                       (map (csv_line num) (order_by_roll (table w))))) /\
  (forall p, p <> path ->
             file_lookup p (files (snd r)) = file_lookup p (files w)) /\
  table (snd r) = table w /\
  last (out (snd r)) (Printed "") = Printed ("Backup saved to " ++ path).
Proof.
  intros Hl Hc Hro Hne. cbv zeta.
  unfold backup_to_csv, bind.
  rewrite view_students_run by assumption.
  assert (Hs : order_by_roll (table w) <> []).
  { intros E. apply Hne. apply order_by_roll_nil. exact E. }
  destruct (order_by_roll (table w)) as [|r0 sorted] eqn:Es; [contradiction|].
  cbn [map]. unfold try_except, write_csv, print.
  cbn [read_only emit set_faults set_table]. rewrite Hro.
  cbn [fst snd files emit set_files table set_faults].
  rewrite keys_dict_of_row.
  split; [reflexivity|]. split.
  - rewrite file_lookup_store. do 3 f_equal.
    apply (csv_records_rows num (r0 :: sorted)).
  - split; [intros p Hp; apply file_lookup_store_other; exact Hp|].
    split; [reflexivity|]. apply last_last.
Qed.

Lemma backup_writes_table_witness :
  live world_up = true /\ calm 1 world_up /\ read_only world_up = false /\
  table world_up <> [] /\
  file_lookup CSV_BACKUP
    (files (snd (backup_to_csv decimal_numerals CSV_BACKUP world_up)))
  = Some (Table (mkCsv ["roll_no"; "name"; "marks"; "grade"]
                       [["S1"; "Asha"; "90.0"; "A"];
                        ["S2"; "Ravi"; "85.5"; "B+"]])).
Proof.
  split; [reflexivity|]. split; [reflexivity|]. split; [reflexivity|].
  split; [discriminate|].
  destruct (backup_writes_table decimal_numerals CSV_BACKUP world_up
              eq_refl eq_refl eq_refl) as (_ & Hf & _).
  - discriminate.
  - rewrite Hf. reflexivity.
Defined.

(** X14.  When the file cannot be opened for writing, backup reports
    "Backup error:" and returns; no file is created or changed and the
    table stays as it was. *)
Theorem backup_unwritable num path w :
  live w = true ->
  calm 1 w ->
  read_only w = true ->
  table w <> [] ->
  let r := backup_to_csv num path w in
  fst r = Val tt /\
  files (snd r) = files w /\
  table (snd r) = table w /\
  last (out (snd r)) (Printed "")
  = PrintedExc "Backup error:" (OSError "cannot open file for writing").
Proof.
  intros Hl Hc Hro Hne. cbv zeta.
  unfold backup_to_csv, bind.
  rewrite view_students_run by assumption.
  assert (Hs : order_by_roll (table w) <> []).
  { intros E. apply Hne. apply order_by_roll_nil. exact E. }
  destruct (order_by_roll (table w)) as [|r0 sorted] eqn:Es; [contradiction|].
  cbn [map]. unfold try_except, write_csv, print_exc.
  cbn [read_only emit set_faults set_table]. rewrite Hro.
  cbn [fst snd files emit set_files table set_faults is_Exception].
  repeat split; try reflexivity. apply last_last.
Qed.

Lemma backup_unwritable_witness :
  let w := mkWorld (table world_up) true [] [] [] [] true [] in
  live w = true /\ calm 1 w /\ read_only w = true /\ table w <> [] /\
  files (snd (backup_to_csv decimal_numerals CSV_BACKUP w)) = [].
Proof.
  cbv zeta.
  split; [reflexivity|]. split; [reflexivity|]. split; [reflexivity|].
  split; [discriminate|].
  destruct (backup_unwritable decimal_numerals CSV_BACKUP
              (mkWorld (table world_up) true [] [] [] [] true [])
              eq_refl eq_refl eq_refl) as (_ & Hf & _).
  - discriminate.
  - exact Hf.
Defined.

(** ** Restore as a sequence of upserts *)

Lemma frame_row_statements num r :
  row_statements num (frame_of_row r)
  = Some (InsertStudent (PStr (r_roll r)) (PStr (r_name r))
            (PFloat (match r_marks r with Some q => Fin q | None => NaN end))
            (PStr (r_grade r)),
          UpdateStudent [col_name; col_marks; col_grade]
            [PStr (r_name r);
             PFloat (match r_marks r with Some q => Fin q | None => NaN end);
             PStr (r_grade r); PStr (r_roll r)]).
Proof. reflexivity. Qed.

Lemma update_rows_whole num r t :
  update_rows num
    [(col_name, PStr (r_name r));
     (col_marks,
      PFloat (match r_marks r with Some q => Fin q | None => NaN end));
     (col_grade, PStr (r_grade r))] (PStr (r_roll r)) t
  = Some (map (fun x => if String.eqb (r_roll x) (r_roll r) then r else x) t).
Proof.
  induction t as [|x t IH]; simpl; [reflexivity|].
  rewrite IH, key_matches_str.
  destruct (String.eqb (r_roll x) (r_roll r)) eqn:E; [|reflexivity].
  apply String.eqb_eq in E. destruct r as [k n [q|] g], x as [k' n' m' g'];
    simpl in *; subst; reflexivity.
Qed.

(** One row of the frame, on a live connection and a server that rejects
    nothing but duplicates. *)
Lemma restore_row_upsert num r w :
  live w = true ->
  faults w = [] ->
  exists w',
    restore_row num (frame_of_row r) w = (Val tt, w') /\
    live w' = true /\ faults w' = [] /\
    table w' = upsert (table w) r.
Proof.
  intros Hl Hf.
  pose proof (update_rows_whole num r (table w)) as Hu.
  unfold upsert.
  destruct r as [k n m g]; destruct m as [q|]; simpl in Hu |- *;
    unfold restore_row, try_except, bind, getitem, lift, ret; simpl;
    rewrite execute_live by assumption; rewrite Hf; simpl;
    (destruct (existsb (fun x => String.eqb (r_roll x) k) (table w)) eqn:Ex;
     [ simpl; rewrite execute_live by assumption; simpl; rewrite Hu; simpl
     | ]);
    eexists; (split; [reflexivity|]); simpl; auto.
Qed.

Lemma restore_rows_upsert num rows : forall w,
  live w = true ->
  faults w = [] ->
  exists w',
    restore_rows num (map frame_of_row rows) w = (Val tt, w') /\
    table w' = fold_left upsert rows (table w).
Proof.
  induction rows as [|r rows IH]; intros w Hl Hf; simpl.
  - exists w. auto.
  - destruct (restore_row_upsert num r w Hl Hf) as (w1 & E1 & L1 & F1 & T1).
    destruct (IH w1 L1 F1) as (w2 & E2 & T2).
    exists w2. unfold bind. rewrite E1, E2, T2, T1. auto.
Qed.

(** [restore_from_csv] over a frame of typed rows. *)
Lemma restore_upserts_rows num path c rows w :
  file_lookup path (files w) = Some (Table c) ->
  read_csv num c = Some (map frame_of_row rows) ->
  live w = true ->
  faults w = [] ->
  fst (restore_from_csv num path w) = Val tt /\
  table (snd (restore_from_csv num path w)) = fold_left upsert rows (table w).
Proof.
  intros Hfile Hread Hl Hf. unfold restore_from_csv, read_file.
  rewrite Hfile, Hread. unfold bind, print.
  destruct (restore_rows_upsert num rows w Hl Hf) as (w' & E & T).
  rewrite E. simpl. split; [reflexivity | exact T].
Qed.

(** X15.  restore puts the rows of the file under their roll numbers one
    after the other: a roll number that is stored has its name, marks and
    grade overwritten (the fallback update), a new one is appended (the
    insert); rows of the table that the file does not name stay. *)
Theorem restore_upserts num path c rows w :
  file_lookup path (files w) = Some (Table c) ->
  read_csv num c = Some (map frame_of_row rows) ->
  live w = true ->
  faults w = [] ->
  let r := restore_from_csv num path w in
  fst r = Val tt /\
  table (snd r) = fold_left upsert rows (table w) /\
  last (out (snd r)) (Printed "") = Printed "Restore complete.".
Proof.
  intros Hfile Hread Hl Hf. cbv zeta. unfold restore_from_csv, read_file.
  rewrite Hfile, Hread. unfold bind, print.
  destruct (restore_rows_upsert num rows w Hl Hf) as (w' & E & T).
  rewrite E. simpl. split; [reflexivity|]. split; [exact T|].
  apply last_last.
Qed.

Lemma restore_upserts_witness :
  let w := set_files (files world_backup)
             (set_table [mkRow "S2" "Old" None "F"; mkRow "S7" "Zoe" None "C"]
                        world_up) in
  live w = true /\ faults w = [] /\
  table (snd (restore_from_csv decimal_numerals CSV_BACKUP w))
  = [mkRow "S2" "Ravi" (Some (171 # 2)%Q) "B+"; mkRow "S7" "Zoe" None "C";
     mkRow "S1" "Asha" (Some 90%Q) "A"].
Proof.
  cbv zeta. split; [reflexivity|]. split; [reflexivity|].
  destruct (restore_upserts decimal_numerals CSV_BACKUP
              (mkCsv ["roll_no"; "name"; "marks"; "grade"]
                     [["S1"; "Asha"; "90.0"; "A"];
                      ["S2"; "Ravi"; "85.5"; "B+"]])
              [mkRow "S1" "Asha" (Some 90%Q) "A";
               mkRow "S2" "Ravi" (Some (171 # 2)%Q) "B+"]
              (set_files (files world_backup)
                 (set_table [mkRow "S2" "Old" None "F";
                             mkRow "S7" "Zoe" None "C"] world_up))
              eq_refl eq_refl eq_refl eq_refl) as (_ & Ht & _).
  rewrite Ht. reflexivity.
Defined.

(** ** Nothing to work on *)

(** X16.  On an empty table stats, plot and backup each say so and do nothing
    else: stats returns no result, plot shows no figure, backup writes no
    file. *)
Theorem empty_table_guards num path w :
  live w = true ->
  calm 1 w ->
  table w = [] ->
  (fst (stats num w) = Val None /\
   out (snd (stats num w))
   = out w ++ [Sent SelectStats; Printed "No data to compute stats."]) /\
  (fst (plot_marks_distribution num w) = Val tt /\
   out (snd (plot_marks_distribution num w))
   = out w ++ [Sent SelectMarks; Printed "No marks to plot."]) /\
  (fst (backup_to_csv num path w) = Val tt /\
   files (snd (backup_to_csv num path w)) = files w /\
   out (snd (backup_to_csv num path w))
   = out w ++ [Sent SelectAll; Printed "No students found.";
               Printed "Nothing to backup."]).
Proof.
  intros Hl Hc Ht.
  unfold stats, plot_marks_distribution, backup_to_csv, bind.
  rewrite view_students_run by assumption.
  repeat rewrite execute_ok by assumption.
  rewrite Ht. simpl. repeat rewrite <- app_assoc.
  repeat split; reflexivity.
Qed.

Lemma empty_table_guards_witness :
  live world_backup = true /\ calm 1 world_backup /\
  table world_backup = [] /\
  fst (stats decimal_numerals world_backup) = Val None.
Proof.
  split; [reflexivity|]. split; [reflexivity|]. split; [reflexivity|].
  apply (empty_table_guards decimal_numerals CSV_BACKUP world_backup
           eq_refl eq_refl eq_refl).
Defined.

(** ** What the figures are *)

(** [stats] with the world it leaves. *)
Lemma stats_run num w :
  live w = true ->
  calm 1 w ->
  table w <> [] ->
  let df := coerce_marks num (map stats_dict_of_row (table w)) in
  let xs := map marks_of df in
  let tops := map (select_cols ["roll_no"; "name"; "marks"]) (nlargest 3 df) in
  stats num w =
  (Val (Some (mkStats (series_mean num xs) (series_median num xs)
                      (series_std num xs) tops)),
   emit (PrintedFrame tops)
     (emit (Printed "Topper(s):")
        (emit (if negb (is_nan (series_std num xs))
               then PrintedNum "Std deviation:" (series_std num xs)
               else Printed "Std deviation: N/A")
           (emit (PrintedNum "Median marks:" (series_median num xs))
              (emit (PrintedNum "Mean marks:" (series_mean num xs))
                 (set_faults (tl (faults w))
                    (emit (Sent SelectStats) w))))))).
Proof.
  intros Hl Hc Hne. cbv zeta. unfold stats, bind.
  rewrite execute_ok by assumption. cbn [run_sql].
  remember (map stats_dict_of_row (table w)) as rs eqn:Ers.
  destruct rs as [|d rs].
  - symmetry in Ers. apply map_eq_nil in Ers. contradiction.
  - cbn [rows_of fst snd]. unfold print_num, print, print_frame, ret.
    cbn [fst snd].
    destruct (negb (is_nan (series_std num
                              (map marks_of (coerce_marks num (d :: rs))))));
      reflexivity.
Qed.

(** X17.  stats prints the mean, the median, the deviation and the toppers,
    in this order, and returns what it prints.  The three figures are the
    library's reductions over the marks stored as numbers, in scan order.
    With no marks stored as numbers the mean and the median are missing;
    with fewer than two the deviation is missing, and is then printed as
    "Std deviation: N/A". *)
Theorem stats_figures num w :
  live w = true ->
  calm 1 w ->
  table w <> [] ->
  let ys := map Fin (known_marks (table w)) in
  exists st,
    fst (stats num w) = Val (Some st) /\
    st_mean st = reduced 1 (float_mean num) ys /\
    st_median st = reduced 1 (float_median num) ys /\
    st_std st = reduced 2 (float_std num) ys /\
    out (snd (stats num w))
    = out w ++ [Sent SelectStats;
                PrintedNum "Mean marks:" (st_mean st);
                PrintedNum "Median marks:" (st_median st);
                (if is_nan (st_std st) then Printed "Std deviation: N/A"
                 else PrintedNum "Std deviation:" (st_std st));
                Printed "Topper(s):";
                PrintedFrame (st_toppers st)] /\
    (List.length ys = 0 -> st_mean st = NaN /\ st_median st = NaN) /\
    (List.length ys < 2 ->
     st_std st = NaN /\
     In (Printed "Std deviation: N/A") (out (snd (stats num w)))).
Proof.
  intros Hl Hc Hne. cbv zeta.
  pose proof (stats_run num w Hl Hc Hne) as Hs. cbv zeta in Hs.
  destruct (series_numeric num (map stats_dict_of_row (table w)))
    as (Hm & Hmed & Hstd).
  rewrite numeric_marks_stored in Hm, Hmed, Hstd.
  rewrite Hs. cbn [fst snd]. eexists. split; [reflexivity|].
  cbn [st_mean st_median st_std st_toppers].
  split; [exact Hm|]. split; [exact Hmed|]. split; [exact Hstd|].
  assert (Hlow : List.length (map Fin (known_marks (table w))) < 2 ->
                 series_std num
                   (map marks_of
                      (coerce_marks num (map stats_dict_of_row (table w))))
                 = NaN).
  { intros Hn. rewrite Hstd. unfold reduced.
    apply Nat.ltb_lt in Hn. rewrite Hn. reflexivity. }
  split; [|split].
  - cbn [out emit set_faults]. repeat rewrite <- app_assoc. cbn [app].
    destruct (is_nan (series_std num _)); reflexivity.
  - intros Hz. rewrite Hm, Hmed. unfold reduced. rewrite Hz. split; reflexivity.
  - intros Hn. split; [apply Hlow; exact Hn|].
    rewrite (Hlow Hn). cbn [is_nan negb out emit set_faults].
    apply in_or_app. left. apply in_or_app. left.
    apply in_or_app. right. left. reflexivity.
Qed.

Lemma stats_figures_witness :
  let w := set_table [mkRow "S1" "Asha" (Some 90%Q) "A";
                      mkRow "S3" "Mira" None "C"] world_up in
  live w = true /\ calm 1 w /\ table w <> [] /\
  exists st,
    fst (stats decimal_numerals w) = Val (Some st) /\
    st_mean st = Fin 90%Q /\
    st_std st = NaN /\
    In (Printed "Std deviation: N/A") (out (snd (stats decimal_numerals w))).
Proof.
  cbv zeta.
  split; [reflexivity|]. split; [reflexivity|]. split; [discriminate|].
  destruct (stats_figures decimal_numerals
              (set_table [mkRow "S1" "Asha" (Some 90%Q) "A";
                          mkRow "S3" "Mira" None "C"] world_up)
              eq_refl eq_refl)
    as (st & Hs & Hm & _ & _ & _ & _ & Hlow); [discriminate|].
  exists st. split; [exact Hs|].
  split; [rewrite Hm; vm_compute; reflexivity|].
  apply Hlow. simpl. lia.
Defined.

(** ** The toppers *)

Lemma In_firstn {A} n (l : list A) x : In x (firstn n l) -> In x l.
Proof.
  revert l. induction n as [|n IH]; intros [|y l]; simpl; try tauto.
  intros [H|H]; [left; exact H | right; apply IH; exact H].
Qed.

Lemma filter_split_length {A} (f : A -> bool) (l : list A) :
  List.length (filter f l) + List.length (filter (fun x => negb (f x)) l)
  = List.length l.
Proof.
  induction l as [|x l IH]; simpl; [reflexivity|].
  destruct (f x); simpl; lia.
Qed.

Lemma coerced_stats_row num r :
  dict_set "marks"
    (PFloat (to_numeric_coerce num
               (match dict_get "marks" (stats_dict_of_row r) with
                | Some v => v
                | None => PFloat NaN
                end))) (stats_dict_of_row r)
  = topper_of_row r.
Proof. destruct r as [k n [q|] g]; reflexivity. Qed.

Lemma coerced_stats_frame num t :
  coerce_marks num (map stats_dict_of_row t) = map topper_of_row t.
Proof.
  unfold coerce_marks. rewrite map_map. apply map_ext.
  intros r. apply coerced_stats_row.
Qed.

(** X18.  The toppers are stored rows, shown as roll number, name and marks:
    as many as there are rows when there are fewer than three, three
    otherwise, also when marks are missing. *)
Theorem toppers_are_rows num w :
  live w = true ->
  calm 1 w ->
  table w <> [] ->
  exists st,
    fst (stats num w) = Val (Some st) /\
    List.length (st_toppers st) = Nat.min 3 (List.length (table w)) /\
    (forall d, In d (st_toppers st) ->
               exists r, In r (table w) /\ d = topper_of_row r).
Proof.
  intros Hl Hc Hne.
  pose proof (stats_ok num w Hl Hc Hne) as Hs. cbv zeta in Hs.
  eexists. split; [exact Hs|]. cbn [st_toppers].
  rewrite coerced_stats_frame. unfold nlargest. split.
  - rewrite length_map, length_firstn, length_app.
    rewrite (Permutation_length (sort_desc_perm _)).
    pose proof (filter_split_length
                  (fun d => negb (is_nan (marks_of d)))
                  (map topper_of_row (table w))) as Hlen.
    rewrite length_map in Hlen.
    assert (Hf : filter (fun x => negb (negb (is_nan (marks_of x))))
                        (map topper_of_row (table w))
                 = filter (fun d => is_nan (marks_of d))
                          (map topper_of_row (table w))).
    { apply filter_ext. intros d. apply negb_involutive. }
    rewrite Hf in Hlen. rewrite Hlen. reflexivity.
  - intros d Hd. apply in_map_iff in Hd. destruct Hd as [x [Ex Hx]].
    apply In_firstn in Hx. apply in_app_or in Hx.
    assert (Hin : In x (map topper_of_row (table w))).
    { destruct Hx as [Hx|Hx].
      - apply (Permutation_in _ (sort_desc_perm _)) in Hx.
        apply filter_In in Hx. tauto.
      - apply filter_In in Hx. tauto. }
    apply in_map_iff in Hin. destruct Hin as [r [Er Hr]].
    exists r. split; [exact Hr|]. subst x d.
    destruct r as [k n [q|] g]; reflexivity.
Qed.

Lemma toppers_are_rows_witness :
  live world_missing = true /\ calm 1 world_missing /\
  table world_missing <> [] /\
  exists st,
    fst (stats decimal_numerals world_missing) = Val (Some st) /\
    List.length (st_toppers st) = 3.
Proof.
  split; [reflexivity|]. split; [reflexivity|]. split; [discriminate|].
  destruct (toppers_are_rows decimal_numerals world_missing eq_refl eq_refl)
    as (st & Hs & Hlen & _); [discriminate|].
  exists st. split; [exact Hs | exact Hlen].
Defined.

(** ** The histogram *)

Lemma plot_values t :
  filter (fun v => negb (is_None v)) (column "marks" (map marks_dict_of_row t))
  = plotted t.
Proof.
  unfold plotted, known_marks, column.
  induction t as [|r t IH]; simpl; [reflexivity|].
  destruct (r_marks r); simpl; rewrite IH; reflexivity.
Qed.

(** X19.  plot hands the histogram the stored marks in scan order and leaves
    out the rows whose marks are missing; when no row has marks, be the
    table empty or not, it prints "No marks to plot." and shows
    nothing. *)
Theorem plot_shows_known_marks num w :
  live w = true ->
  calm 1 w ->
  let r := plot_marks_distribution num w in
  fst r = Val tt /\
  out (snd r)
  = out w ++ [Sent SelectMarks;
              match plotted (table w) with
              | [] => Printed "No marks to plot."
              | ms => Shown ms
              end] /\
  table (snd r) = table w.
Proof.
  intros Hl Hc. cbv zeta. unfold plot_marks_distribution, bind.
  rewrite execute_ok by assumption. cbn [run_sql].
  remember (map marks_dict_of_row (table w)) as rs eqn:Ers.
  destruct rs as [|d rs].
  - symmetry in Ers. apply map_eq_nil in Ers. rewrite Ers. simpl.
    rewrite <- app_assoc. repeat split; reflexivity.
  - cbn [rows_of fst snd]. rewrite Ers, plot_values.
    destruct (plotted (table w)); simpl; rewrite <- app_assoc;
      repeat split; reflexivity.
Qed.

Lemma plot_shows_known_marks_witness :
  live world_missing = true /\ calm 1 world_missing /\
  last (out (snd (plot_marks_distribution decimal_numerals world_missing)))
       (Printed "")
  = Shown [PFloat (Fin 90%Q); PFloat (Fin (171 # 2)%Q)].
Proof.
  split; [reflexivity|]. split; [reflexivity|].
  destruct (plot_shows_known_marks decimal_numerals world_missing
              eq_refl eq_refl) as (_ & Ho & _).
  rewrite Ho. reflexivity.
Defined.

(** ** Validation at the keyboard *)

Lemma Qle_bool_false x y : Qle_bool x y = false <-> ~ (x <= y)%Q.
Proof.
  split.
  - intros E H. apply Qle_bool_iff in H. rewrite H in E. discriminate.
  - intros H. destruct (Qle_bool x y) eqn:E; [|reflexivity].
    apply Qle_bool_iff in E. contradiction.
Qed.

Ltac marks_refused_case :=
  simpl; repeat rewrite sents_app; simpl; repeat rewrite app_nil_r;
  (split; [|split; [|split; [|split; [|split; reflexivity]]]]);
  intros;
  first [ reflexivity
        | match goal with H : _ = _ |- _ => discriminate H end
        | match goal with
          | H : _ \/ _ \/ _ |- _ => destruct H as [H|[H|H]]; discriminate H
          end ].

(** X20.  input_marks accepts a typed number exactly when it lies between 0
    and 100, both included, and it also accepts not-a-number, which
    fails neither comparison; the infinities and texts that are no
    number are refused.  Every refusal carries the same message: the
    "Marks must be between 0 and 100." of the range check is raised
    inside the [try] and replaced.  One line is read and nothing is
    sent. *)
Theorem input_marks_range num w s rest :
  stdin w = s :: rest ->
  let r := input_marks num w in
  let refused :=
    Exn (ValueError "Invalid marks; enter a number between 0 and 100.") in
  (forall q, py_float num (strip s) = Some (Fin q) ->
             (fst r = Val (Fin q) <-> (0 <= q /\ q <= 100)%Q) /\
             (fst r = refused <-> ~ (0 <= q /\ q <= 100)%Q)) /\
  (py_float num (strip s) = Some NaN -> fst r = Val NaN) /\
  (py_float num (strip s) = Some PosInf \/
   py_float num (strip s) = Some NegInf \/
   py_float num (strip s) = None -> fst r = refused) /\
  (forall e, fst r = Exn e -> fst r = refused) /\
  stdin (snd r) = rest /\
  sents (out (snd r)) = sents (out w).
Proof.
  intros Hs. cbv zeta.
  rewrite (input_marks_decision num w s rest Hs). cbv zeta.
  unfold flt, fgt, flt.
  destruct (py_float num (strip s)) as [[q| | |]|] eqn:Ep.
  - assert (Hdec : negb (Qle_bool 0 q) || negb (Qle_bool q 100) = false
                   <-> (0 <= q /\ q <= 100)%Q).
    { rewrite orb_false_iff. repeat rewrite negb_false_iff.
      repeat rewrite Qle_bool_iff. tauto. }
    destruct (negb (Qle_bool 0 q) || negb (Qle_bool q 100)) eqn:Eb;
      simpl; repeat rewrite sents_app; simpl; repeat rewrite app_nil_r;
      (split; [|split; [|split; [|split; [|split; reflexivity]]]]);
      try (intros Hq; discriminate Hq);
      try (intros [Hq|[Hq|Hq]]; discriminate Hq);
      try (intros; reflexivity);
      try (intros e Hq; discriminate Hq);
      intros q' Hq; injection Hq as <-.
    + split; split; intros H; try discriminate H; try reflexivity.
      * apply Hdec in H. discriminate H.
      * intros R. apply Hdec in R. discriminate R.
    + assert (R : (0 <= q /\ q <= 100)%Q) by (apply Hdec; reflexivity).
      split; split; intros H; try discriminate H; try reflexivity;
        try exact R. contradiction.
  - marks_refused_case.
  - marks_refused_case.
  - marks_refused_case.
  - marks_refused_case.
Qed.

Lemma input_marks_range_witness :
  stdin (set_stdin ["100"; "x"] world_up) = ["100"; "x"] /\
  fst (input_marks decimal_numerals (set_stdin ["100"; "x"] world_up))
  = Val (Fin 100%Q).
Proof.
  split; [reflexivity|].
  destruct (input_marks_range decimal_numerals
              (set_stdin ["100"; "x"] world_up) "100" ["x"] eq_refl)
    as (H & _).
  destruct (H 100%Q eq_refl) as [[_ Hin] _].
  apply Hin. split; discriminate.
Defined.

(** The Add branch, spelled out: the four fields are read in the order
    roll number, name, marks, grade, and the first that does not
    validate ends the branch with its ValueError before the later ones
    are asked for. *)
Lemma dispatch_add num w rl nl ml gl rest :
  stdin w = rl :: nl :: ml :: gl :: rest ->
  let w1 := typed "Enter Roll No: " (nl :: ml :: gl :: rest) w in
  let w2 := typed "Enter Name: " (ml :: gl :: rest) w1 in
  let w3 := typed "Enter Marks (0-100): " (gl :: rest) w2 in
  let w4 := typed "Enter Grade (e.g. A, B+, C): " rest w3 in
  dispatch num "1" w =
  if nonempty (strip rl) then
    if nonempty (strip nl) then
      match marks_accepted num ml with
      | Some m =>
          if nonempty (strip gl) then
            (add_student num (mkStudent (strip rl) (strip nl) m (strip gl))
             ;;; ret false) w4
          else (Exn (ValueError "Grade cannot be empty."), w4)
      | None =>
          (Exn (ValueError
                  "Invalid marks; enter a number between 0 and 100."), w3)
      end
    else (Exn (ValueError "Name cannot be empty."), w2)
  else (Exn (ValueError "Roll no cannot be empty."), w1).
Proof.
  intros Hs. cbv zeta.
  destruct w as [t l cs fs si fl ro o]. simpl in Hs. subst si.
  unfold dispatch. change (String.eqb "1" "1") with true. cbv iota.
  unfold input_roll, input_name, input_marks, input_grade, marks_accepted,
         typed, bind, input, try_except, lift, py_to_float, raise, ret.
  world_step.
  destruct (nonempty (strip rl)); world_step; [|reflexivity].
  destruct (nonempty (strip nl)); world_step; [|reflexivity].
  destruct (py_float num (strip ml)) as [m|]; world_step; [|reflexivity].
  destruct (flt m (Fin 0%Q) || fgt m (Fin 100%Q)); world_step;
    [reflexivity|].
  destruct (nonempty (strip gl)); world_step; reflexivity.
Qed.

Lemma typed_frame prompt rest w :
  table (typed prompt rest w) = table w /\
  live (typed prompt rest w) = live w /\
  sents (out (typed prompt rest w)) = sents (out w).
Proof.
  unfold typed. simpl. rewrite sents_app. simpl. rewrite app_nil_r.
  repeat split; reflexivity.
Qed.

(** [add_student] on a live connection always sends its INSERT and
    returns. *)
Lemma add_student_live num s w :
  live w = true ->
  let r := add_student num s w in
  fst r = Val tt /\
  sents (out (snd r))
  = sents (out w) ++ [InsertStudent (PStr (roll_no s)) (PStr (name s))
                                    (PFloat (marks s)) (PStr (grade s))].
Proof.
  intros Hl. cbv zeta. unfold add_student, try_except, bind, print, print_exc.
  rewrite execute_live by assumption.
  destruct (run_sql num
              (InsertStudent (PStr (roll_no s)) (PStr (name s))
                             (PFloat (marks s)) (PStr (grade s))) (table w))
    as [why|[t' rows]];
    destruct (faults w) as [|[] fs]; cbn [fst snd out emit set_table
      set_faults is_Error];
    repeat rewrite sents_app; cbn [sents]; repeat rewrite app_nil_r;
    split; reflexivity.
Qed.

(** A failed validation in the Add branch, under the handlers of the
    turn. *)
Lemma input_error_reported (body : M bool) msg w0 w1 :
  body w0 = (Exn (ValueError msg), w1) ->
  try_except body is_Exception
    (fun e =>
       if is_ValueError e then print_exc "Input error:" e ;;; ret false
       else print_exc "Unexpected error:" e ;;; ret false) w0
  = (Val false, emit (PrintedExc "Input error:" (ValueError msg)) w1).
Proof. intros E. unfold try_except. rewrite E. reflexivity. Qed.

(** X21.  The Add flow sends nothing until all four fields validate.  When the
    roll number, the name or the grade is blank after trimming, or the
    marks are not accepted, the turn prints "Input error:" with the
    ValueError, sends no statement and leaves the table as it was; when
    all four validate, one INSERT with the trimmed texts and the accepted
    marks is sent.  Either way the loop goes on. *)
Theorem add_flow_validates num w c rl nl ml gl rest :
  stdin w = c :: rl :: nl :: ml :: gl :: rest ->
  strip c = "1" ->
  let r := menu_turn num w in
  let complete :=
    nonempty (strip rl) && nonempty (strip nl)
    && is_some (marks_accepted num ml) && nonempty (strip gl) in
  (complete = false ->
   fst r = Val false /\
   sents (out (snd r)) = sents (out w) /\
   table (snd r) = table w /\
   exists msg,
     last (out (snd r)) (Printed "")
     = PrintedExc "Input error:" (ValueError msg)) /\
  (complete = true ->
   live w = true ->
   exists m,
     marks_accepted num ml = Some m /\
     fst r = Val false /\
     sents (out (snd r))
     = sents (out w)
       ++ [InsertStudent (PStr (strip rl)) (PStr (strip nl)) (PFloat m)
                         (PStr (strip gl))]).
Proof.
  intros Hs Hc. cbv zeta.
  rewrite (menu_turn_choice num w c _ Hs), Hc.
  pose proof (after_choice_frame (rl :: nl :: ml :: gl :: rest) w)
    as (At & Al & _ & As & Ao).
  pose proof (dispatch_add num _ rl nl ml gl rest As) as Hd. cbv zeta in Hd.
  set (w0 := after_choice (rl :: nl :: ml :: gl :: rest) w) in *.
  set (w1 := typed "Enter Roll No: " (nl :: ml :: gl :: rest) w0) in *.
  set (w2 := typed "Enter Name: " (ml :: gl :: rest) w1) in *.
  set (w3 := typed "Enter Marks (0-100): " (gl :: rest) w2) in *.
  set (w4 := typed "Enter Grade (e.g. A, B+, C): " rest w3) in *.
  destruct (typed_frame "Enter Roll No: " (nl :: ml :: gl :: rest) w0)
    as (T1 & L1 & O1).
  destruct (typed_frame "Enter Name: " (ml :: gl :: rest) w1)
    as (T2 & L2 & O2).
  destruct (typed_frame "Enter Marks (0-100): " (gl :: rest) w2)
    as (T3 & L3 & O3).
  destruct (typed_frame "Enter Grade (e.g. A, B+, C): " rest w3)
    as (T4 & L4 & O4).
  fold w1 in T1, L1, O1. fold w2 in T2, L2, O2.
  fold w3 in T3, L3, O3. fold w4 in T4, L4, O4.
  assert (Hrep : forall msg wk,
            dispatch num "1" w0 = (Exn (ValueError msg), wk) ->
            table wk = table w -> sents (out wk) = sents (out w) ->
            let r := try_except (dispatch num "1") is_Exception
                       (fun e =>
                          if is_ValueError e
                          then print_exc "Input error:" e ;;; ret false
                          else print_exc "Unexpected error:" e ;;; ret false)
                       w0 in
            fst r = Val false /\
            sents (out (snd r)) = sents (out w) /\
            table (snd r) = table w /\
            exists msg',
              last (out (snd r)) (Printed "")
              = PrintedExc "Input error:" (ValueError msg')).
  { intros msg wk E Ht Ho. cbv zeta.
    rewrite (input_error_reported _ msg w0 wk E). cbn [fst snd].
    split; [reflexivity|]. split.
    - rewrite out_emit, sents_app. simpl. rewrite app_nil_r. exact Ho.
    - split; [rewrite table_emit; exact Ht|].
      exists msg. rewrite out_emit. apply last_last. }
  split.
  - intros Hcomp.
    destruct (nonempty (strip rl)) eqn:E1.
    + destruct (nonempty (strip nl)) eqn:E2.
      * destruct (marks_accepted num ml) as [m|] eqn:E3.
        -- destruct (nonempty (strip gl)) eqn:E4; [discriminate Hcomp|].
           apply (Hrep _ w4 Hd); congruence.
        -- apply (Hrep _ w3 Hd); congruence.
      * apply (Hrep _ w2 Hd); congruence.
    + apply (Hrep _ w1 Hd); congruence.
  - intros Hcomp Hl.
    destruct (nonempty (strip rl)); [|discriminate Hcomp].
    destruct (nonempty (strip nl)); [|discriminate Hcomp].
    destruct (marks_accepted num ml) as [m|]; [|discriminate Hcomp].
    destruct (nonempty (strip gl)); [|discriminate Hcomp].
    exists m. split; [reflexivity|].
    assert (Hl4 : live w4 = true) by congruence.
    destruct (add_student_live num
                (mkStudent (strip rl) (strip nl) m (strip gl)) w4 Hl4)
      as [Hv Hse].
    unfold try_except. rewrite Hd. unfold bind.
    destruct (add_student num (mkStudent (strip rl) (strip nl) m (strip gl)) w4)
      as [res w5].
    cbn [fst snd] in Hv, Hse. subst res. cbn [fst snd ret].
    split; [reflexivity|]. rewrite Hse. cbn [roll_no name marks grade].
    f_equal. congruence.
Qed.

Lemma add_flow_validates_witness :
  stdin (set_stdin ["1"; "S3"; "  "; "70"; "B"] world_up)
  = ["1"; "S3"; "  "; "70"; "B"] /\
  strip "1" = "1" /\
  table (snd (menu_turn decimal_numerals
                        (set_stdin ["1"; "S3"; "  "; "70"; "B"] world_up)))
  = table world_up.
Proof.
  split; [reflexivity|]. split; [reflexivity|].
  destruct (add_flow_validates decimal_numerals
              (set_stdin ["1"; "S3"; "  "; "70"; "B"] world_up)
              "1" "S3" "  " "70" "B" [] eq_refl eq_refl) as [H _].
  destruct (H eq_refl) as (_ & _ & Ht & _). exact Ht.
Defined.

(** ** The connection is reused *)

(** X22.  A connection, once live, is reused: on a live connection execute
    attempts no connection and leaves it live, whatever becomes of the
    statement; and after a reconnection that succeeded, the execute that
    follows attempts none, so two statements in a row from a lost
    connection make one attempt in all. *)
Theorem connection_reused num q1 c1 f1 q2 c2 f2 w :
  (live w = true ->
   attempts (out (snd (execute num q1 c1 f1 w))) = attempts (out w) /\
   live (snd (execute num q1 c1 f1 w)) = true) /\
  (live w = false ->
   hd true (connects w) = true ->
   let w1 := snd (execute num q1 c1 f1 w) in
   let w2 := snd (execute num q2 c2 f2 w1) in
   live w1 = true /\
   attempts (out w1) = S (attempts (out w)) /\
   attempts (out w2) = S (attempts (out w))).
Proof.
  split.
  - intros Hl. apply (execute_live_trace num q1 c1 f1 w Hl).
  - intros Hl Hc. cbv zeta.
    rewrite (execute_reconnect num q1 c1 f1 w Hl Hc).
    match goal with
    | |- context [execute num q1 c1 f1 ?w0] =>
        destruct (execute_live_trace num q1 c1 f1 w0 eq_refl) as [Ha Hl1]
    end.
    cbv zeta in Ha, Hl1.
    split; [exact Hl1|].
    assert (H1 : attempts
                   (out (snd (execute num q1 c1 f1
                                (set_live true
                                   (emit (Connecting true)
                                      (set_connects (tl (connects w)) w))))))
                 = S (attempts (out w))).
    { rewrite Ha. simpl. count_attempts. }
    split; [exact H1|].
    match goal with
    | |- context [execute num q2 c2 f2 ?w1] =>
        destruct (execute_live_trace num q2 c2 f2 w1 Hl1) as [Hb _]
    end.
    cbv zeta in Hb. rewrite Hb. exact H1.
Qed.

Lemma connection_reused_witness :
  let w := set_connects [true] (set_live false world_up) in
  live w = false /\ hd true (connects w) = true /\
  attempts (out (snd (execute decimal_numerals SelectStats false true
                        (snd (execute decimal_numerals SelectAll false true
                                      w)))))
  = 1.
Proof.
  cbv zeta. split; [reflexivity|]. split; [reflexivity|].
  destruct (connection_reused decimal_numerals SelectAll false true
              SelectStats false true
              (set_connects [true] (set_live false world_up))) as [_ H].
  destruct (H eq_refl eq_refl) as (_ & _ & H2). exact H2.
Defined.

(** ** Backup, then restore, when the reader retypes nothing *)

(** [backup_to_csv] with the world it leaves. *)
Lemma backup_run num path w :
  live w = true ->
  calm 1 w ->
  read_only w = false ->
  table w <> [] ->
  let rows := order_by_roll (table w) in
  backup_to_csv num path w =
  (Val tt,
   emit (Printed ("Backup saved to " ++ path))
     (emit (Saved path)
        (set_files
           (file_store path
              (Table (mkCsv ["roll_no"; "name"; "marks"; "grade"]
                            (map (csv_line num) rows)))
              (files w))
           (emit (PrintedFrame (map dict_of_row rows))
              (set_faults (tl (faults w)) (emit (Sent SelectAll) w)))))).
Proof.
  intros Hl Hc Hro Hne. cbv zeta.
  unfold backup_to_csv, bind.
  rewrite view_students_run by assumption.
  assert (Hs : order_by_roll (table w) <> []).
  { intros E. apply Hne. apply order_by_roll_nil. exact E. }
  destruct (order_by_roll (table w)) as [|r0 sorted] eqn:Es; [contradiction|].
  cbn [map]. unfold try_except, write_csv, print.
  cbn [read_only emit set_faults set_table]. rewrite Hro.
  cbn [fst snd files emit set_files table set_faults].
  rewrite keys_dict_of_row.
  change (dict_of_row r0 :: map dict_of_row sorted)
    with (map dict_of_row (r0 :: sorted)).
  rewrite (csv_records_rows num (r0 :: sorted)). reflexivity.
Qed.

Lemma fold_upsert_fresh l : forall acc,
  unique_rolls (acc ++ l) -> fold_left upsert l acc = acc ++ l.
Proof.
  induction l as [|x l IH]; intros acc U; simpl.
  - rewrite app_nil_r. reflexivity.
  - assert (Hx : existsb (fun y => String.eqb (r_roll y) (r_roll x)) acc
                 = false).
    { destruct (existsb _ acc) eqn:E; [|reflexivity].
      apply existsb_exists in E. destruct E as [y [Hy Ey]].
      apply String.eqb_eq in Ey. exfalso.
      unfold unique_rolls in U. rewrite map_app in U. simpl in U.
      apply NoDup_remove_2 in U. apply U.
      apply in_or_app. left. rewrite <- Ey. apply in_map. exact Hy. }
    unfold upsert at 2. rewrite Hx.
    rewrite IH; rewrite <- app_assoc; [reflexivity | exact U].
Qed.

(** X23.  When pd.read_csv hands back every text field as the text that was
    written and every marks field as the number it was, a backup followed
    by a restore into the emptied table brings back the stored rows, each
    exactly once, in ascending roll number. *)
Theorem backup_restore_round_trip num path w :
  live w = true ->
  faults w = [] ->
  read_only w = false ->
  table w <> [] ->
  unique_rolls (table w) ->
  read_csv num (mkCsv ["roll_no"; "name"; "marks"; "grade"]
                      (map (csv_line num) (order_by_roll (table w))))
  = Some (map frame_of_row (order_by_roll (table w))) ->
  let saved := snd (backup_to_csv num path w) in
  let r := restore_from_csv num path (set_table [] saved) in
  fst r = Val tt /\
  table (snd r) = order_by_roll (table w) /\
  Permutation (table (snd r)) (table w).
Proof.
  intros Hl Hf Hro Hne U Hread. cbv zeta.
  assert (Hc : calm 1 w) by (unfold calm; rewrite Hf; reflexivity).
  pose proof (backup_run num path w Hl Hc Hro Hne) as Hb. cbv zeta in Hb.
  rewrite Hb. cbn [snd].
  match goal with
  | |- context [restore_from_csv num path ?w0] =>
      destruct (restore_upserts_rows num path
                  (mkCsv ["roll_no"; "name"; "marks"; "grade"]
                         (map (csv_line num) (order_by_roll (table w))))
                  (order_by_roll (table w)) w0) as (Hv & Ht)
  end.
  - simpl. apply file_lookup_store.
  - exact Hread.
  - simpl. exact Hl.
  - simpl. rewrite Hf. reflexivity.
  - split; [exact Hv|].
    assert (Hfold : fold_left upsert (order_by_roll (table w)) []
                    = order_by_roll (table w)).
    { apply (fold_upsert_fresh (order_by_roll (table w)) []). simpl.
      unfold unique_rolls in *.
      apply (Permutation_NoDup
               (Permutation_map r_roll
                  (Permutation_sym (order_by_roll_perm (table w))))).
      exact U. }
    rewrite Ht. simpl. rewrite Hfold.
    split; [reflexivity | apply order_by_roll_perm].
Qed.

Lemma backup_restore_round_trip_witness :
  live world_up = true /\ faults world_up = [] /\
  read_only world_up = false /\ table world_up <> [] /\
  unique_rolls (table world_up) /\
  table (snd (restore_from_csv decimal_numerals CSV_BACKUP
                (set_table []
                   (snd (backup_to_csv decimal_numerals CSV_BACKUP
                                       world_up)))))
  = order_by_roll (table world_up).
Proof.
  assert (U : unique_rolls (table world_up)).
  { unfold unique_rolls. simpl. repeat constructor; simpl.
    - intros [H|[]]. discriminate H.
    - intros []. }
  split; [reflexivity|]. split; [reflexivity|]. split; [reflexivity|].
  split; [discriminate|]. split; [exact U|].
  destruct (backup_restore_round_trip decimal_numerals CSV_BACKUP world_up
              eq_refl eq_refl eq_refl) as (_ & Ht & _).
  - discriminate.
  - exact U.
  - reflexivity.
  - exact Ht.
Defined.
